(** * Liveness decision engine: a shallow embedding of the JavaScript sources

    The embedding follows the classes of the repository one module per class.
    JavaScript numbers are IEEE-754 binary64 values, so they are modelled by
    Rocq's primitive floats, whose operations are the binary64 operations;
    integer-valued counters, lengths and array indices are modelled by [nat]
    and [Z].  Mutable objects become records that are passed through every
    method; a method that may raise a [TypeError] returns a [completion]. *)

From Stdlib Require Import String ZArith List Bool Floats Lia.
Import ListNotations.

Set Warnings "-inexact-float".

(** ** JavaScript numbers and the [Math] object *)

Module JS.

Local Open Scope float_scope.

Definition number : Type := float.

Definition isNaN (x : number) : bool := negb (x =? x).

(** [a > b] and [a >= b] of JavaScript: false as soon as one side is NaN. *)
Definition gtb (a b : number) : bool := b <? a.
Definition geb (a b : number) : bool := b <=? a.

(** Exact conversion of an integer to the nearest binary64 value. *)
Definition of_Z (z : Z) : number := SF2Prim (binary_normalize prec emax z 0 false).
Definition of_nat (n : nat) : number := of_Z (Z.of_nat n).

Definition signedMantissa (s : bool) (m : positive) : Z :=
  if s then Z.neg m else Z.pos m.

(** [Math.floor]: a finite value is [(+/-) m * 2^e]; with [e >= 0] it is
    already an integer.  NaN and the infinities are returned unchanged.  The
    sign of a zero result is not tracked. *)
Definition Math_floor (x : number) : number :=
  match Prim2SF x with
  | S754_finite s m e =>
      if (0 <=? e)%Z then x else of_Z (signedMantissa s m / 2 ^ (- e))
  | _ => x
  end.

(** [Math.round]: the integer nearest to [x], ties towards +infinity, that
    is [floor (x + 1/2)] computed exactly. *)
Definition Math_round (x : number) : number :=
  match Prim2SF x with
  | S754_finite s m e =>
      if (0 <=? e)%Z then x
      else of_Z ((2 * signedMantissa s m + 2 ^ (- e)) / 2 ^ (1 - e))
  | _ => x
  end.

(** The integer value of a number that holds an integer (array lengths,
    canvas sizes); a non-finite number gives 0 as a canvas size does. *)
Definition to_Z (x : number) : Z :=
  match Prim2SF x with
  | S754_finite s m e =>
      if (0 <=? e)%Z then signedMantissa s m * 2 ^ e
      else signedMantissa s m / 2 ^ (- e)
  | _ => 0%Z
  end.

Definition Math_abs (x : number) : number := abs x.
Definition Math_sqrt (x : number) : number := sqrt x.

Definition Math_min (a b : number) : number :=
  if isNaN a || isNaN b then nan else if a <? b then a else b.

Definition Math_max (a b : number) : number :=
  if isNaN a || isNaN b then nan else if a <? b then b else a.

(** [Math.pow(x, 2)]. *)
Definition Math_pow2 (x : number) : number := x * x.

(** Truthiness of a number: 0, -0 and NaN are falsy. *)
Definition truthy (x : number) : bool := negb (x =? 0) && negb (isNaN x).

(** [v || 0] where [v] may be [undefined]. *)
Definition orZero (v : option number) : number :=
  match v with
  | Some x => if truthy x then x else 0
  | None => 0
  end.

(** [ToInt32], applied by the bit operators: NaN and the infinities give
    0, other values are truncated and wrapped into [-2^31, 2^31). *)
Definition wrap32 (z : Z) : Z := ((z + 2 ^ 31) mod 2 ^ 32 - 2 ^ 31)%Z.

Definition ToInt32 (x : number) : Z :=
  match Prim2SF x with
  | S754_finite s m e =>
      let t := if (0 <=? e)%Z then (Z.pos m * 2 ^ e)%Z else (Z.pos m / 2 ^ (- e))%Z in
      wrap32 (if s then (- t)%Z else t)
  | _ => 0%Z
  end.

(** [a << k] and [a >> k] on integer operands. *)
Definition shl (a : Z) (k : Z) : Z := wrap32 (Z.shiftl (wrap32 a) k).
Definition shr (a : Z) (k : Z) : Z := Z.shiftr (wrap32 a) k.

(** Storing into a [Float32Array] rounds to binary32 ([Math.fround]). *)
Definition fround (x : number) : number :=
  match Prim2SF x with
  | S754_finite s m e =>
      match binary_normalize 24 128 (signedMantissa s m) e s with
      | S754_finite s' m' e' =>
          SF2Prim (binary_normalize prec emax (signedMantissa s' m') e' s')
      | S754_zero s' => if s' then (- 0) else 0
      | S754_infinity s' => if s' then neg_infinity else infinity
      | S754_nan => nan
      end
  | _ => x
  end.

(** [for (let i = start; i < stop; i += step)] over integers: the values
    taken by [i]. *)
Definition range (start stop step : Z) : list Z :=
  if (step <=? 0)%Z then []
  else map (fun k => (start + Z.of_nat k * step)%Z)
           (seq 0 (Z.to_nat ((stop - start + step - 1) / step))).

(** Result of a call that may raise an exception. *)
Inductive completion (A : Type) : Type :=
| Normal (a : A)
| Throw.
Arguments Normal {A} a.
Arguments Throw {A}.

(** [arr.push(x); if (arr.length > max) arr.shift();] -- the rolling
    history idiom shared by every analyzer. *)
Definition push_shift {A : Type} (max : nat) (arr : list A) (x : A) : list A :=
  let arr' := arr ++ [x] in
  if (max <? length arr')%nat then tl arr' else arr'.

(** [arr.slice(-k)]: the last [k] elements. *)
Definition slice_last {A : Type} (k : nat) (arr : list A) : list A :=
  skipn (length arr - k) arr.

End JS.

(** ** The security score set and its aggregation (main.js, LivenessApp) *)

Module Scores.

Import JS.
Local Open Scope float_scope.

Record SecurityScores : Type := mkScores {
  active : number;
  passive : number;
  antiSpoof : number;
  depth : number;
  eyeReflection : number;
  microExpression : number
}.

(** The object literal of the constructor and of [resetApp]. *)
Definition initialScores : SecurityScores := mkScores 0 0 0 0 0 0.

Record Weights : Type := mkWeights {
  w_active : number;
  w_passive : number;
  w_antiSpoof : number;
  w_depth : number;
  w_eyeReflection : number;
  w_microExpression : number
}.

Definition weights : Weights := mkWeights 0.30 0.25 0.25 0.10 0.05 0.05.

(** [LivenessApp.calculateCombinedScore] *)
Definition calculateCombinedScore (s : SecurityScores) : number :=
  let score :=
    (active s * w_active weights) +
    (passive s * w_passive weights) +
    (antiSpoof s * w_antiSpoof weights) +
    (depth s * w_depth weights) +
    (eyeReflection s * w_eyeReflection weights) +
    (microExpression s * w_microExpression weights) in
  Math_round score.

Definition setActive (v : number) (s : SecurityScores) : SecurityScores :=
  mkScores v (passive s) (antiSpoof s) (depth s) (eyeReflection s) (microExpression s).

Definition setPassive (v : number) (s : SecurityScores) : SecurityScores :=
  mkScores (active s) v (antiSpoof s) (depth s) (eyeReflection s) (microExpression s).

Definition setAntiSpoof (v : number) (s : SecurityScores) : SecurityScores :=
  mkScores (active s) (passive s) v (depth s) (eyeReflection s) (microExpression s).

Definition setDepth (v : number) (s : SecurityScores) : SecurityScores :=
  mkScores (active s) (passive s) (antiSpoof s) v (eyeReflection s) (microExpression s).

Definition setEyeReflection (v : number) (s : SecurityScores) : SecurityScores :=
  mkScores (active s) (passive s) (antiSpoof s) (depth s) v (microExpression s).

Definition setMicroExpression (v : number) (s : SecurityScores) : SecurityScores :=
  mkScores (active s) (passive s) (antiSpoof s) (depth s) (eyeReflection s) v.

End Scores.

(** ** Landmarks

    The dense detector (FaceMesh) yields an array of objects [{x, y, z}];
    the coarse detector (BlazeFace) yields an array of [[x, y]] arrays.  The
    challenge verifiers receive either shape in the same field, so a point
    is a tagged value and each accessor answers what JavaScript answers on
    the other shape: [undefined], which arithmetic turns into NaN. *)

Module Landmarks.

Import JS.
Local Open Scope float_scope.

Record Keypoint : Type := mkKeypoint {
  x : number;
  y : number;
  z : option number
}.

Inductive Point : Type :=
| PArr (coords : list number)
| PObj (k : Keypoint).

(** [p[i]] *)
Definition at_index (p : Point) (i : nat) : number :=
  match p with
  | PArr coords => nth i coords nan
  | PObj _ => nan
  end.

(** [p.x] and [p.y] *)
Definition get_x (p : Point) : number :=
  match p with
  | PObj k => x k
  | PArr _ => nan
  end.

Definition get_y (p : Point) : number :=
  match p with
  | PObj k => y k
  | PArr _ => nan
  end.

End Landmarks.

(** ** Pixel buffers

    [ImageData.data] is a [Uint8ClampedArray] of RGBA bytes in row order.
    Reading past either end gives [undefined], which arithmetic turns into
    NaN.  Rasterizing the current video frame onto the analysis canvas is
    the browser's work; a video element is therefore given by its size and by
    the bytes that [drawImage] followed by [getImageData] yield at a
    requested canvas size. *)

Module Image.

Import JS.
Local Open Scope float_scope.

Record ImageData : Type := mkImageData {
  data : list Z;
  width : Z;
  height : Z
}.

Record VideoElement : Type := mkVideo {
  videoWidth : Z;
  videoHeight : Z;
  raster : Z -> Z -> list Z
}.

(** [data[idx]] as a number. *)
Definition byteAt (d : list Z) (idx : Z) : number :=
  if (idx <? 0)%Z then nan
  else match nth_error d (Z.to_nat idx) with
       | Some v => of_Z v
       | None => nan
       end.

(** [Math.floor(videoElement.videoWidth * scale)] *)
Definition scaled (dim : Z) (scale : number) : Z :=
  to_Z (Math_floor (of_Z dim * scale)).

(** [canvas.width = w; canvas.height = h; ctx.drawImage(video, 0, 0, w, h);
    ctx.getImageData(0, 0, w, h)].  [getImageData] raises an
    [IndexSizeError] when a side is zero. *)
Definition capture (v : VideoElement) (w h : Z) : completion ImageData :=
  if (w =? 0)%Z || (h =? 0)%Z then Throw
  else Normal (mkImageData (raster v w h) w h).

(** [(data[idx] + data[idx + 1] + data[idx + 2]) * 0.333] *)
Definition grayAt (d : list Z) (idx : Z) : number :=
  (byteAt d idx + byteAt d (idx + 1) + byteAt d (idx + 2)) * 0.333.

End Image.

(** ** Depth estimator (js/depthEstimator.js) *)

Module DepthEstimator.

Import JS Landmarks.
Local Open Scope float_scope.

Record Features : Type := mkFeatures {
  eyeDistance : number;
  noseProtrusion : number;
  noseRatio : number;
  zVariance : number;
  timestamp : Z
}.

(** The result object.  The "no face" result carries only [isReal], [score]
    and [reason]; the other properties are then [undefined]. *)
Record Result : Type := mkResult {
  isReal : bool;
  score : number;
  depthScore : option number;
  consistencyScore : option number;
  features : option Features;
  keypoints : option (list Keypoint);
  reason : option string
}.

Record State : Type := mkState {
  faceMesh : bool;
  isModelLoaded : bool;
  depthHistory : list Features;
  maxHistory : nat;
  cachedResult : option Result;
  frameCount : nat
}.

(** Constructor; [faceMesh] is [true] once the detector object exists. *)
Definition new : State := mkState false false [] 10 None 0.

(** [initialize()]: the detector is created, or creation fails and the
    error is caught. *)
Definition initialize (st : State) (loaded : bool) : State :=
  if loaded
  then mkState true true (depthHistory st) (maxHistory st) (cachedResult st) (frameCount st)
  else st.

Definition noseTip : nat := 1.
Definition leftEye : nat := 33.
Definition rightEye : nat := 263.
Definition chin : nat := 152.
Definition forehead : nat := 10.

Definition dist (p1 p2 : Keypoint) : number :=
  let dx := x p1 - x p2 in
  let dy := y p1 - y p2 in
  let dz := orZero (z p1) - orZero (z p2) in
  Math_sqrt (dx * dx + dy * dy + dz * dz).

Definition sum (l : list number) : number := fold_left (fun a b => a + b) l 0.

(** [extractFeaturesFast(keypoints)].  Reading a property of a missing
    keypoint raises a [TypeError]. *)
Definition extractFeaturesFast (kps : list Keypoint) (now : Z) : completion Features :=
  match nth_error kps noseTip, nth_error kps leftEye, nth_error kps rightEye,
        nth_error kps chin, nth_error kps forehead with
  | Some nose, Some lEye, Some rEye, Some chn, Some fhd =>
      let eyeDistance := dist lEye rEye in
      let eyeCenterZ := (orZero (z lEye) + orZero (z rEye)) * 0.5 in
      let noseProtrusion := Math_abs (orZero (z nose) - eyeCenterZ) in
      let noseRatio := noseProtrusion / eyeDistance in
      let zValues := [orZero (z nose); orZero (z lEye); orZero (z rEye);
                      orZero (z chn); orZero (z fhd)] in
      let zMean := sum zValues / 5 in
      let zVariance :=
        Math_sqrt (fold_left (fun s zv => s + Math_pow2 (zv - zMean)) zValues 0 / 5) in
      Normal (mkFeatures eyeDistance noseProtrusion noseRatio zVariance now)
  | _, _, _, _, _ => Throw
  end.

Definition calculateScoreFast (f : Features) : number :=
  let score := 0 in
  let score := if gtb (noseRatio f) 0.05 then score + 0.25 else score in
  let score := if gtb (noseRatio f) 0.10 then score + 0.15 else score in
  let score := if gtb (zVariance f) 0.01 then score + 0.20 else score in
  let score := if gtb (zVariance f) 0.03 then score + 0.10 else score in
  let score := score + 0.30 in
  Math_min score 1.0.

Definition addToHistory (st : State) (f : Features) : State :=
  mkState (faceMesh st) (isModelLoaded st)
          (push_shift (maxHistory st) (depthHistory st) f)
          (maxHistory st) (cachedResult st) (frameCount st).

Definition calculateConsistencyFast (st : State) : number :=
  if (length (depthHistory st) <? 3)%nat then 0.5
  else
    let recent := slice_last 5 (depthHistory st) in
    let noseRatios := map noseRatio recent in
    let n := of_nat (length noseRatios) in
    let mean := sum noseRatios / n in
    let variance :=
      fold_left (fun s v => s + Math_pow2 (v - mean)) noseRatios 0 / n in
    if gtb variance 0.001 && (variance <? 0.05) then 0.8
    else Math_max 0.3 (0.7 - variance * 10).

Definition noFace : Result :=
  mkResult false 0 None None None None (Some "No face detected"%string).

Definition bumpFrame (st : State) : State :=
  mkState (faceMesh st) (isModelLoaded st) (depthHistory st) (maxHistory st)
          (cachedResult st) (S (frameCount st)).

Definition setCached (st : State) (r : Result) : State :=
  mkState (faceMesh st) (isModelLoaded st) (depthHistory st) (maxHistory st)
          (Some r) (frameCount st).

Definition isSome {A : Type} (o : option A) : bool :=
  match o with Some _ => true | None => false end.

(** [estimateDepth(videoElement)].  The detector's answer for the current
    video frame is the argument [faces]: the keypoint arrays of the detected
    faces, or [Throw] when the inference call fails.  Every exception raised
    inside the [try] block ends in the [catch] clause, which returns the
    cached result. *)
Definition estimateDepth (st : State) (now : Z)
    (faces : completion (list (list Keypoint))) : State * option Result :=
  if negb (isModelLoaded st) || negb (faceMesh st) then (st, cachedResult st)
  else
    let st := bumpFrame st in
    if negb (frameCount st mod 2 =? 0)%nat && isSome (cachedResult st)
    then (st, cachedResult st)
    else
      match faces with
      | Throw => (st, cachedResult st)
      | Normal [] => (st, Some noFace)
      | Normal (kps :: _) =>
          match extractFeaturesFast kps now with
          | Throw => (st, cachedResult st)
          | Normal f =>
              let dScore := calculateScoreFast f in
              let st := addToHistory st f in
              let cScore := calculateConsistencyFast st in
              let combinedScore := (dScore * 0.6) + (cScore * 0.4) in
              let result :=
                mkResult (gtb combinedScore 0.6)
                         (Math_round (combinedScore * 100))
                         (Some (Math_round (dScore * 100)))
                         (Some (Math_round (cScore * 100)))
                         (Some f) (Some kps) None in
              (setCached st result, Some result)
          end
      end.

Definition reset (st : State) : State :=
  mkState (faceMesh st) (isModelLoaded st) [] (maxHistory st) None 0.

End DepthEstimator.

(** ** Passive liveness analyzer *)

Module PassiveLiveness.

Import JS Image.
Local Open Scope float_scope.

Record Result : Type := mkResult {
  textureScore : number;
  moireScore : number;
  colorScore : number;
  edgeScore : number;
  temporalScore : number;
  reflectionScore : number;
  overallScore : number;
  isReal : bool;
  issues : list string
}.

Record State : Type := mkState {
  isReady : bool;
  frameHistory : list (list number);
  maxFrames : nat;
  lastAnalysis : option Result;
  skipFrameCount : nat;
  cachedResult : option Result
}.

Definition new : State := mkState false [] 15 None 0 None.

Definition initialize (st : State) : State :=
  mkState true (frameHistory st) (maxFrames st) (lastAnalysis st)
          (skipFrameCount st) (cachedResult st).

Record SubScores : Type := mkSubScores {
  texture : number;
  moire : number;
  color : number;
  edge : number;
  temporal : number;
  reflection : number
}.

Definition scoreTexture (avgGradient : number) : number :=
  if geb avgGradient 8 && (avgGradient <=? 30)
  then Math_min 1.0 (0.6 + (avgGradient - 8) / 40)
  else if avgGradient <? 8 then avgGradient / 16
  else Math_max 0.2 (1.0 - (avgGradient - 30) / 40).

(** One scanline of [scoreMoire]: the number of direction changes. *)
Definition scanline (d : list Z) (w y : Z) : nat :=
  let start := shl (y * w + shr w 2) 2 in
  let prevGray0 := (byteAt d start + byteAt d (start + 1) + byteAt d (start + 2)) * 0.333 in
  let step (acc : nat * number * bool) (px : Z) :=
    let '(oscillations, prevGray, increasing) := acc in
    let gray := grayAt d (shl (y * w + px) 2) in
    let nowIncreasing := gtb gray prevGray in
    ((if Bool.eqb nowIncreasing increasing then oscillations else S oscillations),
     gray, nowIncreasing) in
  let '(oscillations, _, _) :=
    fold_left step (range (shr w 2 + 2) (shr (w * 3) 2) 2) (0%nat, prevGray0, true) in
  oscillations.

Definition scoreMoire (d : list Z) (w h : Z) : number :=
  let startY := shr h 2 in
  let endY := shr (h * 3) 2 in
  let step (acc : nat * nat) (y : Z) :=
    let oscillations := scanline d w y in
    let lineLength := (shr (w * 3) 2 - shr w 2)%Z in
    let oscRatio := of_nat oscillations / of_Z (shr lineLength 1) in
    ((if gtb oscRatio 0.3 && (oscRatio <? 0.6) then S (fst acc) else fst acc),
     S (snd acc)) in
  let '(periodicPatterns, samples) := fold_left step (range startY endY 15) (0%nat, 0%nat) in
  1.0 - Math_min ((of_nat periodicPatterns / of_nat samples) * 3) 1.0.

(** [hist[i]] of a 64-bin [Uint32Array]. *)
Definition bin (hist : list nat) (i : nat) : nat := nth i hist 0%nat.

(** [hist[i]++]; a write outside the typed array is ignored. *)
Fixpoint bump (hist : list nat) (i : nat) : list nat :=
  match hist, i with
  | [], _ => []
  | c :: rest, O => S c :: rest
  | c :: rest, S i' => c :: bump rest i'
  end.

Definition absDiff (a b : nat) : nat := ((a - b) + (b - a))%nat.

Definition scoreColor (histR histG histB : list nat) : number :=
  let channel (hist : list nat) (acc : nat * nat) (i : nat) :=
    if (0 <? bin hist i)%nat || (0 <? bin hist (i - 1))%nat
    then ((fst acc + absDiff (bin hist i) (bin hist (i - 1)))%nat, S (snd acc))
    else acc in
  let step (acc : nat * nat) (i : nat) :=
    channel histB (channel histG (channel histR acc i) i) i in
  let '(totalDiff, count) := fold_left step (seq 1 63) (0%nat, 0%nat) in
  if (0 <? count)%nat
  then Math_max 0 (1.0 - (of_nat totalDiff / of_nat count) / 500)
  else 0.5.

Definition scoreEdge (avgEdge : number) : number :=
  if geb avgEdge 8 && (avgEdge <=? 45) then 0.7 + (avgEdge - 8) / 123
  else Math_max 0.3 (0.7 - Math_abs (avgEdge - 25) / 50).

Definition scoreTemporalFast (st : State) : number :=
  if (length (frameHistory st) <? 3)%nat then 0.7
  else
    let recent := slice_last 5 (frameHistory st) in
    let current := last recent [] in
    let others := removelast recent in
    let frameDiff (other : list number) : number :=
      fold_left (fun s j => s + Math_abs (nth j current nan - nth j other nan))
                (seq 0 400) 0 in
    let totalDiff := fold_left (fun t other => t + frameDiff other / 400) others 0 in
    let avgDiff := totalDiff / of_nat (length recent - 1) in
    if geb avgDiff 2 && (avgDiff <=? 15) then 0.7 + avgDiff / 50
    else if avgDiff <? 2 then 0.2 + avgDiff * 0.2
    else Math_max 0.3 (1.0 - (avgDiff - 15) / 40).

Record Acc : Type := mkAcc {
  gradientSum : number;
  gradientCount : nat;
  edgeSum : number;
  edgeCount : nat;
  brightEdgePixels : nat;
  totalEdgePixels : nat;
  histR : list nat;
  histG : list nat;
  histB : list nat
}.

Definition emptyHist : list nat := repeat 0%nat 64.

(** Body of the sampling loop of [analyzeAllOptimized] at pixel [(px, py)]. *)
Definition sample (d : list Z) (w h : Z) (acc : Acc) (py px : Z) : Acc :=
  let centerX := shr w 1 in
  let centerY := shr h 1 in
  let sampleSize := shr (Z.min w h) 2 in
  let idx := shl (py * w + px) 2 in
  let idxR := (idx + 4)%Z in
  let idxD := (idx + shl w 2)%Z in
  let r := byteAt d idx in
  let g := byteAt d (idx + 1) in
  let b := byteAt d (idx + 2) in
  let gray := (r + g + b) * 0.333 in
  let hR := bump (histR acc) (Z.to_nat (shr (ToInt32 r) 2)) in
  let hG := bump (histG acc) (Z.to_nat (shr (ToInt32 g) 2)) in
  let hB := bump (histB acc) (Z.to_nat (shr (ToInt32 b) 2)) in
  let inCenter :=
    ((centerX - sampleSize <=? px) && (px <? centerX + sampleSize) &&
     (centerY - sampleSize <=? py) && (py <? centerY + sampleSize))%Z in
  let grayR := grayAt d idxR in
  let grayD := grayAt d idxD in
  let gradX := grayR - gray in
  let gradY := grayD - gray in
  let onEdge := ((px <? 20) || (w - 20 <=? px))%Z in
  mkAcc
    (if inCenter then gradientSum acc + Math_sqrt (gradX * gradX + gradY * gradY)
     else gradientSum acc)
    (if inCenter then S (gradientCount acc) else gradientCount acc)
    (if inCenter then edgeSum acc + (Math_abs gradX + Math_abs gradY) else edgeSum acc)
    (if inCenter then S (edgeCount acc) else edgeCount acc)
    (if onEdge && gtb gray 200 then S (brightEdgePixels acc) else brightEdgePixels acc)
    (if onEdge then S (totalEdgePixels acc) else totalEdgePixels acc)
    hR hG hB.

Definition analyzeAllOptimized (st : State) (d : list Z) (w h : Z) : SubScores :=
  let step := 4%Z in
  let acc :=
    fold_left (fun a py => fold_left (fun a' px => sample d w h a' py px)
                                     (range 10 (w - 10) step) a)
              (range 10 (h - 10) step)
              (mkAcc 0 0 0 0 0 0 emptyHist emptyHist emptyHist) in
  let avgGradient :=
    if (0 <? gradientCount acc)%nat then gradientSum acc / of_nat (gradientCount acc) else 0 in
  let avgEdge :=
    if (0 <? edgeCount acc)%nat then edgeSum acc / of_nat (edgeCount acc) else 0 in
  mkSubScores
    (scoreTexture avgGradient)
    (scoreMoire d w h)
    (scoreColor (histR acc) (histG acc) (histB acc))
    (scoreEdge avgEdge)
    (scoreTemporalFast st)
    (if (0 <? totalEdgePixels acc)%nat
     then 1.0 - Math_min ((of_nat (brightEdgePixels acc) / of_nat (totalEdgePixels acc)) * 1.5) 0.7
     else 0.7).

(** The 20 x 20 grid of block-centre gray values, stored in a
    [Float32Array]. *)
Definition simplifyFrame (d : list Z) (w h : Z) : list number :=
  let blockW := ToInt32 (of_Z w / 20) in
  let blockH := ToInt32 (of_Z h / 20) in
  flat_map (fun by_ =>
    map (fun bx =>
      let px := wrap32 (bx * blockW + shr blockW 1) in
      let py := wrap32 (by_ * blockH + shr blockH 1) in
      fround (grayAt d (shl (py * w + px) 2)))
      (range 0 20 1))
    (range 0 20 1).

Definition addFrameToHistory (st : State) (d : list Z) (w h : Z) : State :=
  mkState (isReady st)
          (push_shift (maxFrames st) (frameHistory st) (simplifyFrame d w h))
          (maxFrames st) (lastAnalysis st) (skipFrameCount st) (cachedResult st).

Definition isSome {A : Type} (o : option A) : bool :=
  match o with Some _ => true | None => false end.

Definition bumpFrame (st : State) : State :=
  mkState (isReady st) (frameHistory st) (maxFrames st) (lastAnalysis st)
          (S (skipFrameCount st)) (cachedResult st).

Definition setResult (st : State) (r : Result) : State :=
  mkState (isReady st) (frameHistory st) (maxFrames st) (Some r)
          (skipFrameCount st) (Some r).

(** [analyze(videoElement, canvas)] *)
Definition analyze (st : State) (video : VideoElement)
    : State * completion (option Result) :=
  if negb (isReady st) then (st, Normal (cachedResult st))
  else
    let st := bumpFrame st in
    if negb (skipFrameCount st mod 2 =? 0)%nat && isSome (cachedResult st)
    then (st, Normal (cachedResult st))
    else
      let scale := 0.5 in
      let w := scaled (videoWidth video) scale in
      let h := scaled (videoHeight video) scale in
      match capture video w h with
      | Throw => (st, Throw)
      | Normal imageData =>
          let d := data imageData in
          let scores := analyzeAllOptimized st d w h in
          let st := addFrameToHistory st d w h in
          let overall :=
            Math_round ((texture scores * 0.20 + moire scores * 0.20 +
                         color scores * 0.15 + edge scores * 0.15 +
                         temporal scores * 0.20 + reflection scores * 0.10) * 100) in
          let result :=
            mkResult (Math_round (texture scores * 100))
                     (Math_round (moire scores * 100))
                     (Math_round (color scores * 100))
                     (Math_round (edge scores * 100))
                     (Math_round (temporal scores * 100))
                     (Math_round (reflection scores * 100))
                     overall (gtb overall 80) [] in
          (setResult st result, Normal (Some result))
      end.

Definition reset (st : State) : State :=
  mkState (isReady st) [] (maxFrames st) None 0 None.

End PassiveLiveness.

(** ** Anti-spoofing fusion *)

Module AntiSpoofing.

Import JS Image.
Local Open Scope float_scope.

(** The five raw sub-scores kept in the analysis history. *)
Record SubScores : Type := mkSubScores {
  h_photoScore : number;
  h_screenScore : number;
  h_maskScore : number;
  h_deepfakeScore : number;
  h_cutoutScore : number
}.

Record Result : Type := mkResult {
  photoScore : number;
  screenScore : number;
  maskScore : number;
  deepfakeScore : number;
  cutoutScore : number;
  temporalBonus : number;
  overallScore : number;
  isReal : bool;
  attacksDetected : list string;
  confidence : string
}.

Record State : Type := mkState {
  isReady : bool;
  analysisHistory : list SubScores;
  maxHistory : nat;
  lastResult : option Result;
  cachedResult : option Result;
  frameCount : nat
}.

Definition new : State := mkState false [] 10 None None 0.

Definition initialize (st : State) : State :=
  mkState true (analysisHistory st) (maxHistory st) (lastResult st)
          (cachedResult st) (frameCount st).

Record PhotoAcc : Type := mkPhotoAcc {
  q1 : number;
  q2 : number;
  q3 : number;
  q4 : number;
  count : nat;
  totalLaplacian : number;
  skinPixels : nat;
  totalSampled : nat
}.

(** Body of the sampling loop of [detectPhotoFast] at pixel [(px, py)]. *)
Definition samplePhoto (d : list Z) (w h : Z) (acc : PhotoAcc) (py px : Z) : PhotoAcc :=
  let rowStart := (py * w)%Z in
  let idx := shl (rowStart + px) 2 in
  let r := byteAt d idx in
  let g := byteAt d (idx + 1) in
  let b := byteAt d (idx + 2) in
  let brightness := (r + g + b) * 0.333 in
  let leftHalf := (px <? shr w 1)%Z in
  let upperHalf := (py <? shr h 1)%Z in
  let max := Math_max (Math_max r g) b in
  let min := Math_min (Math_min r g) b in
  let dd := max - min in
  let isSkin :=
    if gtb dd 10 then
      let hue :=
        if max =? r then (g - b) / dd + (if g <? b then 6 else 0)
        else if max =? g then (b - r) / dd + 2
        else (r - g) / dd + 4 in
      let hue := hue / 6 in
      ((hue <? 0.15) || gtb hue 0.95) && gtb (dd / max) 0.15
    else false in
  let valLeft := byteAt d (idx - 4) in
  let valUp := byteAt d (shl ((py - 1) * w + px) 2) in
  let grad := Math_abs (r - valLeft) + Math_abs (r - valUp) in
  mkPhotoAcc
    (if leftHalf && upperHalf then q1 acc + brightness else q1 acc)
    (if negb leftHalf && upperHalf then q2 acc + brightness else q2 acc)
    (if leftHalf && negb upperHalf then q3 acc + brightness else q3 acc)
    (if negb leftHalf && negb upperHalf then q4 acc + brightness else q4 acc)
    (S (count acc))
    (totalLaplacian acc + grad)
    (if isSkin then S (skinPixels acc) else skinPixels acc)
    (S (totalSampled acc)).

(** [depthResult?.depthScore], used as a condition and then as a number. *)
Definition truthyDepthScore (depthResult : option DepthEstimator.Result) : option number :=
  match depthResult with
  | Some r =>
      match DepthEstimator.depthScore r with
      | Some ds => if truthy ds then Some ds else None
      | None => None
      end
  | None => None
  end.

Definition detectPhotoFast (img : ImageData)
    (depthResult : option DepthEstimator.Result) : number :=
  let score :=
    match truthyDepthScore depthResult with
    | Some ds => 0.3 + (ds / 100) * 0.5
    | None => 0.5
    end in
  let d := data img in
  let w := width img in
  let h := height img in
  let step := 8%Z in
  let acc :=
    fold_left (fun a py => fold_left (fun a' px => samplePhoto d w h a' py px)
                                     (range 10 (w - 10) step) a)
              (range 10 (h - 10) step)
              (mkPhotoAcc 0 0 0 0 0 0 0 0) in
  let qCount := of_Z (shr (Z.of_nat (count acc)) 2) in
  let avg := (q1 acc + q2 acc + q3 acc + q4 acc) / of_nat (count acc) in
  let variance :=
    (Math_pow2 (q1 acc / qCount - avg) + Math_pow2 (q2 acc / qCount - avg) +
     Math_pow2 (q3 acc / qCount - avg) + Math_pow2 (q4 acc / qCount - avg)) / 4 in
  let score := if gtb variance 50 && (variance <? 500) then score + 0.1 else score in
  let skinRatio :=
    if (0 <? totalSampled acc)%nat
    then of_nat (skinPixels acc) / of_nat (totalSampled acc) else 0 in
  let score := if gtb skinRatio 0.3 then score + 0.2 else score in
  let avgSharpness :=
    if (0 <? count acc)%nat then totalLaplacian acc / of_nat (count acc) else 0 in
  let score := if gtb avgSharpness 3 && (avgSharpness <? 20) then score + 0.1 else score in
  Math_min score 1.0.

Definition detectScreenFast (passiveResult : option PassiveLiveness.Result) : number :=
  match passiveResult with
  | Some p =>
      let normalized := PassiveLiveness.moireScore p / 100 in
      if normalized <? 0.6 then normalized * 0.5 else normalized
  | None => 0.5
  end.

Definition detectMaskFast (depthResult : option DepthEstimator.Result) : number :=
  match depthResult with
  | Some r =>
      match DepthEstimator.features r with
      | Some f =>
          let score := 0.5 in
          let score :=
            if gtb (DepthEstimator.zVariance f) 0.05 then score + 0.25 else score in
          let score :=
            if gtb (DepthEstimator.noseRatio f) 0.08 &&
               (DepthEstimator.noseRatio f <? 0.25)
            then score + 0.25 else score in
          Math_min score 1.0
      | None => 0.5
      end
  | None => 0.5
  end.

Definition detectDeepfakeFast (passiveResult : option PassiveLiveness.Result) : number :=
  match passiveResult with
  | Some p => PassiveLiveness.temporalScore p / 100
  | None => 0.5
  end.

(** Body of the sampling loop of [detectCutoutFast]: is the pixel on a
    straight line of similar gray values? *)
Definition onLine (d : list Z) (w : Z) (py px : Z) : bool :=
  let gray := grayAt d (shl (py * w + px) 2) in
  let step (acc : nat * nat) (i : Z) :=
    let hi := shl ((py + i) * w + px) 2 in
    let vi := shl (py * w + px + i) 2 in
    ((if Math_abs (gray - grayAt d hi) <? 5 then S (fst acc) else fst acc),
     (if Math_abs (gray - grayAt d vi) <? 5 then S (snd acc) else snd acc)) in
  let '(hLine, vLine) := fold_left step (range (-2) 3 1) (0%nat, 0%nat) in
  ((4 <=? hLine) || (4 <=? vLine))%nat.

Definition detectCutoutFast (img : ImageData) : number :=
  let d := data img in
  let w := width img in
  let h := height img in
  let step := 15%Z in
  let visit (acc : nat * nat) (py px : Z) :=
    ((if onLine d w py px then S (fst acc) else fst acc), S (snd acc)) in
  let '(rectangularEdges, totalEdges) :=
    fold_left (fun a py => fold_left (fun a' px => visit a' py px)
                                     (range 5 (w - 5) step) a)
              (range 5 (h - 5) step) (0%nat, 0%nat) in
  if (0 <? totalEdges)%nat
  then 1.0 - Math_min ((of_nat rectangularEdges / of_nat totalEdges) * 2) 0.6
  else 0.7.

Definition addToHistory (st : State) (r : SubScores) : State :=
  mkState (isReady st)
          (push_shift (maxHistory st) (analysisHistory st) r)
          (maxHistory st) (lastResult st) (cachedResult st) (frameCount st).

Definition calculateTemporalFast (st : State) : number :=
  if (length (analysisHistory st) <? 3)%nat then 0.5
  else
    let recent := slice_last 5 (analysisHistory st) in
    let n := of_nat (length recent) in
    let avgPhoto := fold_left (fun s r => s + h_photoScore r) recent 0 / n in
    let variance :=
      fold_left (fun v r => v + Math_pow2 (h_photoScore r - avgPhoto)) recent 0 / n in
    Math_max 0.3 (1.0 - Math_min (variance / 0.2) 0.5).

Definition isSome {A : Type} (o : option A) : bool :=
  match o with Some _ => true | None => false end.

Definition bumpFrame (st : State) : State :=
  mkState (isReady st) (analysisHistory st) (maxHistory st) (lastResult st)
          (cachedResult st) (S (frameCount st)).

Definition setResult (st : State) (r : Result) : State :=
  mkState (isReady st) (analysisHistory st) (maxHistory st) (Some r) (Some r)
          (frameCount st).

(** The four [attacksDetected.push] statements. *)
Definition attackLabels (photo screen mask deepfake : number) : list string :=
  ((if photo <? 0.5 then ["PHOTO_ATTACK"%string] else []) ++
   (if screen <? 0.5 then ["SCREEN_REPLAY"%string] else []) ++
   (if mask <? 0.5 then ["MASK_DETECTED"%string] else []) ++
   (if deepfake <? 0.5 then ["DEEPFAKE_SUSPECTED"%string] else []))%list.

(** The fusion proper: everything [analyze] does once the five raw
    sub-scores of the frame are known. *)
Definition fuse (st : State) (sub : SubScores) : State * Result :=
  let st := addToHistory st sub in
  let tBonus := calculateTemporalFast st in
  let photo := h_photoScore sub in
  let screen := h_screenScore sub in
  let mask := h_maskScore sub in
  let deepfake := h_deepfakeScore sub in
  let cutout := h_cutoutScore sub in
  let overall :=
    Math_round ((photo * 0.25 + screen * 0.25 + mask * 0.20 +
                 deepfake * 0.15 + cutout * 0.15 + tBonus * 0.10) * 100) in
  let result :=
    mkResult (Math_round (photo * 100)) (Math_round (screen * 100))
             (Math_round (mask * 100)) (Math_round (deepfake * 100))
             (Math_round (cutout * 100)) (Math_round (tBonus * 100))
             overall (gtb overall 80)
             (attackLabels photo screen mask deepfake)
             (if gtb overall 85 then "high"%string
              else if gtb overall 70 then "medium"%string else "low"%string) in
  (setResult st result, result).

(** The raw sub-scores of one frame. *)
Definition subScores (img : ImageData) (depthResult : option DepthEstimator.Result)
    (passiveResult : option PassiveLiveness.Result) : SubScores :=
  mkSubScores (detectPhotoFast img depthResult)
              (detectScreenFast passiveResult)
              (detectMaskFast depthResult)
              (detectDeepfakeFast passiveResult)
              (detectCutoutFast img).

(** [analyze(videoElement, canvas, depthResult, passiveResult)] *)
Definition analyze (st : State) (video : VideoElement)
    (depthResult : option DepthEstimator.Result)
    (passiveResult : option PassiveLiveness.Result)
    : State * completion (option Result) :=
  if negb (isReady st) then (st, Normal (cachedResult st))
  else
    let st := bumpFrame st in
    if negb (frameCount st mod 3 =? 0)%nat && isSome (cachedResult st)
    then (st, Normal (cachedResult st))
    else
      let scale := 0.4 in
      let w := scaled (videoWidth video) scale in
      let h := scaled (videoHeight video) scale in
      match capture video w h with
      | Throw => (st, Throw)
      | Normal imageData =>
          let '(st, result) := fuse st (subScores imageData depthResult passiveResult) in
          (st, Normal (Some result))
      end.

Definition reset (st : State) : State :=
  mkState (isReady st) [] (maxHistory st) None None 0.

End AntiSpoofing.

(** ** Eye-reflection analyzer *)

Module EyeReflection.

Import JS Landmarks Image.
Local Open Scope float_scope.

Record Reading : Type := mkReading {
  r_specularScore : number;
  r_consistencyScore : number
}.

Record Result : Type := mkResult {
  isReal : bool;
  score : number;
  consistencyScore : number;
  specularScore : number;
  temporalScore : number;
  issues : list string
}.

Record State : Type := mkState {
  isReady : bool;
  reflectionHistory : list Reading;
  maxHistory : nat;
  lastResult : option Result;
  cachedResult : option Result;
  frameCount : nat
}.

Definition new : State := mkState false [] 8 None None 0.

Definition initialize (st : State) : State :=
  mkState true (reflectionHistory st) (maxHistory st) (lastResult st)
          (cachedResult st) (frameCount st).

Inductive Side : Type := left | right.

Record RegionAcc : Type := mkRegionAcc {
  brightPixels : nat;
  totalPixels : nat;
  totalBrightness : number
}.

(** [analyzeEyeRegionFast(imageData, keypoints, side, scale)]: the 15 x 15
    window around the eye centre. *)
Definition analyzeEyeRegionFast (img : ImageData) (kps : list Keypoint)
    (side : Side) (scale : number) : number :=
  let eyeIdx := match side with left => 33%nat | right => 263%nat end in
  match nth_error kps eyeIdx with
  | None => 0.5
  | Some eye =>
      let cx := Math_floor (x eye * scale) in
      let cy := Math_floor (y eye * scale) in
      let w := width img in
      let size := 7%Z in
      let offsets := range (- size) (size + 1) 1 in
      let visit (acc : RegionAcc) (dy dx : Z) : RegionAcc :=
        let px := cx + of_Z dx in
        let py := cy + of_Z dy in
        if (px <? 0) || geb px (of_Z w) || (py <? 0) || geb py (of_Z (height img))
        then acc
        else
          let idx := shl (ToInt32 (py * of_Z w + px)) 2 in
          let brightness := grayAt (data img) idx in
          mkRegionAcc
            (if gtb brightness 200 then S (brightPixels acc) else brightPixels acc)
            (S (totalPixels acc))
            (totalBrightness acc + brightness) in
      let acc :=
        fold_left (fun a dy => fold_left (fun a' dx => visit a' dy dx) offsets a)
                  offsets (mkRegionAcc 0 0 0) in
      if (totalPixels acc =? 0)%nat then 0.5
      else
        let brightRatio := of_nat (brightPixels acc) / of_nat (totalPixels acc) in
        if gtb brightRatio 0.01 && (brightRatio <? 0.15) then 0.6 + brightRatio * 2
        else if gtb brightRatio 0.15 then 0.4
        else 0.3 + brightRatio * 10
  end.

Definition addToHistory (st : State) (r : Reading) : State :=
  mkState (isReady st)
          (push_shift (maxHistory st) (reflectionHistory st) r)
          (maxHistory st) (lastResult st) (cachedResult st) (frameCount st).

Definition calculateTemporalFast (st : State) : number :=
  if (length (reflectionHistory st) <? 3)%nat then 0.5
  else
    let recent := slice_last 5 (reflectionHistory st) in
    let scores := map r_specularScore recent in
    let n := of_nat (length scores) in
    let mean := fold_left (fun a b => a + b) scores 0 / n in
    let variance := fold_left (fun s v => s + Math_pow2 (v - mean)) scores 0 / n in
    if gtb variance 0.001 && (variance <? 0.05) then 0.8
    else Math_max 0.3 (0.7 - variance * 5).

Definition isSome {A : Type} (o : option A) : bool :=
  match o with Some _ => true | None => false end.

Definition bumpFrame (st : State) : State :=
  mkState (isReady st) (reflectionHistory st) (maxHistory st) (lastResult st)
          (cachedResult st) (S (frameCount st)).

Definition setResult (st : State) (r : Result) : State :=
  mkState (isReady st) (reflectionHistory st) (maxHistory st) (Some r) (Some r)
          (frameCount st).

(** [analyze(videoElement, canvas, keypoints)].  An exception leaves the
    frame counter incremented, so the state is returned in every case. *)
Definition analyze (st : State) (video : VideoElement)
    (keypoints : option (list Keypoint)) : State * completion (option Result) :=
  match keypoints with
  | None => (st, Normal (cachedResult st))
  | Some kps =>
      if negb (isReady st) || (length kps <? 400)%nat then (st, Normal (cachedResult st))
      else
        let st := bumpFrame st in
        if negb (frameCount st mod 3 =? 0)%nat && isSome (cachedResult st)
        then (st, Normal (cachedResult st))
        else
          let scale := 0.5 in
          let w := scaled (videoWidth video) scale in
          let h := scaled (videoHeight video) scale in
          match capture video w h with
          | Throw => (st, Throw)
          | Normal imageData =>
              let leftEyeScore := analyzeEyeRegionFast imageData kps left scale in
              let rightEyeScore := analyzeEyeRegionFast imageData kps right scale in
              let specular := (leftEyeScore + rightEyeScore) * 0.5 in
              let consistency :=
                if Math_abs (leftEyeScore - rightEyeScore) <? 0.3 then 0.8 else 0.5 in
              let st := addToHistory st (mkReading specular consistency) in
              let temporal := calculateTemporalFast st in
              let overallScore := specular * 0.5 + consistency * 0.25 + temporal * 0.25 in
              let result :=
                mkResult (gtb overallScore 0.70)
                         (Math_round (overallScore * 100))
                         (Math_round (consistency * 100))
                         (Math_round (specular * 100))
                         (Math_round (temporal * 100))
                         (if specular <? 0.5 then ["Missing eye reflections"%string] else []) in
              (setResult st result, Normal (Some result))
          end
  end.

Definition reset (st : State) : State :=
  mkState (isReady st) [] (maxHistory st) None None 0.

End EyeReflection.

(** ** Micro-expression analyzer *)

Module MicroExpression.

Import JS Landmarks.
Local Open Scope float_scope.

(** A stored key landmark: [{x, y, z}], all three numbers. *)
Record P3 : Type := mkP3 {
  px : number;
  py : number;
  pz : number
}.

Record Entry : Type := mkEntry {
  entryKeypoints : list P3;
  timestamp : Z
}.

Record Movements : Type := mkMovements {
  total : number;
  max : number
}.

(** The full result has the three part scores and [issues]; the warm-up
    result has [message] instead. *)
Record Result : Type := mkResult {
  isReal : bool;
  score : number;
  naturalness : option number;
  involuntaryScore : option number;
  coordinationScore : option number;
  microMovements : nat;
  issues : list string;
  message : option string
}.

Record State : Type := mkState {
  isReady : bool;
  landmarkHistory : list Entry;
  maxHistory : nat;
  lastResult : option Result;
  cachedResult : option Result;
  frameCount : nat;
  keyIndices : list nat
}.

Definition new : State := mkState false [] 20 None None 0 [1; 33; 263; 61; 291]%nat.

Definition initialize (st : State) : State :=
  mkState true (landmarkHistory st) (maxHistory st) (lastResult st)
          (cachedResult st) (frameCount st) (keyIndices st).

(** [keypoints[idx]?.x || 0] and likewise for [y] and [z]. *)
Definition simplify (kps : list Keypoint) (idx : nat) : P3 :=
  match nth_error kps idx with
  | Some k => mkP3 (orZero (Some (x k))) (orZero (Some (y k))) (orZero (z k))
  | None => mkP3 0 0 0
  end.

Definition addToHistory (st : State) (kps : list Keypoint) (now : Z) : State :=
  let simplified := map (simplify kps) (keyIndices st) in
  mkState (isReady st)
          (push_shift (maxHistory st) (landmarkHistory st) (mkEntry simplified now))
          (maxHistory st) (lastResult st) (cachedResult st) (frameCount st)
          (keyIndices st).

(** The two most recent entries, newest first. *)
Definition lastTwo (h : list Entry) : option (Entry * Entry) :=
  match rev h with
  | curr :: prev :: _ => Some (curr, prev)
  | _ => None
  end.

(** Every stored entry holds one point per key index, so [prev[i]] exists
    whenever [curr[i]] does; the loop over [i] pairs them up. *)
Definition analyzeMovementsFast (st : State) : Movements :=
  match lastTwo (landmarkHistory st) with
  | None => mkMovements 0 0
  | Some (curr, prev) =>
      let step (acc : number * number) (cp : P3 * P3) :=
        let dx := px (fst cp) - px (snd cp) in
        let dy := py (fst cp) - py (snd cp) in
        let movement := Math_sqrt (dx * dx + dy * dy) in
        (fst acc + movement, Math_max (snd acc) movement) in
      let r := fold_left step (combine (entryKeypoints curr) (entryKeypoints prev)) (0, 0) in
      mkMovements (fst r / of_nat (length (entryKeypoints curr))) (snd r)
  end.

Definition evaluateNaturalnessFast (m : Movements) : number :=
  let avg := total m in
  if gtb avg 0.05 && (avg <? 3.0) then 0.6 + avg / 10
  else if avg <? 0.05 then 0.3 + avg * 6
  else Math_max 0.3 (1.0 - (avg - 3) / 10).

Definition yAt (e : Entry) (j : nat) : number := py (nth j (entryKeypoints e) (mkP3 nan nan nan)).

(** One step of the twitch loop: eye points [j = 1, 2] of three successive
    entries. *)
Definition twitchesAt (prev mid curr : Entry) : nat :=
  let one (j : nat) : nat :=
    let move1 := yAt mid j - yAt prev j in
    let move2 := yAt curr j - yAt mid j in
    if gtb (Math_abs move1) 0.3 && gtb (Math_abs move2) 0.3 &&
       negb (Bool.eqb (gtb move1 0) (gtb move2 0))
    then 1%nat else 0%nat in
  (one 1 + one 2)%nat.

Fixpoint countTwitches (recent : list Entry) : nat :=
  match recent with
  | prev :: rest =>
      match rest with
      | mid :: curr :: _ => (twitchesAt prev mid curr + countTwitches rest)%nat
      | _ => 0%nat
      end
  | [] => 0%nat
  end.

Definition detectMicroMovementsFast (st : State) : number :=
  if (length (landmarkHistory st) <? 8)%nat then 0.5
  else
    let recent := slice_last 10 (landmarkHistory st) in
    let twitches := countTwitches recent in
    let twitchRatio := of_nat twitches / of_nat ((length recent - 2) * 2) in
    if gtb twitchRatio 0.01 && (twitchRatio <? 0.15) then 0.6 + twitchRatio * 2
    else if twitchRatio <? 0.01 then 0.3 + twitchRatio * 30
    else Math_max 0.3 (1.0 - twitchRatio * 3).

Fixpoint eyeCorrelationOf (latest : list Entry) : number :=
  match latest with
  | prev :: rest =>
      match rest with
      | curr :: _ =>
          let leftMove := Math_abs (yAt curr 1 - yAt prev 1) in
          let rightMove := Math_abs (yAt curr 2 - yAt prev 2) in
          let rest_corr := eyeCorrelationOf rest in
          if Math_abs (leftMove - rightMove) <? 1.0 then 0.5 + rest_corr else rest_corr
      | [] => 0
      end
  | [] => 0
  end.

Definition analyzeCoordinationFast (st : State) (m : Movements) : number :=
  if (length (landmarkHistory st) <? 3)%nat then 0.5
  else
    let latest := slice_last 3 (landmarkHistory st) in
    let eyeCorrelation := eyeCorrelationOf latest in
    0.5 + Math_min (eyeCorrelation / of_nat (length latest - 1)) 0.5.

Definition movesBetween (prev curr : Entry) : nat :=
  let one (cp : P3 * P3) : nat :=
    let move := Math_sqrt (Math_pow2 (px (fst cp) - px (snd cp)) +
                           Math_pow2 (py (fst cp) - py (snd cp))) in
    if gtb move 0.2 && (move <? 2.0) then 1%nat else 0%nat in
  fold_left (fun n cp => (n + one cp)%nat)
            (combine (entryKeypoints curr) (entryKeypoints prev)) 0%nat.

Fixpoint countMoves (recent : list Entry) : nat :=
  match recent with
  | prev :: rest =>
      match rest with
      | curr :: _ => (movesBetween prev curr + countMoves rest)%nat
      | [] => 0%nat
      end
  | [] => 0%nat
  end.

Definition countMicroMovementsFast (st : State) : nat :=
  if (length (landmarkHistory st) <? 3)%nat then 0%nat
  else countMoves (slice_last 5 (landmarkHistory st)).

Definition warmUp : Result :=
  mkResult true 50 None None None 0 [] (Some "Gathering data..."%string).

Definition isSome {A : Type} (o : option A) : bool :=
  match o with Some _ => true | None => false end.

Definition bumpFrame (st : State) : State :=
  mkState (isReady st) (landmarkHistory st) (maxHistory st) (lastResult st)
          (cachedResult st) (S (frameCount st)) (keyIndices st).

Definition setResult (st : State) (r : Result) : State :=
  mkState (isReady st) (landmarkHistory st) (maxHistory st) (Some r) (Some r)
          (frameCount st) (keyIndices st).

(** [analyze(keypoints)]; [keypoints] may be [null] or [undefined]. *)
Definition analyze (st : State) (now : Z) (keypoints : option (list Keypoint))
    : State * option Result :=
  match keypoints with
  | None => (st, cachedResult st)
  | Some kps =>
      if negb (isReady st) || (length kps <? 400)%nat then (st, cachedResult st)
      else
        let st := bumpFrame st in
        if negb (frameCount st mod 2 =? 0)%nat && isSome (cachedResult st)
        then (st, cachedResult st)
        else
          let st := addToHistory st kps now in
          if (length (landmarkHistory st) <? 5)%nat then (st, Some warmUp)
          else
            let movements := analyzeMovementsFast st in
            let nat_ := evaluateNaturalnessFast movements in
            let inv := detectMicroMovementsFast st in
            let coord := analyzeCoordinationFast st movements in
            let overallScore := nat_ * 0.35 + inv * 0.35 + coord * 0.30 in
            let issues1 := if nat_ <? 0.5 then ["Unnatural movement"%string] else [] in
            let issues2 := if inv <? 0.5 then ["Missing micro-movements"%string] else [] in
            let result :=
              mkResult (gtb overallScore 0.7)
                       (Math_round (overallScore * 100))
                       (Some (Math_round (nat_ * 100)))
                       (Some (Math_round (inv * 100)))
                       (Some (Math_round (coord * 100)))
                       (countMicroMovementsFast st)
                       (issues1 ++ issues2)%list None in
            (setResult st result, Some result)
  end.

Definition reset (st : State) : State :=
  mkState (isReady st) [] (maxHistory st) None None 0 (keyIndices st).

End MicroExpression.

(** ** Browser timers

    [setTimeout] and [setInterval] put an entry into the browser's timer
    table; [clearInterval] removes it.  A handler is one of the closures the
    sources pass to these functions.  The closures capture [this] and the
    application's callbacks, which are the same objects throughout, so a tag
    identifies the closure. *)

Module Timers.

Inductive Handler : Type :=
| ChallengeTimeout
    (* initChallengeState: () => { if (this.isActive && this.currentChallenge) ... } *)
| ChallengeProgress
    (* initChallengeState: the progressInterval closure *)
| PassiveTick
    (* startPassiveAnalysis: the async analysis closure *)
| DetectionTick
    (* FaceDetector.startDetection: () => this.detectFaces(...) *)
| StartNextChallenge (retryChallengeId : option string)
    (* () => this.startNextChallenge(id) *).

Record Timer : Type := mkTimer {
  tid : nat;
  due : Z;
  period : option Z;
  handler : Handler
}.

Record Table : Type := mkTable {
  pending : list Timer;
  nextId : nat
}.

Definition empty : Table := mkTable [] 1.

Definition setTimeout (t : Table) (now : Z) (h : Handler) (delay : Z) : Table * nat :=
  (mkTable (pending t ++ [mkTimer (nextId t) (now + delay) None h]) (S (nextId t)),
   nextId t).

Definition setInterval (t : Table) (now : Z) (h : Handler) (delay : Z) : Table * nat :=
  (mkTable (pending t ++ [mkTimer (nextId t) (now + delay) (Some delay) h]) (S (nextId t)),
   nextId t).

(** [clearInterval(id)] / [clearTimeout(id)] *)
Definition clear (t : Table) (id : nat) : Table :=
  mkTable (filter (fun tm => negb (tid tm =? id)%nat) (pending t)) (nextId t).

Definition find (t : Table) (id : nat) : option Timer :=
  List.find (fun tm => (tid tm =? id)%nat) (pending t).

(** After a timer has fired: a timeout is gone, an interval is due again one
    period later (unless its handler cleared it meanwhile). *)
Definition rearm (t : Table) (tm : Timer) (now : Z) : Table :=
  match period tm with
  | None => t
  | Some p =>
      mkTable (map (fun tm' => if (tid tm' =? tid tm)%nat
                               then mkTimer (tid tm') (now + p) (period tm') (handler tm')
                               else tm')
                   (pending t))
              (nextId t)
  end.



End Timers.

(** ** Challenge state machine (main.js, LivenessChallenger) *)

Module LivenessChallenger.

Import JS Landmarks.
Local Open Scope float_scope.

(** The bound verification method of a challenge descriptor. *)
Inductive Verifier : Type := VerifyBlink | VerifySmile | VerifyHeadTurn.

(** A challenge descriptor (the [icon] is presentation only). *)
Record Challenge : Type := mkChallenge {
  id : string;
  name : string;
  instruction : string;
  duration : Z;
  verify : Verifier
}.

(** The object handed to [onComplete].  A finished challenge gives [id],
    [name], [success] and [duration]; an exhausted pool gives
    [{success: true, allChallengesComplete: true}]. *)
Record ChallengeResult : Type := mkChallengeResult {
  r_id : option string;
  r_name : option string;
  success : bool;
  r_duration : option Z;
  allChallengesComplete : bool
}.

Record DirStates : Type := mkDirStates {
  left : bool;
  center : bool;
  right : bool
}.

Record Baseline : Type := mkBaseline {
  eyeDistance : option number;
  mouthWidth : option number;
  eyeToEyebrowDistance : option number;
  faceWidth : option number
}.

Record DetectionData : Type := mkDetectionData {
  faceDetected : bool;
  multipleFaces : bool;
  confidence : number;
  landmarks : option (list Point);
  isHighRes : bool
}.

Record State : Type := mkState {
  challenges : list Challenge;
  currentChallenge : option Challenge;
  challengeHistory : list ChallengeResult;
  isActive : bool;
  startTime : option Z;
  landmarkHistory : list (list Point);
  maxHistoryLength : nat;
  blinkCount : nat;
  blinkRequired : nat;
  blinkState : option string;
  headTurnStates : DirStates;
  eyeMovementStates : DirStates;
  mouthOpenDetected : bool;
  eyebrowRaiseDetected : bool;
  baseline : Baseline
}.

Inductive Callback : Type :=
| OnComplete (r : ChallengeResult)
| OnProgress (progress : number).

Definition noDir : DirStates := mkDirStates false false false.
Definition noBaseline : Baseline := mkBaseline None None None None.

Definition pool : list Challenge :=
  [ mkChallenge "blink" "Blink Detection" "Please blink your eyes twice" 10000 VerifyBlink;
    mkChallenge "smile" "Smile Detection" "Please smile naturally" 8000 VerifySmile;
    mkChallenge "turnHead" "Head Turn" "Turn your head slowly left, then right" 12000
                VerifyHeadTurn ].

(** Constructor. *)
Definition new : State :=
  mkState pool None [] false None [] 30 0 2 None noDir noDir false false noBaseline.

Definition set_currentChallenge (st : State) (c : option Challenge) : State :=
  mkState (challenges st) c (challengeHistory st) (isActive st) (startTime st)
          (landmarkHistory st) (maxHistoryLength st) (blinkCount st) (blinkRequired st)
          (blinkState st) (headTurnStates st) (eyeMovementStates st)
          (mouthOpenDetected st) (eyebrowRaiseDetected st) (baseline st).

Definition set_challengeHistory (st : State) (h : list ChallengeResult) : State :=
  mkState (challenges st) (currentChallenge st) h (isActive st) (startTime st)
          (landmarkHistory st) (maxHistoryLength st) (blinkCount st) (blinkRequired st)
          (blinkState st) (headTurnStates st) (eyeMovementStates st)
          (mouthOpenDetected st) (eyebrowRaiseDetected st) (baseline st).

Definition set_isActive (st : State) (b : bool) : State :=
  mkState (challenges st) (currentChallenge st) (challengeHistory st) b (startTime st)
          (landmarkHistory st) (maxHistoryLength st) (blinkCount st) (blinkRequired st)
          (blinkState st) (headTurnStates st) (eyeMovementStates st)
          (mouthOpenDetected st) (eyebrowRaiseDetected st) (baseline st).

Definition set_landmarkHistory (st : State) (h : list (list Point)) : State :=
  mkState (challenges st) (currentChallenge st) (challengeHistory st) (isActive st)
          (startTime st) h (maxHistoryLength st) (blinkCount st) (blinkRequired st)
          (blinkState st) (headTurnStates st) (eyeMovementStates st)
          (mouthOpenDetected st) (eyebrowRaiseDetected st) (baseline st).

Definition set_blinkCount (st : State) (n : nat) : State :=
  mkState (challenges st) (currentChallenge st) (challengeHistory st) (isActive st)
          (startTime st) (landmarkHistory st) (maxHistoryLength st) n (blinkRequired st)
          (blinkState st) (headTurnStates st) (eyeMovementStates st)
          (mouthOpenDetected st) (eyebrowRaiseDetected st) (baseline st).

Definition set_headTurnStates (st : State) (d : DirStates) : State :=
  mkState (challenges st) (currentChallenge st) (challengeHistory st) (isActive st)
          (startTime st) (landmarkHistory st) (maxHistoryLength st) (blinkCount st)
          (blinkRequired st) (blinkState st) d (eyeMovementStates st)
          (mouthOpenDetected st) (eyebrowRaiseDetected st) (baseline st).

Definition set_baseline (st : State) (b : Baseline) : State :=
  mkState (challenges st) (currentChallenge st) (challengeHistory st) (isActive st)
          (startTime st) (landmarkHistory st) (maxHistoryLength st) (blinkCount st)
          (blinkRequired st) (blinkState st) (headTurnStates st) (eyeMovementStates st)
          (mouthOpenDetected st) (eyebrowRaiseDetected st) b.

(** [this.challengeHistory.some(h => h.id === i)] *)
Definition usedId (st : State) (i : string) : bool :=
  existsb (fun h => match r_id h with
                    | Some j => String.eqb j i
                    | None => false
                    end)
          (challengeHistory st).

Definition used (st : State) (c : Challenge) : bool := usedId st (id c).

Definition availableChallenges (st : State) : list Challenge :=
  filter (fun c => negb (used st c)) (challenges st).

(** [getRandomChallenge()]; [random] is the value of [Math.random()]. *)
Definition getRandomChallenge (st : State) (random : number) : State * option Challenge :=
  let available := availableChallenges st in
  if (length available =? 0)%nat then (set_challengeHistory st [], None)
  else
    let randomIndex := Math_floor (random * of_nat (length available)) in
    (st, nth_error available (Z.to_nat (to_Z randomIndex))).

(** [initChallengeState(onComplete, onProgress)].  [console.log] reads
    [this.currentChallenge.name], a [TypeError] without a current challenge;
    the timers are armed after it. *)
Definition initChallengeState (st : State) (timers : Timers.Table) (now : Z)
    : State * Timers.Table * completion unit :=
  let st :=
    mkState (challenges st) (currentChallenge st) (challengeHistory st) true (Some now)
            [] (maxHistoryLength st) 0 (blinkRequired st) (Some "OPEN"%string)
            noDir noDir false false noBaseline in
  match currentChallenge st with
  | None => (st, timers, Throw)
  | Some c =>
      let tt1 := fst (Timers.setTimeout timers now Timers.ChallengeTimeout (duration c)) in
      let tt2 := fst (Timers.setInterval tt1 now Timers.ChallengeProgress 100) in
      (st, tt2, Normal tt)
  end.

(** [completeChallenge(success, onComplete)] *)
Definition completeChallenge (st : State) (now : Z) (ok : bool) : State * list Callback :=
  match currentChallenge st with
  | None => (st, [])
  | Some c =>
      let st := set_isActive st false in
      let started := match startTime st with Some t => t | None => 0%Z end in
      let result :=
        mkChallengeResult (Some (id c)) (Some (name c)) ok (Some (now - started)%Z) false in
      let st := set_challengeHistory st (challengeHistory st ++ [result]) in
      (set_currentChallenge st None, [OnComplete result])
  end.

(** [startChallengeExplicit(challenge, onComplete, onProgress)]; the
    argument is [undefined] when [find] found nothing. *)
Definition startChallengeExplicit (st : State) (timers : Timers.Table) (now : Z)
    (challenge : option Challenge) : State * Timers.Table * completion unit :=
  initChallengeState (set_currentChallenge st challenge) timers now.

(** [startChallenge(onComplete, onProgress)] *)
Definition startChallenge (st : State) (timers : Timers.Table) (now : Z)
    (random : number) : State * Timers.Table * completion (list Callback) :=
  let '(st, picked) := getRandomChallenge st random in
  let st := set_currentChallenge st picked in
  match picked with
  | None => (st, timers, Normal [OnComplete (mkChallengeResult None None true None true)])
  | Some _ =>
      let '(st, timers, c) := initChallengeState st timers now in
      (st, timers, match c with Normal _ => Normal [] | Throw => Throw end)
  end.

Definition addToHistory (st : State) (lm : list Point) : State :=
  set_landmarkHistory st (push_shift (maxHistoryLength st) (landmarkHistory st) lm).

(** [calculateDistance(point1, point2)] on coarse points. *)
Definition calculateDistance (point1 point2 : Point) : number :=
  let dx := at_index point1 0 - at_index point2 0 in
  let dy := at_index point1 1 - at_index point2 1 in
  Math_sqrt (dx * dx + dy * dy).

(** [landmarks[i]] behind the guard [landmarks.length >= 6], for [i < 6]. *)
Definition pt (lm : list Point) (i : nat) : Point := nth i lm (PArr []).

(** [establishBaseline(landmarks)] *)
Definition establishBaseline (st : State) (lm : list Point) : State * bool :=
  if (length (landmarkHistory st) <? 5)%nat then (st, false)
  else
    let rightEye := pt lm 0 in
    let leftEye := pt lm 1 in
    let mouth := pt lm 3 in
    let eyeDist := calculateDistance rightEye leftEye in
    let mouthW :=
      Math_abs (at_index mouth 0 - ((at_index rightEye 0 + at_index leftEye 0) / 2)) in
    (set_baseline st (mkBaseline (Some eyeDist) (Some mouthW)
                                 (eyeToEyebrowDistance (baseline st))
                                 (Some (eyeDist * 2.5))),
     true).

(** The [dist] closure of the dense paths; [lm[idx]] may be [undefined],
    and reading [.x] of it raises a [TypeError]. *)
Definition dist (p1 p2 : option Point) : completion number :=
  match p1, p2 with
  | Some a, Some b =>
      Normal (Math_sqrt (Math_pow2 (get_x a - get_x b) + Math_pow2 (get_y a - get_y b)))
  | _, _ => Throw
  end.

Definition div2 (a b : completion number) : completion number :=
  match a, b with
  | Normal u, Normal v => Normal (u / v)
  | _, _ => Throw
  end.

(** The average Eye-Aspect-Ratio of a dense landmark set. *)
Definition avgEAR (lm : list Point) : completion number :=
  let getP (idx : nat) := nth_error lm idx in
  let leftEAR := div2 (dist (getP 159%nat) (getP 145%nat)) (dist (getP 33%nat) (getP 133%nat)) in
  let rightEAR := div2 (dist (getP 386%nat) (getP 374%nat)) (dist (getP 362%nat) (getP 263%nat)) in
  match leftEAR, rightEAR with
  | Normal l, Normal r => Normal ((l + r) / 2)
  | _, _ => Throw
  end.

(** The coarse (BlazeFace) path of [verifyBlink]. *)
Definition verifyBlinkLowRes (st : State) (data : DetectionData) : State * completion bool :=
  match landmarks data with
  | None => (st, Normal false)
  | Some lm =>
      if (length lm <? 6)%nat then (st, Normal false)
      else
        let st := addToHistory st lm in
        let h := landmarkHistory st in
        if (length h <? 3)%nat then (st, Normal false)
        else
          let rightEye := pt lm 0 in
          let leftEye := pt lm 1 in
          let prev1 := nth (length h - 2) h [] in
          let prev2 := nth (length h - 3) h [] in
          let currentEyeDistance := calculateDistance rightEye leftEye in
          let prev1EyeDistance := calculateDistance (pt prev1 0) (pt prev1 1) in
          let prev2EyeDistance := calculateDistance (pt prev2 0) (pt prev2 1) in
          let closureThreshold := 0.85 in
          let recoveryThreshold := 0.95 in
          let st :=
            if (prev1EyeDistance <? currentEyeDistance * closureThreshold) &&
               gtb prev2EyeDistance (prev1EyeDistance * recoveryThreshold)
            then set_blinkCount st (S (blinkCount st)) else st in
          (st, Normal (blinkRequired st <=? blinkCount st)%nat)
  end.

(** [verifyBlink(detectionData)] *)
Definition verifyBlink (st : State) (data : DetectionData) : State * completion bool :=
  if isHighRes data then
    match landmarks data with
    | None => (st, Throw)
    | Some lm =>
        if (10 <? length lm)%nat then
          match avgEAR lm with
          | Throw => (st, Throw)
          | Normal ear =>
              let st := if ear <? 0.15 then set_blinkCount st (S (blinkCount st)) else st in
              (st, Normal (blinkRequired st <=? blinkCount st)%nat)
          end
        else verifyBlinkLowRes st data
    end
  else verifyBlinkLowRes st data.

(** The coarse path of [verifySmile]. *)
Definition verifySmileLowRes (st : State) (data : DetectionData) : State * completion bool :=
  match landmarks data with
  | None => (st, Normal false)
  | Some lm =>
      if (length lm <? 6)%nat then (st, Normal false)
      else
        let st := addToHistory st lm in
        let '(st, established) := establishBaseline st lm in
        if negb established then (st, Normal false)
        else
          let rightEye := pt lm 0 in
          let leftEye := pt lm 1 in
          let mouth := pt lm 3 in
          let eyeCenterX := (at_index rightEye 0 + at_index leftEye 0) / 2 in
          let currentMouthWidth := Math_abs (at_index mouth 0 - eyeCenterX) in
          let baseW := match mouthWidth (baseline st) with Some v => v | None => 0 end in
          let mouthWidthRatio := currentMouthWidth / baseW in
          let smileThreshold := 1.15 in
          (st, Normal (gtb mouthWidthRatio smileThreshold))
  end.

(** [verifySmile(detectionData)] *)
Definition verifySmile (st : State) (data : DetectionData) : State * completion bool :=
  if isHighRes data then
    match landmarks data with
    | None => (st, Throw)
    | Some lm =>
        if (10 <? length lm)%nat then
          let mouthW := dist (nth_error lm 61%nat) (nth_error lm 291%nat) in
          let faceW := dist (nth_error lm 234%nat) (nth_error lm 454%nat) in
          match div2 mouthW faceW with
          | Throw => (st, Throw)
          | Normal ratio => (st, Normal (gtb ratio 0.45))
          end
        else verifySmileLowRes st data
    end
  else verifySmileLowRes st data.

(** The normalized nose offset computed by [verifyHeadTurn]. *)
Definition normalizedOffset (lm : list Point) : number :=
  let rightEye := pt lm 0 in
  let leftEye := pt lm 1 in
  let nose := pt lm 2 in
  let eyeCenterX := (at_index rightEye 0 + at_index leftEye 0) / 2 in
  let noseOffset := at_index nose 0 - eyeCenterX in
  let eyeDist := calculateDistance rightEye leftEye in
  noseOffset / eyeDist.

(** The [if / else if / else if] chain on the three flags. *)
Definition updateHeadTurn (d : DirStates) (offset : number) : DirStates :=
  let leftThreshold := (- 0.35) in
  let rightThreshold := 0.35 in
  let centerThreshold := 0.15 in
  if offset <? leftThreshold then mkDirStates true (center d) (right d)
  else if gtb offset rightThreshold then mkDirStates (left d) (center d) true
  else if Math_abs offset <? centerThreshold then mkDirStates (left d) true (right d)
  else d.

(** [verifyHeadTurn(detectionData)] *)
Definition verifyHeadTurn (st : State) (data : DetectionData) : State * completion bool :=
  match landmarks data with
  | None => (st, Normal false)
  | Some lm =>
      if (length lm <? 6)%nat then (st, Normal false)
      else
        let st := addToHistory st lm in
        let st := set_headTurnStates st (updateHeadTurn (headTurnStates st) (normalizedOffset lm)) in
        let d := headTurnStates st in
        (st, Normal (left d && right d && center d))
  end.

(** [this.currentChallenge.verify(detectionData)] *)
Definition runVerify (v : Verifier) (st : State) (data : DetectionData)
    : State * completion bool :=
  match v with
  | VerifyBlink => verifyBlink st data
  | VerifySmile => verifySmile st data
  | VerifyHeadTurn => verifyHeadTurn st data
  end.

(** [processDetection(detectionData, onComplete)] *)
Definition processDetection (st : State) (now : Z) (data : DetectionData)
    : State * completion (list Callback) :=
  match currentChallenge st with
  | None => (st, Normal [])
  | Some c =>
      if negb (isActive st) then (st, Normal [])
      else
        match runVerify (verify c) st data with
        | (st, Throw) => (st, Throw)
        | (st, Normal true) =>
            let '(st, cbs) := completeChallenge st now true in (st, Normal cbs)
        | (st, Normal false) => (st, Normal [])
        end
  end.

(** The timeout closure armed by [initChallengeState]. *)
Definition onChallengeTimeout (st : State) (now : Z) : State * list Callback :=
  match currentChallenge st with
  | Some _ => if isActive st then completeChallenge st now false else (st, [])
  | None => (st, [])
  end.

(** The progress closure armed by [initChallengeState]; [self] is the
    identifier [progressInterval] it captured. *)
Definition onProgressTick (st : State) (timers : Timers.Table) (now : Z) (self : nat)
    : Timers.Table * completion (list Callback) :=
  if negb (isActive st) then (Timers.clear timers self, Normal [])
  else
    match currentChallenge st with
    | None => (timers, Throw)
    | Some c =>
        let started := match startTime st with Some t => t | None => 0%Z end in
        let elapsed := of_Z (now - started) in
        (timers, Normal [OnProgress (Math_min ((elapsed / of_Z (duration c)) * 100) 100)])
    end.

(** [reset()]; [blinkState] is not among the fields it assigns. *)
Definition reset (st : State) : State :=
  mkState (challenges st) None [] false None [] (maxHistoryLength st) 0
          (blinkRequired st) (blinkState st) noDir noDir false false noBaseline.

Record Statistics : Type := mkStatistics {
  total : nat;
  successful : nat;
  failed : nat;
  successRate : number;
  averageDuration : number
}.

(** [c.duration] of a history entry, as a number. *)
Definition durationOf (c : ChallengeResult) : number :=
  match r_duration c with
  | Some d => of_Z d
  | None => nan
  end.

(** [getStatistics()] *)
Definition getStatistics (st : State) : Statistics :=
  let h := challengeHistory st in
  let total := length h in
  let successful := length (filter success h) in
  let failed := (total - successful)%nat in
  let rate := if (0 <? total)%nat then (of_nat successful / of_nat total) * 100 else 0 in
  mkStatistics total successful failed (Math_round rate)
    (if (0 <? total)%nat
     then Math_round (fold_left (fun sum c => sum + durationOf c) h 0 / of_nat total)
     else 0).

End LivenessChallenger.

(** ** Face detector helpers (FaceDetector) *)

Module FaceDetector.

Import JS.
Local Open Scope float_scope.

(** A prediction of the coarse detector: the corners of the face box. *)
Record Prediction : Type := mkPrediction {
  topLeft : list number;
  bottomRight : list number
}.

(** The object returned by [getFacePosition]; the result for an empty
    prediction list has no [faceCenterX] and [faceCenterY] properties. *)
Record FacePosition : Type := mkFacePosition {
  centered : bool;
  offsetX : number;
  offsetY : number;
  faceCenterX : option number;
  faceCenterY : option number
}.

(** [getFacePosition(predictions, videoWidth, videoHeight)] *)
Definition getFacePosition (predictions : list Prediction) (videoWidth videoHeight : number)
    : FacePosition :=
  match predictions with
  | [] => mkFacePosition false 0 0 None None
  | face :: _ =>
      let start := topLeft face in
      let end_ := bottomRight face in
      let faceCenterX := (nth 0 start nan + nth 0 end_ nan) / 2 in
      let faceCenterY := (nth 1 start nan + nth 1 end_ nan) / 2 in
      let videoCenterX := videoWidth / 2 in
      let videoCenterY := videoHeight / 2 in
      let offsetX := faceCenterX - videoCenterX in
      let offsetY := faceCenterY - videoCenterY in
      let threshold := 0.15 in
      let centered :=
        (Math_abs offsetX <? videoWidth * threshold) &&
        (Math_abs offsetY <? videoHeight * threshold) in
      mkFacePosition centered offsetX offsetY (Some faceCenterX) (Some faceCenterY)
  end.

(** The object returned by [getFaceSize]; the result for an empty prediction
    list has no [tooSmall] and [tooLarge] properties. *)
Record FaceSize : Type := mkFaceSize {
  appropriate : bool;
  ratio : number;
  tooSmall : option bool;
  tooLarge : option bool
}.

(** [getFaceSize(predictions, videoWidth, videoHeight)] *)
Definition getFaceSize (predictions : list Prediction) (videoWidth videoHeight : number)
    : FaceSize :=
  match predictions with
  | [] => mkFaceSize false 0 None None
  | face :: _ =>
      let start := topLeft face in
      let end_ := bottomRight face in
      let faceWidth := nth 0 end_ nan - nth 0 start nan in
      let faceHeight := nth 1 end_ nan - nth 1 start nan in
      let faceArea := faceWidth * faceHeight in
      let frameArea := videoWidth * videoHeight in
      let ratio := faceArea / frameArea in
      mkFaceSize (geb ratio 0.15 && (ratio <=? 0.40)) ratio
                 (Some (ratio <? 0.15)) (Some (gtb ratio 0.40))
  end.

End FaceDetector.

(** ** The application (main.js, LivenessApp) *)

Module LivenessApp.

Import JS Landmarks Image Scores.
Local Open Scope float_scope.

(** The part of [FaceDetector] the application drives. *)
Record FaceDetector : Type := mkFaceDetector {
  isModelLoaded : bool;
  detectionInterval : option nat;
  highResMesh : option (list Keypoint)
}.

Record Analyzers : Type := mkAnalyzers {
  depthEstimator : DepthEstimator.State;
  passiveLiveness : PassiveLiveness.State;
  antiSpoofing : AntiSpoofing.State;
  eyeReflection : EyeReflection.State;
  microExpression : MicroExpression.State
}.

(** The arguments of one call of [showResults]. *)
Record Verdict : Type := mkVerdict {
  finalSuccess : bool;
  verificationDuration : Z;
  avgConfidence : number;
  combinedScore : number
}.

(** The application object together with the browser state it lives in:
    the timer table, the clock, and the results it has shown. *)
Record App : Type := mkApp {
  faceDetector : FaceDetector;
  livenessChallenger : LivenessChallenger.State;
  analyzers : Analyzers;
  isVerifying : bool;
  verificationStartTime : option Z;
  detectionData : option LivenessChallenger.DetectionData;
  confidenceHistory : list number;
  requiredChallenges : nat;
  completedChallenges : nat;
  passiveAnalysisInterval : option nat;
  securityScores : SecurityScores;
  latestKeypoints : option (list Keypoint);
  timers : Timers.Table;
  now : Z;
  shown : list Verdict
}.

(** What the outside world offers at one instant: the current video frame,
    the answer of the dense detector for it, the detection result the
    coarse detector passes to its callback ([None] when its inference call
    fails), and the next value of [Math.random()]. *)
Record Environment : Type := mkEnvironment {
  video : VideoElement;
  faces : completion (list (list Keypoint));
  detection : option LivenessChallenger.DetectionData;
  random : number
}.

(** The state after the constructor and [loadModels] have run. *)
Definition loaded : App :=
  mkApp (mkFaceDetector true None None)
        LivenessChallenger.new
        (mkAnalyzers (DepthEstimator.initialize DepthEstimator.new true)
                     (PassiveLiveness.initialize PassiveLiveness.new)
                     (AntiSpoofing.initialize AntiSpoofing.new)
                     (EyeReflection.initialize EyeReflection.new)
                     (MicroExpression.initialize MicroExpression.new))
        false None None [] 2 0 None initialScores None Timers.empty 0 [].

Definition set_faceDetector (a : App) (v : FaceDetector) : App :=
  mkApp v (livenessChallenger a) (analyzers a) (isVerifying a) (verificationStartTime a)
        (detectionData a) (confidenceHistory a) (requiredChallenges a)
        (completedChallenges a) (passiveAnalysisInterval a) (securityScores a)
        (latestKeypoints a) (timers a) (now a) (shown a).

Definition set_livenessChallenger (a : App) (v : LivenessChallenger.State) : App :=
  mkApp (faceDetector a) v (analyzers a) (isVerifying a) (verificationStartTime a)
        (detectionData a) (confidenceHistory a) (requiredChallenges a)
        (completedChallenges a) (passiveAnalysisInterval a) (securityScores a)
        (latestKeypoints a) (timers a) (now a) (shown a).

Definition set_analyzers (a : App) (v : Analyzers) : App :=
  mkApp (faceDetector a) (livenessChallenger a) v (isVerifying a) (verificationStartTime a)
        (detectionData a) (confidenceHistory a) (requiredChallenges a)
        (completedChallenges a) (passiveAnalysisInterval a) (securityScores a)
        (latestKeypoints a) (timers a) (now a) (shown a).

Definition set_isVerifying (a : App) (v : bool) : App :=
  mkApp (faceDetector a) (livenessChallenger a) (analyzers a) v (verificationStartTime a)
        (detectionData a) (confidenceHistory a) (requiredChallenges a)
        (completedChallenges a) (passiveAnalysisInterval a) (securityScores a)
        (latestKeypoints a) (timers a) (now a) (shown a).

Definition set_detectionData (a : App) (v : option LivenessChallenger.DetectionData) : App :=
  mkApp (faceDetector a) (livenessChallenger a) (analyzers a) (isVerifying a)
        (verificationStartTime a) v (confidenceHistory a) (requiredChallenges a)
        (completedChallenges a) (passiveAnalysisInterval a) (securityScores a)
        (latestKeypoints a) (timers a) (now a) (shown a).

Definition set_confidenceHistory (a : App) (v : list number) : App :=
  mkApp (faceDetector a) (livenessChallenger a) (analyzers a) (isVerifying a)
        (verificationStartTime a) (detectionData a) v (requiredChallenges a)
        (completedChallenges a) (passiveAnalysisInterval a) (securityScores a)
        (latestKeypoints a) (timers a) (now a) (shown a).

Definition set_completedChallenges (a : App) (v : nat) : App :=
  mkApp (faceDetector a) (livenessChallenger a) (analyzers a) (isVerifying a)
        (verificationStartTime a) (detectionData a) (confidenceHistory a)
        (requiredChallenges a) v (passiveAnalysisInterval a) (securityScores a)
        (latestKeypoints a) (timers a) (now a) (shown a).

Definition set_passiveAnalysisInterval (a : App) (v : option nat) : App :=
  mkApp (faceDetector a) (livenessChallenger a) (analyzers a) (isVerifying a)
        (verificationStartTime a) (detectionData a) (confidenceHistory a)
        (requiredChallenges a) (completedChallenges a) v (securityScores a)
        (latestKeypoints a) (timers a) (now a) (shown a).

Definition set_securityScores (a : App) (v : SecurityScores) : App :=
  mkApp (faceDetector a) (livenessChallenger a) (analyzers a) (isVerifying a)
        (verificationStartTime a) (detectionData a) (confidenceHistory a)
        (requiredChallenges a) (completedChallenges a) (passiveAnalysisInterval a) v
        (latestKeypoints a) (timers a) (now a) (shown a).

Definition set_latestKeypoints (a : App) (v : option (list Keypoint)) : App :=
  mkApp (faceDetector a) (livenessChallenger a) (analyzers a) (isVerifying a)
        (verificationStartTime a) (detectionData a) (confidenceHistory a)
        (requiredChallenges a) (completedChallenges a) (passiveAnalysisInterval a)
        (securityScores a) v (timers a) (now a) (shown a).

Definition set_timers (a : App) (v : Timers.Table) : App :=
  mkApp (faceDetector a) (livenessChallenger a) (analyzers a) (isVerifying a)
        (verificationStartTime a) (detectionData a) (confidenceHistory a)
        (requiredChallenges a) (completedChallenges a) (passiveAnalysisInterval a)
        (securityScores a) (latestKeypoints a) v (now a) (shown a).

Definition set_now (a : App) (v : Z) : App :=
  mkApp (faceDetector a) (livenessChallenger a) (analyzers a) (isVerifying a)
        (verificationStartTime a) (detectionData a) (confidenceHistory a)
        (requiredChallenges a) (completedChallenges a) (passiveAnalysisInterval a)
        (securityScores a) (latestKeypoints a) (timers a) v (shown a).

Definition set_shown (a : App) (v : list Verdict) : App :=
  mkApp (faceDetector a) (livenessChallenger a) (analyzers a) (isVerifying a)
        (verificationStartTime a) (detectionData a) (confidenceHistory a)
        (requiredChallenges a) (completedChallenges a) (passiveAnalysisInterval a)
        (securityScores a) (latestKeypoints a) (timers a) (now a) v.

(** [FaceDetector.stopDetection()] *)
Definition stopDetection (a : App) : App :=
  match detectionInterval (faceDetector a) with
  | Some tid =>
      set_faceDetector (set_timers a (Timers.clear (timers a) tid))
        (mkFaceDetector (isModelLoaded (faceDetector a)) None (highResMesh (faceDetector a)))
  | None => a
  end.

(** [FaceDetector.startDetection(video, canvas, callback)] *)
Definition startDetection (a : App) : App :=
  if negb (isModelLoaded (faceDetector a)) then a
  else
    let '(tbl, tid) := Timers.setInterval (timers a) (now a) Timers.DetectionTick 100 in
    set_faceDetector (set_timers a tbl)
      (mkFaceDetector (isModelLoaded (faceDetector a)) (Some tid) (highResMesh (faceDetector a))).

(** [startPassiveAnalysis()] *)
Definition startPassiveAnalysis (a : App) : App :=
  let '(tbl, tid) := Timers.setInterval (timers a) (now a) Timers.PassiveTick 200 in
  set_passiveAnalysisInterval (set_timers a tbl) (Some tid).

(** [stopPassiveAnalysis()] *)
Definition stopPassiveAnalysis (a : App) : App :=
  match passiveAnalysisInterval a with
  | Some tid => set_passiveAnalysisInterval (set_timers a (Timers.clear (timers a) tid)) None
  | None => a
  end.

(** The [try] block of the passive-analysis closure, cut into the five
    analyzer calls.  Each part returns [Throw] when its analyzer raised; the
    [catch] clause then ends the cycle, keeping what was written so far. *)
Definition depthPart (a : App) (env : Environment)
    : App * option DepthEstimator.Result :=
  let '(dst, depthResult) :=
    DepthEstimator.estimateDepth (depthEstimator (analyzers a)) (now a) (faces env) in
  let an := analyzers a in
  let a := set_analyzers a (mkAnalyzers dst (passiveLiveness an) (antiSpoofing an)
                                        (eyeReflection an) (microExpression an)) in
  match depthResult with
  | Some r =>
      let a := set_securityScores a (setDepth (DepthEstimator.score r) (securityScores a)) in
      let a := set_latestKeypoints a (DepthEstimator.keypoints r) in
      let a :=
        match latestKeypoints a with
        | Some kps =>
            set_faceDetector a (mkFaceDetector (isModelLoaded (faceDetector a))
                                               (detectionInterval (faceDetector a))
                                               (Some kps))
        | None => a
        end in
      (a, depthResult)
  | None => (a, None)
  end.

Definition passivePart (a : App) (env : Environment)
    : App * completion (option PassiveLiveness.Result) :=
  let an := analyzers a in
  let '(pst, r) := PassiveLiveness.analyze (passiveLiveness an) (video env) in
  let a := set_analyzers a (mkAnalyzers (depthEstimator an) pst (antiSpoofing an)
                                        (eyeReflection an) (microExpression an)) in
  match r with
  | Normal (Some p) =>
      (set_securityScores a (setPassive (PassiveLiveness.overallScore p) (securityScores a)), r)
  | _ => (a, r)
  end.

Definition antiSpoofPart (a : App) (env : Environment)
    (depthResult : option DepthEstimator.Result)
    (passiveResult : option PassiveLiveness.Result) : App * completion unit :=
  let an := analyzers a in
  let '(ast, r) :=
    AntiSpoofing.analyze (antiSpoofing an) (video env) depthResult passiveResult in
  let a := set_analyzers a (mkAnalyzers (depthEstimator an) (passiveLiveness an) ast
                                        (eyeReflection an) (microExpression an)) in
  match r with
  | Normal (Some res) =>
      (set_securityScores a (setAntiSpoof (AntiSpoofing.overallScore res) (securityScores a)),
       Normal tt)
  | Normal None => (a, Normal tt)
  | Throw => (a, Throw)
  end.

Definition eyePart (a : App) (env : Environment) (kps : list Keypoint)
    : App * completion unit :=
  let an := analyzers a in
  let '(est, r) := EyeReflection.analyze (eyeReflection an) (video env) (Some kps) in
  let a := set_analyzers a (mkAnalyzers (depthEstimator an) (passiveLiveness an)
                                        (antiSpoofing an) est (microExpression an)) in
  match r with
  | Normal (Some res) =>
      (set_securityScores a (setEyeReflection (EyeReflection.score res) (securityScores a)),
       Normal tt)
  | Normal None => (a, Normal tt)
  | Throw => (a, Throw)
  end.

Definition microPart (a : App) (kps : list Keypoint) : App :=
  let an := analyzers a in
  let '(mst, r) := MicroExpression.analyze (microExpression an) (now a) (Some kps) in
  let a := set_analyzers a (mkAnalyzers (depthEstimator an) (passiveLiveness an)
                                        (antiSpoofing an) (eyeReflection an) mst) in
  match r with
  | Some res =>
      set_securityScores a (setMicroExpression (MicroExpression.score res) (securityScores a))
  | None => a
  end.

(** The closure given to [setInterval] by [startPassiveAnalysis]. *)
Definition passiveCycle (a : App) (env : Environment) : App :=
  if negb (isVerifying a) then a
  else
    let '(a, depthResult) := depthPart a env in
    match passivePart a env with
    | (a, Throw) => a
    | (a, Normal passiveResult) =>
        match antiSpoofPart a env depthResult passiveResult with
        | (a, Throw) => a
        | (a, Normal _) =>
            match depthResult with
            | Some r =>
                match DepthEstimator.keypoints r with
                | Some kps =>
                    match eyePart a env kps with
                    | (a, Throw) => a
                    | (a, Normal _) => microPart a kps
                    end
                | None => a
                end
            | None => a
            end
        end
    end.

(** [handleChallengeComplete(result)] *)
Definition handleChallengeComplete (a : App) (result : LivenessChallenger.ChallengeResult)
    : App :=
  if LivenessChallenger.success result then
    let a := set_completedChallenges a (S (completedChallenges a)) in
    set_timers a (fst (Timers.setTimeout (timers a) (now a)
                                         (Timers.StartNextChallenge None) 1000))
  else
    set_timers a (fst (Timers.setTimeout (timers a) (now a)
                         (Timers.StartNextChallenge (LivenessChallenger.r_id result)) 2000)).

(** Delivery of the callbacks a challenger method has invoked;
    [updateChallengeProgress] only moves the progress bar. *)
Definition deliver (a : App) (cbs : list LivenessChallenger.Callback) : App :=
  fold_left (fun a' cb =>
               match cb with
               | LivenessChallenger.OnComplete r => handleChallengeComplete a' r
               | LivenessChallenger.OnProgress _ => a'
               end)
            cbs a.

(** [completeVerification(success)] *)
Definition completeVerification (a : App) (success : bool) : App :=
  let a := set_isVerifying a false in
  let a := stopPassiveAnalysis a in
  let a := stopDetection a in
  let activeScore :=
    Math_round ((of_nat (completedChallenges a) / of_nat (requiredChallenges a)) * 100) in
  let a := set_securityScores a (setActive activeScore (securityScores a)) in
  let duration :=
    (now a - match verificationStartTime a with Some t => t | None => 0 end)%Z in
  let avgConf :=
    if (0 <? length (confidenceHistory a))%nat
    then Math_round (fold_left (fun x y => x + y) (confidenceHistory a) 0 /
                     of_nat (length (confidenceHistory a)))
    else 0 in
  let combined := calculateCombinedScore (securityScores a) in
  let final := success && geb combined 80 in
  set_shown a (shown a ++ [mkVerdict final duration avgConf combined]).

(** [startNextChallenge(retryChallengeId)]; a non-empty string is truthy. *)
Definition startNextChallenge (a : App) (retryChallengeId : option string)
    (env : Environment) : App :=
  if (requiredChallenges a <=? completedChallenges a)%nat then completeVerification a true
  else
    let retry :=
      match retryChallengeId with
      | Some i => if String.eqb i ""%string then None else Some i
      | None => None
      end in
    match retry with
    | Some i =>
        let ch := livenessChallenger a in
        let challenge :=
          List.find (fun c => String.eqb (LivenessChallenger.id c) i)
                    (LivenessChallenger.challenges ch) in
        let '(ch, tbl, _) :=
          LivenessChallenger.startChallengeExplicit ch (timers a) (now a) challenge in
        set_timers (set_livenessChallenger a ch) tbl
    | None =>
        let '(ch, tbl, r) :=
          LivenessChallenger.startChallenge (livenessChallenger a) (timers a) (now a)
                                            (random env) in
        let a := set_timers (set_livenessChallenger a ch) tbl in
        match r with
        | Normal cbs => deliver a cbs
        | Throw => a
        end
    end.

(** [handleDetection(data)] *)
Definition handleDetection (a : App) (data : LivenessChallenger.DetectionData) : App :=
  let a := set_detectionData a (Some data) in
  let a :=
    if LivenessChallenger.faceDetected data && negb (LivenessChallenger.multipleFaces data)
    then set_confidenceHistory a (confidenceHistory a ++ [LivenessChallenger.confidence data])
    else a in
  if LivenessChallenger.isActive (livenessChallenger a) &&
     LivenessChallenger.faceDetected data && negb (LivenessChallenger.multipleFaces data)
  then
    let challengeData :=
      match latestKeypoints a with
      | Some kps =>
          LivenessChallenger.mkDetectionData
            (LivenessChallenger.faceDetected data) (LivenessChallenger.multipleFaces data)
            (LivenessChallenger.confidence data) (Some (map PObj kps)) true
      | None =>
          LivenessChallenger.mkDetectionData
            (LivenessChallenger.faceDetected data) (LivenessChallenger.multipleFaces data)
            (LivenessChallenger.confidence data) (LivenessChallenger.landmarks data) false
      end in
    let '(ch, r) :=
      LivenessChallenger.processDetection (livenessChallenger a) (now a) challengeData in
    let a := set_livenessChallenger a ch in
    match r with
    | Normal cbs => deliver a cbs
    | Throw => a
    end
  else a.

(** [resetApp()] *)
Definition resetApp (a : App) : App :=
  let a := stopDetection a in
  let a := set_livenessChallenger a (LivenessChallenger.reset (livenessChallenger a)) in
  let a := stopPassiveAnalysis a in
  let an := analyzers a in
  let a :=
    set_analyzers a
      (mkAnalyzers (DepthEstimator.reset (depthEstimator an))
                   (PassiveLiveness.reset (passiveLiveness an))
                   (AntiSpoofing.reset (antiSpoofing an))
                   (EyeReflection.reset (eyeReflection an))
                   (MicroExpression.reset (microExpression an))) in
  mkApp (faceDetector a) (livenessChallenger a) (analyzers a) false None None []
        (requiredChallenges a) 0 (passiveAnalysisInterval a) initialScores
        (latestKeypoints a) (timers a) (now a) (shown a).

(** [cancelVerification()] *)
Definition cancelVerification (a : App) : App :=
  if isVerifying a then completeVerification a false else resetApp a.

(** [startVerification()], with camera access granted. *)
Definition startVerification (a : App) : App :=
  let a := startDetection a in
  let a := startPassiveAnalysis a in
  let a :=
    mkApp (faceDetector a) (livenessChallenger a) (analyzers a) true (Some (now a))
          (detectionData a) [] (requiredChallenges a) 0 (passiveAnalysisInterval a)
          (securityScores a) (latestKeypoints a) (timers a) (now a) (shown a) in
  set_timers a (fst (Timers.setTimeout (timers a) (now a)
                                       (Timers.StartNextChallenge None) 2000)).

(** Running the handler of a timer that fires. *)
Definition runHandler (a : App) (tm : Timers.Timer) (env : Environment) : App :=
  match Timers.handler tm with
  | Timers.ChallengeTimeout =>
      let '(ch, cbs) :=
        LivenessChallenger.onChallengeTimeout (livenessChallenger a) (now a) in
      deliver (set_livenessChallenger a ch) cbs
  | Timers.ChallengeProgress =>
      let '(tbl, _) :=
        LivenessChallenger.onProgressTick (livenessChallenger a) (timers a) (now a)
                                          (Timers.tid tm) in
      set_timers a tbl
  | Timers.PassiveTick => passiveCycle a env
  | Timers.DetectionTick =>
      match detection env with
      | Some data => handleDetection a data
      | None => a
      end
  | Timers.StartNextChallenge retry => startNextChallenge a retry env
  end.

(** A pending timer fires: a timeout leaves the table before its handler
    runs, an interval is due again one period after its due time. *)
Definition fire (a : App) (tm : Timers.Timer) (env : Environment) : App :=
  let a :=
    match Timers.period tm with
    | None => set_timers a (Timers.clear (timers a) (Timers.tid tm))
    | Some _ => a
    end in
  let a := runHandler a tm env in
  set_timers a (Timers.rearm (timers a) tm (Timers.due tm)).

(** The timer that is due first (the older one among equals). *)
Definition earliest (t : Timers.Table) : option Timers.Timer :=
  fold_left (fun best tm =>
               match best with
               | None => Some tm
               | Some b => if (Timers.due tm <? Timers.due b)%Z then Some tm else Some b
               end)
            (Timers.pending t) None.

(** The event loop up to time [target]: timers fire in the order in which
    they fall due, each seeing the environment of its instant; then the
    clock reads [target].  [None] when [fuel] firings do not suffice. *)
Fixpoint advance (fuel : nat) (env : Z -> Environment) (target : Z) (a : App)
    : option App :=
  match earliest (timers a) with
  | None => Some (set_now a (Z.max (now a) target))
  | Some tm =>
      if (Timers.due tm <=? target)%Z then
        match fuel with
        | O => None
        | S fuel' =>
            let t := Z.max (now a) (Timers.due tm) in
            advance fuel' env target (fire (set_now a t) tm (env t))
        end
      else Some (set_now a (Z.max (now a) target))
  end.

End LivenessApp.

(** ** Sample inputs used by the examples below *)

Module Samples.

Import JS Landmarks.
Local Open Scope float_scope.

(** A coarse landmark frame: eyes at x = 0 and x = 100 on one line, the nose
    at [noseX]; its normalized nose offset is [(noseX - 50) / 100]. *)
Definition coarseFrame (noseX : number) : LivenessChallenger.DetectionData :=
  LivenessChallenger.mkDetectionData true false 95
    (Some [PArr [0; 0]; PArr [100; 0]; PArr [noseX; 30]; PArr [50; 60];
           PArr [-10; 10]; PArr [110; 10]])
    false.

(** Nose offsets 0.0, -0.40, 0.0, 0.40. *)
Definition turnLeftThenRight : list LivenessChallenger.DetectionData :=
  map coarseFrame [50; 10; 50; 90].

(** Nose offsets 0.0, -0.40, -0.40, -0.40. *)
Definition turnLeftOnly : list LivenessChallenger.DetectionData :=
  map coarseFrame [50; 10; 10; 10].

(** Nose offsets 0.40, 0.0, -0.40: the flags set in another order. *)
Definition turnRightThenLeft : list LivenessChallenger.DetectionData :=
  map coarseFrame [90; 50; 10].

(** A dense landmark set of 468 keypoints.  Both eyes are 10 wide and
    [opening] high, so the Eye-Aspect-Ratio of either eye is [opening / 10];
    the outer eye corners are 30 apart and the nose tip protrudes by 6. *)
Definition denseKeypoints (opening : number) : list Keypoint :=
  map (fun i =>
         if (i =? 1)%nat then mkKeypoint 15 10 (Some (-6))
         else if (i =? 10)%nat then mkKeypoint 15 (-20) (Some 2)
         else if (i =? 152)%nat then mkKeypoint 15 30 (Some 1)
         else if (i =? 133)%nat then mkKeypoint 10 0 (Some 0)
         else if (i =? 145)%nat then mkKeypoint 5 opening (Some 0)
         else if (i =? 159)%nat then mkKeypoint 5 0 (Some 0)
         else if (i =? 362)%nat then mkKeypoint 20 0 (Some 0)
         else if (i =? 263)%nat then mkKeypoint 30 0 (Some 0)
         else if (i =? 386)%nat then mkKeypoint 25 0 (Some 0)
         else if (i =? 374)%nat then mkKeypoint 25 opening (Some 0)
         else mkKeypoint 0 0 (Some 0))
      (seq 0 468).

Definition denseFrame (opening : number) : LivenessChallenger.DetectionData :=
  LivenessChallenger.mkDetectionData true false 95
    (Some (map PObj (denseKeypoints opening))) true.

(** Eyes open (ratio 0.3) and eyes closed (ratio 0.1). *)
Definition eyesOpen : LivenessChallenger.DetectionData := denseFrame 3.
Definition eyesClosed : LivenessChallenger.DetectionData := denseFrame 1.

(** One closure that lasts two frames. *)
Definition oneLongBlink : list LivenessChallenger.DetectionData :=
  [eyesOpen; eyesClosed; eyesClosed; eyesOpen].

(** Two closures of one frame each. *)
Definition twoShortBlinks : list LivenessChallenger.DetectionData :=
  [eyesOpen; eyesClosed; eyesOpen; eyesClosed].

(** The blink challenge, started at time 0. *)
Definition blinkStarted : LivenessChallenger.State :=
  fst (fst (LivenessChallenger.startChallengeExplicit
              LivenessChallenger.new Timers.empty 0
              (nth_error LivenessChallenger.pool 0))).

(** Frames handed to [processDetection] one after the other, 100 ms apart:
    the callbacks of each call. *)
Fixpoint process (st : LivenessChallenger.State) (now : Z)
    (frames : list LivenessChallenger.DetectionData)
    : LivenessChallenger.State * list (completion (list LivenessChallenger.Callback)) :=
  match frames with
  | [] => (st, [])
  | f :: rest =>
      let '(st1, r) := LivenessChallenger.processDetection st now f in
      let '(st2, rs) := process st1 (now + 100) rest in
      (st2, r :: rs)
  end.

(** Rounds of [startChallenge] followed by [completeChallenge]: the
    identifier selected in each round, [None] when the selector returned
    none.  A step gives the value of [Math.random()] and the outcome of the
    challenge. *)
Fixpoint selections (st : LivenessChallenger.State) (timers : Timers.Table) (now : Z)
    (steps : list (number * bool)) : list (option string) :=
  match steps with
  | [] => []
  | (r, ok) :: rest =>
      let '(st1, timers1, _) := LivenessChallenger.startChallenge st timers now r in
      match LivenessChallenger.currentChallenge st1 with
      | Some c =>
          Some (LivenessChallenger.id c)
          :: selections (fst (LivenessChallenger.completeChallenge st1 now ok)) timers1 now rest
      | None => None :: selections st1 timers1 now rest
      end
  end.

(** The selections made before the selector first returns none. *)
Fixpoint untilNone (sel : list (option string)) : list string :=
  match sel with
  | Some i :: rest => i :: untilNone rest
  | _ => []
  end.

(** The challenger after three completed rounds: every descriptor of the
    pool is in the history. *)
Definition exhausted : LivenessChallenger.State :=
  fold_left (fun st c =>
               fst (LivenessChallenger.completeChallenge
                      (fst (fst (LivenessChallenger.startChallengeExplicit
                                   st Timers.empty 0 (Some c))))
                      5000 true))
            LivenessChallenger.pool LivenessChallenger.new.

(** The challenger after the blink and the smile challenge have been run
    and completed: the head turn is the one descriptor left unused. *)
Definition twoUsed : LivenessChallenger.State :=
  fold_left (fun st c =>
               fst (LivenessChallenger.completeChallenge
                      (fst (fst (LivenessChallenger.startChallengeExplicit
                                   st Timers.empty 0 (Some c))))
                      5000 true))
            (firstn 2 LivenessChallenger.pool) LivenessChallenger.new.

(** The RGBA bytes of a [w] x [h] canvas whose pixel at [(px, py)] has the
    colour [pix w h px py]. *)
Definition rasterOf (pix : Z -> Z -> Z -> Z -> Z * Z * Z) (w h : Z) : list Z :=
  flat_map (fun py =>
              flat_map (fun px => let '(r, g, b) := pix w h px py in [r; g; b; 255%Z])
                       (range 0 w 1))
           (range 0 h 1).

(** A lit face: skin tones, brighter on the left half of the picture, with
    a fine texture; [flicker] is added to every channel. *)
Definition facePixel (flicker : Z) (w h px py : Z) : Z * Z * Z :=
  let p := ((px + py) mod 2)%Z in
  if (px <? w / 2)%Z
  then (220 + 4 * p + flicker, 170 + 8 * p + flicker, 140 + 8 * p + flicker)%Z
  else (190 + 4 * p + flicker, 140 + 8 * p + flicker, 110 + 8 * p + flicker)%Z.

(** A 160 x 120 camera picture of the lit face. *)
Definition faceVideo (flicker : Z) : Image.VideoElement :=
  Image.mkVideo 160 120 (rasterOf (facePixel flicker)).

(** A 160 x 120 camera picture of an evenly gray surface. *)
Definition flatVideo : Image.VideoElement :=
  Image.mkVideo 160 120 (rasterOf (fun _ _ _ _ => (128, 128, 128)%Z)).

(** The result of the depth estimator on the first frame with a face. *)
Definition faceDepthResult : option DepthEstimator.Result :=
  snd (DepthEstimator.estimateDepth (DepthEstimator.initialize DepthEstimator.new true) 0
         (Normal [denseKeypoints 3])).

(** The result of the passive analyzer on its first frame. *)
Definition firstPassiveResult (video : Image.VideoElement)
    : completion (option PassiveLiveness.Result) :=
  snd (PassiveLiveness.analyze (PassiveLiveness.initialize PassiveLiveness.new) video).

(** A live subject in front of the camera: the lit face with a slight
    flicker from one analysis tick to the next, the dense detector finding
    the face, the coarse detector reporting it. *)
Definition liveEnv (t : Z) : LivenessApp.Environment :=
  LivenessApp.mkEnvironment (faceVideo (6 * ((t / 200) mod 3)))
                            (Normal [denseKeypoints 3])
                            (Some (coarseFrame 50)) 0.

(** The first 1200 ms of an attempt with the live subject: six analysis
    ticks. *)
Definition liveAttempt : option LivenessApp.App :=
  LivenessApp.advance 100 liveEnv 1200 (LivenessApp.startVerification LivenessApp.loaded).

(** Nobody in front of a low-resolution (40 x 30) camera.  [Math.random()]
    answers 0 during the first four seconds and 0.9 afterwards. *)
Definition idleEnv (t : Z) : LivenessApp.Environment :=
  LivenessApp.mkEnvironment
    (Image.mkVideo 40 30 (rasterOf (fun _ _ _ _ => (128, 128, 128)%Z)))
    (Normal [])
    (Some (LivenessChallenger.mkDetectionData false false 0 None false))
    (if (t <? 4000)%Z then 0 else 0.9).





(** The depth estimator after one analysed frame that shows a face. *)
Definition depthAfterFace : DepthEstimator.State :=
  fst (DepthEstimator.estimateDepth (DepthEstimator.initialize DepthEstimator.new true) 0
         (Normal [denseKeypoints 3])).

(** The verdicts of a verifier on successive frames of one challenge. *)
Fixpoint feed (v : LivenessChallenger.Verifier) (st : LivenessChallenger.State)
    (frames : list LivenessChallenger.DetectionData)
    : LivenessChallenger.State * list (completion bool) :=
  match frames with
  | [] => (st, [])
  | f :: rest =>
      let '(st1, r) := LivenessChallenger.runVerify v st f in
      let '(st2, rs) := feed v st1 rest in
      (st2, r :: rs)
  end.

End Samples.

(** ** State invariants of the analyzers *)

Module Invariants.

(** A cached micro-expression result exists only once five history entries
    have been gathered, and the history holds at least five entries. *)
Definition micro (st : MicroExpression.State) : Prop :=
  5 <= MicroExpression.maxHistory st /\
  (MicroExpression.cachedResult st = None \/
   5 <= length (MicroExpression.landmarkHistory st)).

(** A score that passes no verdict: 50 of 100. *)
Definition neutralScore (x : JS.number) : Prop := x = 50%float.

(** The landmark guard shared by the eye-reflection and micro-expression
    analyzers: no keypoints, or fewer than 400 of them. *)
Definition tooShort (kps : option (list Landmarks.Keypoint)) : Prop :=
  match kps with
  | None => True
  | Some l => length l < 400
  end.

(** A verdict is sound when it is positive only with a combined score of at
    least 80. *)
Definition sound (v : LivenessApp.Verdict) : Prop :=
  LivenessApp.finalSuccess v = true ->
  (80 <=? LivenessApp.combinedScore v)%float = true.

(** What running the application from [a] to [a'] may do to a session: the
    number of required challenges stays, the number of completed challenges
    does not decrease, verdicts are only added, each of them sound, and none
    is added before the required number of challenges is completed. *)
Definition advances (a a' : LivenessApp.App) : Prop :=
  LivenessApp.requiredChallenges a' = LivenessApp.requiredChallenges a /\
  LivenessApp.completedChallenges a <= LivenessApp.completedChallenges a' /\
  exists vs,
    LivenessApp.shown a' = LivenessApp.shown a ++ vs /\
    (vs <> [] -> LivenessApp.requiredChallenges a <= LivenessApp.completedChallenges a') /\
    Forall sound vs.

(** The part of the application state the verdicts depend on is left as it
    is. *)
Definition kept (a a' : LivenessApp.App) : Prop :=
  LivenessApp.requiredChallenges a' = LivenessApp.requiredChallenges a /\
  LivenessApp.completedChallenges a' = LivenessApp.completedChallenges a /\
  LivenessApp.shown a' = LivenessApp.shown a.

(** The part of the application state the challenges and the verdicts live
    in is left as it is. *)
Definition untouched (a a' : LivenessApp.App) : Prop :=
  LivenessApp.livenessChallenger a' = LivenessApp.livenessChallenger a /\
  LivenessApp.timers a' = LivenessApp.timers a /\
  LivenessApp.confidenceHistory a' = LivenessApp.confidenceHistory a /\
  LivenessApp.isVerifying a' = LivenessApp.isVerifying a /\
  LivenessApp.requiredChallenges a' = LivenessApp.requiredChallenges a /\
  LivenessApp.completedChallenges a' = LivenessApp.completedChallenges a /\
  LivenessApp.shown a' = LivenessApp.shown a.

(** A depth result computed for a face: it carries a depth score that is
    truthy, the features and the keypoints, and no reason. *)
Definition faceResult (r : DepthEstimator.Result) : Prop :=
  exists ds f kps,
    DepthEstimator.depthScore r = Some ds /\
    JS.truthy ds = true /\
    DepthEstimator.features r = Some f /\
    DepthEstimator.keypoints r = Some kps /\
    DepthEstimator.reason r = None.

End Invariants.

(** * Properties *)

Import JS.

(** Closed facts about sample inputs are settled by evaluation, one
    conjunct at a time. *)
Ltac evaluate := vm_compute; reflexivity.
Ltac evaluate_each :=
  repeat match goal with
         | |- _ /\ _ => split
         end; evaluate.

Section RollingHistory.

Context {A : Type}.

Lemma length_tl_pred (l : list A) : length (tl l) = pred (length l).
Proof. destruct l; reflexivity. Qed.

Lemma push_shift_length (max : nat) (arr : list A) (x : A) :
  length arr <= max -> length (push_shift max arr x) <= max.
Proof.
  intros Hlen. unfold push_shift.
  destruct (Nat.ltb_spec max (length (arr ++ [x]))) as [Hgt | Hle].
  - rewrite length_tl_pred, length_app. simpl. lia.
  - exact Hle.
Qed.

Lemma skipn_1_tl (l : list A) : skipn 1 l = tl l.
Proof. destruct l; reflexivity. Qed.

Lemma push_shift_suffix (max : nat) (arr : list A) (x : A) :
  length arr <= max ->
  push_shift max arr x = slice_last max (arr ++ [x]).
Proof.
  intros Hlen. unfold push_shift, slice_last.
  destruct (Nat.ltb_spec max (length (arr ++ [x]))) as [Hgt | Hle].
  - rewrite length_app in *. simpl in *.
    replace (length arr + 1 - max) with 1 by lia.
    symmetry. apply skipn_1_tl.
  - replace (length (arr ++ [x]) - max) with 0 by lia. reflexivity.
Qed.

Lemma slice_last_length (k : nat) (arr : list A) :
  length (slice_last k arr) <= k.
Proof. unfold slice_last. rewrite length_skipn. lia. Qed.

Lemma slice_last_app (k : nat) (arr xs : list A) :
  slice_last k (slice_last k arr ++ xs) = slice_last k (arr ++ xs).
Proof.
  unfold slice_last.
  rewrite !length_app, length_skipn.
  destruct (Nat.le_gt_cases (length arr) k) as [Hle | Hgt].
  - replace (length arr - k) with 0 by lia. simpl.
    rewrite Nat.sub_0_r. reflexivity.
  - rewrite !skipn_app, length_skipn, skipn_skipn.
    replace (length arr - (length arr - k) + length xs - k) with (length xs) by lia.
    replace (length arr + length xs - k - length arr) with (length xs - k) by lia.
    replace (length xs - (length arr - (length arr - k))) with (length xs - k) by lia.
    f_equal. f_equal. lia.
Qed.

Lemma fold_push_shift (max : nat) (xs arr : list A) :
  length arr <= max ->
  fold_left (push_shift max) xs arr = slice_last max (arr ++ xs).
Proof.
  revert arr. induction xs as [| x xs IH]; intros arr Hlen.
  - simpl. rewrite app_nil_r. unfold slice_last.
    replace (length arr - max) with 0 by lia. reflexivity.
  - simpl. rewrite IH by (apply push_shift_length; exact Hlen).
    rewrite push_shift_suffix by exact Hlen.
    rewrite slice_last_app, <- app_assoc. reflexivity.
Qed.

End RollingHistory.

(** ** Security score aggregation *)

Section Aggregation.

Import Scores LivenessApp.
Local Open Scope float_scope.

Lemma stop_timers_fields (a : App) :
  let a1 := stopDetection (stopPassiveAnalysis (set_isVerifying a false)) in
  shown a1 = shown a /\ securityScores a1 = securityScores a /\
  completedChallenges a1 = completedChallenges a /\
  requiredChallenges a1 = requiredChallenges a.
Proof.
  unfold stopDetection, stopPassiveAnalysis.
  destruct (passiveAnalysisInterval (set_isVerifying a false)) as [p |];
    [destruct (detectionInterval
                 (faceDetector (set_passiveAnalysisInterval
                                  (set_timers (set_isVerifying a false) _) None)))
     | destruct (detectionInterval (faceDetector (set_isVerifying a false)))];
    repeat split; reflexivity.
Qed.

Lemma completeVerification_shown (a : App) (success : bool) :
  exists v,
    shown (completeVerification a success) = (shown a ++ [v])%list /\
    combinedScore v = calculateCombinedScore (securityScores (completeVerification a success)) /\
    finalSuccess v = success && geb (combinedScore v) 80.
Proof.
  unfold completeVerification.
  destruct (stop_timers_fields a) as [Hs _].
  set (a1 := stopDetection (stopPassiveAnalysis (set_isVerifying a false))) in *.
  eexists. split; [cbn [shown set_shown set_securityScores]; rewrite Hs; reflexivity |].
  split; reflexivity.
Qed.

(** C1. At finalization the combined score is the rounded weighted sum
    active*0.30 + passive*0.25 + antiSpoof*0.25 + depth*0.10 +
    eyeReflection*0.05 + microExpression*0.05 of the score set; the attempt is
    accepted exactly when the challenge sequence succeeded and the combined
    score is at least 80; finalization is entered with success only once the
    required number of challenges is completed.  All six dimensions at 100
    give 100; active 0 with the others at 100 gives 70; a combined score of 79
    is rejected although the challenges succeeded. *)
Theorem combined_score_and_acceptance :
  (forall s : SecurityScores,
      calculateCombinedScore s =
      Math_round (active s * 0.30 + passive s * 0.25 + antiSpoof s * 0.25 +
                  depth s * 0.10 + Scores.eyeReflection s * 0.05 + Scores.microExpression s * 0.05)) /\
  (forall (a : App) (success : bool),
      exists v,
        shown (completeVerification a success) = (shown a ++ [v])%list /\
        combinedScore v =
          calculateCombinedScore (securityScores (completeVerification a success)) /\
        (finalSuccess v = true <->
         success = true /\ (80 <=? combinedScore v) = true)) /\
  (forall (a : App) (retry : option string) (env : Environment),
      (requiredChallenges a <=? completedChallenges a)%nat = true ->
      startNextChallenge a retry env = completeVerification a true) /\
  (forall a : App,
      isVerifying a = true -> cancelVerification a = completeVerification a false) /\
  calculateCombinedScore (mkScores 100 100 100 100 100 100) = 100 /\
  calculateCombinedScore (mkScores 0 100 100 100 100 100) = 70 /\
  calculateCombinedScore (mkScores 100 96 100 0 0 0) = 79 /\
  (forall a : App,
      completedChallenges a = 2%nat -> requiredChallenges a = 2%nat ->
      passive (securityScores a) = 96 -> antiSpoof (securityScores a) = 100 ->
      depth (securityScores a) = 0 -> Scores.eyeReflection (securityScores a) = 0 ->
      Scores.microExpression (securityScores a) = 0 ->
      exists v,
        shown (completeVerification a true) = (shown a ++ [v])%list /\
        combinedScore v = 79 /\ finalSuccess v = false).
Proof.
  split; [intros s; reflexivity |].
  split.
  { intros a success.
    destruct (completeVerification_shown a success) as [v [Hs [Hc Hf]]].
    exists v. split; [exact Hs |]. split; [exact Hc |].
    rewrite Hf. unfold geb. rewrite andb_true_iff. tauto. }
  split.
  { intros a retry env H. unfold startNextChallenge. rewrite H. reflexivity. }
  split.
  { intros a H. unfold cancelVerification. rewrite H. reflexivity. }
  split; [vm_compute; reflexivity |].
  split; [vm_compute; reflexivity |].
  split; [vm_compute; reflexivity |].
  intros a Hc Hr Hp Has Hd He Hm.
  destruct (completeVerification_shown a true) as [v [Hs [Hcomb Hf]]].
  exists v. split; [exact Hs |].
  assert (Hv : combinedScore v = 79).
  { rewrite Hcomb. unfold completeVerification.
    destruct (stop_timers_fields a) as [_ [Hsc [Hcc Hrc]]].
    set (a1 := stopDetection (stopPassiveAnalysis (set_isVerifying a false))) in *.
    cbn [securityScores set_shown set_securityScores].
    rewrite Hsc, Hcc, Hrc, Hc, Hr.
    unfold calculateCombinedScore, setActive.
    cbn [active passive antiSpoof depth Scores.eyeReflection microExpression].
    rewrite Hp, Has, Hd, He, Hm. vm_compute. reflexivity. }
  split; [exact Hv |].
  rewrite Hf, Hv. vm_compute. reflexivity.
Qed.

Lemma combined_score_and_acceptance_witness :
  startNextChallenge
    (set_completedChallenges loaded 2) None
    (mkEnvironment (Image.mkVideo 0 0 (fun _ _ => [])) Throw None 0)
  = completeVerification (set_completedChallenges loaded 2) true /\
  cancelVerification (set_isVerifying loaded true)
  = completeVerification (set_isVerifying loaded true) false /\
  exists v,
    shown (completeVerification
             (set_securityScores (set_completedChallenges loaded 2)
                                 (mkScores 0 96 100 0 0 0)) true) = [v] /\
    combinedScore v = 79 /\ finalSuccess v = false.
Proof.
  destruct combined_score_and_acceptance as [_ [_ [Hnext [Hcancel [_ [_ [_ Hreject]]]]]]].
  split; [apply Hnext; reflexivity |].
  split; [apply Hcancel; reflexivity |].
  apply (Hreject (set_securityScores (set_completedChallenges loaded 2)
                                     (mkScores 0 96 100 0 0 0)));
    reflexivity.
Defined.

End Aggregation.

(** ** Rolling histories *)

Section Histories.

Lemma fold_history {S X A : Type} (hist : S -> list A) (cap : S -> nat)
    (add : S -> X -> S) (entry : S -> X -> A) :
  (forall st x, hist (add st x) = push_shift (cap st) (hist st) (entry st x)) ->
  (forall st x, cap (add st x) = cap st) ->
  (forall st x y, entry (add st x) y = entry st y) ->
  forall (xs : list X) (st : S),
    length (hist st) <= cap st ->
    hist (fold_left add xs st) = slice_last (cap st) (hist st ++ map (entry st) xs) /\
    cap (fold_left add xs st) = cap st.
Proof.
  intros Hhist Hcap Hentry xs.
  assert (Hfold : forall st,
             hist (fold_left add xs st)
             = fold_left (push_shift (cap st)) (map (entry st) xs) (hist st) /\
             cap (fold_left add xs st) = cap st).
  { induction xs as [| x xs IH]; intros st; [split; reflexivity |].
    cbn [fold_left map]. destruct (IH (add st x)) as [IH1 IH2].
    rewrite IH1, IH2, Hcap, Hhist.
    rewrite (map_ext (entry (add st x)) (entry st) (Hentry st x)).
    split; reflexivity. }
  intros st Hlen. destruct (Hfold st) as [H1 H2].
  rewrite H1. split; [apply fold_push_shift; exact Hlen | exact H2].
Qed.

Lemma slice_last_five_more {A : Type} (n : nat) (xs : list A) :
  length xs = n + 5 -> slice_last n xs = skipn 5 xs.
Proof.
  intros H. unfold slice_last. rewrite H.
  replace (n + 5 - n) with 5 by lia. reflexivity.
Qed.

Lemma history_of_insertions {S X A : Type} (hist : S -> list A) (cap : S -> nat)
    (add : S -> X -> S) (entry : S -> X -> A) :
  (forall st x, hist (add st x) = push_shift (cap st) (hist st) (entry st x)) ->
  (forall st x, cap (add st x) = cap st) ->
  (forall st x y, entry (add st x) y = entry st y) ->
  forall (st : S) (xs : list X),
    length (hist st) <= cap st ->
    hist (fold_left add xs st) = slice_last (cap st) (hist st ++ map (entry st) xs) /\
    cap (fold_left add xs st) = cap st /\
    (hist st = [] -> length xs = cap st + 5 ->
     hist (fold_left add xs st) = skipn 5 (map (entry st) xs)).
Proof.
  intros Hhist Hcap Hentry st xs Hlen.
  destruct (fold_history hist cap add entry Hhist Hcap Hentry xs st Hlen) as [H1 H2].
  split; [exact H1 |]. split; [exact H2 |].
  intros Hnil Hxs. rewrite H1, Hnil. cbn [app].
  apply slice_last_five_more. rewrite length_map. exact Hxs.
Qed.

(** C8. A rolling history never holds more entries than its capacity, and
    it evicts the oldest entry first: after any sequence of insertions into
    an empty history exactly the most recent [max] entries remain, in arrival
    order; after N+5 insertions into a history of capacity N these are the
    entries after the first five.  This holds of the insertion method of the
    challenger and of each analyzer: whatever sequence of entries the method
    is called with, the history then holds the most recent entries, as many
    as the capacity allows, in arrival order, and the capacity is unchanged;
    N+5 calls on an empty history of capacity N leave the entries of the
    last N calls. *)
Theorem rolling_history_bounded_fifo :
  (forall (A : Type) (max : nat) (arr : list A) (x : A),
      length arr <= max -> length (push_shift max arr x) <= max) /\
  (forall (A : Type) (max : nat) (xs : list A),
      fold_left (push_shift max) xs [] = slice_last max xs /\
      length (fold_left (push_shift max) xs []) <= max) /\
  (forall (A : Type) (n : nat) (xs : list A),
      length xs = n + 5 ->
      fold_left (push_shift n) xs [] = skipn 5 xs /\
      length (fold_left (push_shift n) xs []) = n) /\
  (forall st lm,
      length (LivenessChallenger.landmarkHistory st) <= LivenessChallenger.maxHistoryLength st ->
      length (LivenessChallenger.landmarkHistory (LivenessChallenger.addToHistory st lm))
      <= LivenessChallenger.maxHistoryLength (LivenessChallenger.addToHistory st lm)) /\
  (forall st d w h,
      length (PassiveLiveness.frameHistory st) <= PassiveLiveness.maxFrames st ->
      length (PassiveLiveness.frameHistory (PassiveLiveness.addFrameToHistory st d w h))
      <= PassiveLiveness.maxFrames (PassiveLiveness.addFrameToHistory st d w h)) /\
  (forall st r,
      length (AntiSpoofing.analysisHistory st) <= AntiSpoofing.maxHistory st ->
      length (AntiSpoofing.analysisHistory (AntiSpoofing.addToHistory st r))
      <= AntiSpoofing.maxHistory (AntiSpoofing.addToHistory st r)) /\
  (forall st f,
      length (DepthEstimator.depthHistory st) <= DepthEstimator.maxHistory st ->
      length (DepthEstimator.depthHistory (DepthEstimator.addToHistory st f))
      <= DepthEstimator.maxHistory (DepthEstimator.addToHistory st f)) /\
  (forall st r,
      length (EyeReflection.reflectionHistory st) <= EyeReflection.maxHistory st ->
      length (EyeReflection.reflectionHistory (EyeReflection.addToHistory st r))
      <= EyeReflection.maxHistory (EyeReflection.addToHistory st r)) /\
  (forall st kps now,
      length (MicroExpression.landmarkHistory st) <= MicroExpression.maxHistory st ->
      length (MicroExpression.landmarkHistory (MicroExpression.addToHistory st kps now))
      <= MicroExpression.maxHistory (MicroExpression.addToHistory st kps now)) /\
  (forall (st : LivenessChallenger.State) (frames : list (list Landmarks.Point)),
      length (LivenessChallenger.landmarkHistory st) <= LivenessChallenger.maxHistoryLength st ->
      let st' := fold_left LivenessChallenger.addToHistory frames st in
      LivenessChallenger.landmarkHistory st'
      = slice_last (LivenessChallenger.maxHistoryLength st)
                   (LivenessChallenger.landmarkHistory st ++ frames) /\
      LivenessChallenger.maxHistoryLength st' = LivenessChallenger.maxHistoryLength st /\
      (LivenessChallenger.landmarkHistory st = [] ->
       length frames = LivenessChallenger.maxHistoryLength st + 5 ->
       LivenessChallenger.landmarkHistory st' = skipn 5 frames)) /\
  (forall (st : PassiveLiveness.State) (frames : list (list Z * Z * Z)),
      length (PassiveLiveness.frameHistory st) <= PassiveLiveness.maxFrames st ->
      let insert s (f : list Z * Z * Z) :=
        PassiveLiveness.addFrameToHistory s (fst (fst f)) (snd (fst f)) (snd f) in
      let stored (f : list Z * Z * Z) :=
        PassiveLiveness.simplifyFrame (fst (fst f)) (snd (fst f)) (snd f) in
      let st' := fold_left insert frames st in
      PassiveLiveness.frameHistory st'
      = slice_last (PassiveLiveness.maxFrames st)
                   (PassiveLiveness.frameHistory st ++ map stored frames) /\
      PassiveLiveness.maxFrames st' = PassiveLiveness.maxFrames st /\
      (PassiveLiveness.frameHistory st = [] ->
       length frames = PassiveLiveness.maxFrames st + 5 ->
       PassiveLiveness.frameHistory st' = skipn 5 (map stored frames))) /\
  (forall (st : AntiSpoofing.State) (results : list AntiSpoofing.SubScores),
      length (AntiSpoofing.analysisHistory st) <= AntiSpoofing.maxHistory st ->
      let st' := fold_left AntiSpoofing.addToHistory results st in
      AntiSpoofing.analysisHistory st'
      = slice_last (AntiSpoofing.maxHistory st) (AntiSpoofing.analysisHistory st ++ results) /\
      AntiSpoofing.maxHistory st' = AntiSpoofing.maxHistory st /\
      (AntiSpoofing.analysisHistory st = [] ->
       length results = AntiSpoofing.maxHistory st + 5 ->
       AntiSpoofing.analysisHistory st' = skipn 5 results)) /\
  (forall (st : DepthEstimator.State) (features : list DepthEstimator.Features),
      length (DepthEstimator.depthHistory st) <= DepthEstimator.maxHistory st ->
      let st' := fold_left DepthEstimator.addToHistory features st in
      DepthEstimator.depthHistory st'
      = slice_last (DepthEstimator.maxHistory st) (DepthEstimator.depthHistory st ++ features) /\
      DepthEstimator.maxHistory st' = DepthEstimator.maxHistory st /\
      (DepthEstimator.depthHistory st = [] ->
       length features = DepthEstimator.maxHistory st + 5 ->
       DepthEstimator.depthHistory st' = skipn 5 features)) /\
  (forall (st : EyeReflection.State) (readings : list EyeReflection.Reading),
      length (EyeReflection.reflectionHistory st) <= EyeReflection.maxHistory st ->
      let st' := fold_left EyeReflection.addToHistory readings st in
      EyeReflection.reflectionHistory st'
      = slice_last (EyeReflection.maxHistory st)
                   (EyeReflection.reflectionHistory st ++ readings) /\
      EyeReflection.maxHistory st' = EyeReflection.maxHistory st /\
      (EyeReflection.reflectionHistory st = [] ->
       length readings = EyeReflection.maxHistory st + 5 ->
       EyeReflection.reflectionHistory st' = skipn 5 readings)) /\
  (forall (st : MicroExpression.State) (frames : list (list Landmarks.Keypoint * Z)),
      length (MicroExpression.landmarkHistory st) <= MicroExpression.maxHistory st ->
      let insert s (f : list Landmarks.Keypoint * Z) :=
        MicroExpression.addToHistory s (fst f) (snd f) in
      let stored (f : list Landmarks.Keypoint * Z) :=
        MicroExpression.mkEntry
          (map (MicroExpression.simplify (fst f)) (MicroExpression.keyIndices st)) (snd f) in
      let st' := fold_left insert frames st in
      MicroExpression.landmarkHistory st'
      = slice_last (MicroExpression.maxHistory st)
                   (MicroExpression.landmarkHistory st ++ map stored frames) /\
      MicroExpression.maxHistory st' = MicroExpression.maxHistory st /\
      (MicroExpression.landmarkHistory st = [] ->
       length frames = MicroExpression.maxHistory st + 5 ->
       MicroExpression.landmarkHistory st' = skipn 5 (map stored frames))).
Proof.
  split; [intros A max arr x; apply push_shift_length |].
  split.
  { intros A max xs. rewrite (fold_push_shift max xs []) by (simpl; lia).
    split; [reflexivity | apply slice_last_length]. }
  split.
  { intros A n xs Hlen. rewrite (fold_push_shift n xs []) by (simpl; lia).
    simpl. unfold slice_last. rewrite Hlen.
    replace (n + 5 - n) with 5 by lia.
    split; [reflexivity | rewrite length_skipn; lia]. }
  do 6 (split; [intros; simpl; apply push_shift_length; assumption |]).
  split.
  { intros st frames Hlen. cbv zeta.
    pose proof (history_of_insertions
                  LivenessChallenger.landmarkHistory LivenessChallenger.maxHistoryLength
                  LivenessChallenger.addToHistory (fun _ lm => lm)
                  ltac:(reflexivity) ltac:(reflexivity) ltac:(reflexivity)
                  st frames Hlen) as H.
    rewrite map_id in H. exact H. }
  split.
  { intros st frames Hlen. cbv zeta.
    exact (history_of_insertions
             PassiveLiveness.frameHistory PassiveLiveness.maxFrames
             (fun s (f : list Z * Z * Z) =>
                PassiveLiveness.addFrameToHistory s (fst (fst f)) (snd (fst f)) (snd f))
             (fun _ (f : list Z * Z * Z) =>
                PassiveLiveness.simplifyFrame (fst (fst f)) (snd (fst f)) (snd f))
             ltac:(reflexivity) ltac:(reflexivity) ltac:(reflexivity)
             st frames Hlen). }
  split.
  { intros st results Hlen. cbv zeta.
    pose proof (history_of_insertions
                  AntiSpoofing.analysisHistory AntiSpoofing.maxHistory
                  AntiSpoofing.addToHistory (fun _ r => r)
                  ltac:(reflexivity) ltac:(reflexivity) ltac:(reflexivity)
                  st results Hlen) as H.
    rewrite map_id in H. exact H. }
  split.
  { intros st features Hlen. cbv zeta.
    pose proof (history_of_insertions
                  DepthEstimator.depthHistory DepthEstimator.maxHistory
                  DepthEstimator.addToHistory (fun _ f => f)
                  ltac:(reflexivity) ltac:(reflexivity) ltac:(reflexivity)
                  st features Hlen) as H.
    rewrite map_id in H. exact H. }
  split.
  { intros st readings Hlen. cbv zeta.
    pose proof (history_of_insertions
                  EyeReflection.reflectionHistory EyeReflection.maxHistory
                  EyeReflection.addToHistory (fun _ r => r)
                  ltac:(reflexivity) ltac:(reflexivity) ltac:(reflexivity)
                  st readings Hlen) as H.
    rewrite map_id in H. exact H. }
  intros st frames Hlen. cbv zeta.
  exact (history_of_insertions
           MicroExpression.landmarkHistory MicroExpression.maxHistory
           (fun s (f : list Landmarks.Keypoint * Z) =>
              MicroExpression.addToHistory s (fst f) (snd f))
           (fun s (f : list Landmarks.Keypoint * Z) =>
              MicroExpression.mkEntry
                (map (MicroExpression.simplify (fst f)) (MicroExpression.keyIndices s))
                (snd f))
           ltac:(reflexivity) ltac:(reflexivity) ltac:(reflexivity)
           st frames Hlen).
Qed.

Lemma rolling_history_bounded_fifo_witness :
  length (push_shift 3 [1; 2; 3] 4) <= 3 /\
  fold_left (push_shift 3) [1; 2; 3; 4; 5; 6; 7; 8] [] = [6; 7; 8] /\
  length (LivenessChallenger.landmarkHistory
            (LivenessChallenger.addToHistory LivenessChallenger.new [])) <= 30 /\
  length (AntiSpoofing.analysisHistory
            (AntiSpoofing.addToHistory AntiSpoofing.new
               (AntiSpoofing.mkSubScores 1%float 1%float 1%float 1%float 1%float))) <= 10 /\
  (let results :=
     map (fun k => AntiSpoofing.mkSubScores (of_nat k) 1%float 1%float 1%float 1%float)
         (seq 1 15) in
   AntiSpoofing.analysisHistory (fold_left AntiSpoofing.addToHistory results AntiSpoofing.new)
   = skipn 5 results) /\
  (let frames := map (fun k => [Landmarks.PArr [of_nat k]]) (seq 1 35) in
   LivenessChallenger.landmarkHistory
     (fold_left LivenessChallenger.addToHistory frames LivenessChallenger.new)
   = skipn 5 frames).
Proof.
  destruct rolling_history_bounded_fifo
    as [Hstep [_ [Hfifo [Hch [_ [Has [_ [_ [_ [Hchf [_ [Hasf _]]]]]]]]]]]].
  split; [apply Hstep; simpl; lia |].
  split; [apply (Hfifo nat 3 [1; 2; 3; 4; 5; 6; 7; 8]); reflexivity |].
  split; [apply (Hch LivenessChallenger.new []); simpl; lia |].
  split; [apply (Has AntiSpoofing.new); simpl; lia |].
  split.
  - cbv zeta.
    apply (Hasf AntiSpoofing.new
             (map (fun k => AntiSpoofing.mkSubScores (of_nat k) 1%float 1%float 1%float
                                                     1%float)
                  (seq 1 15))); [simpl; lia | reflexivity | reflexivity].
  - cbv zeta.
    apply (Hchf LivenessChallenger.new
             (map (fun k => [Landmarks.PArr [of_nat k]]) (seq 1 35)));
      [simpl; lia | reflexivity | reflexivity].
Defined.

End Histories.

(** ** Head-turn verifier *)

Section HeadTurn.

Import LivenessChallenger.
Local Open Scope float_scope.

Lemma below_left_not_above_right (x : float) :
  (x <? - 0.35) = true -> (0.35 <? x) = false.
Proof.
  rewrite !ltb_spec.
  replace (Prim2SF (- 0.35)) with (S754_finite true 6305039478318694 (-54))
    by (vm_compute; reflexivity).
  replace (Prim2SF 0.35) with (S754_finite false 6305039478318694 (-54))
    by (vm_compute; reflexivity).
  unfold SFltb, SFcompare.
  destruct (Prim2SF x) as [s | s | | s m e]; try destruct s;
    try discriminate; reflexivity.
Qed.

Lemma centered_not_turned (x : float) :
  (abs x <? 0.15) = true -> (x <? - 0.35) = false /\ (0.35 <? x) = false.
Proof.
  rewrite !ltb_spec, abs_spec.
  replace (Prim2SF (- 0.35)) with (S754_finite true 6305039478318694 (-54))
    by (vm_compute; reflexivity).
  replace (Prim2SF 0.35) with (S754_finite false 6305039478318694 (-54))
    by (vm_compute; reflexivity).
  replace (Prim2SF 0.15) with (S754_finite false 5404319552844595 (-55))
    by (vm_compute; reflexivity).
  unfold SFltb, SFcompare, SFabs.
  destruct (Prim2SF x) as [s | s | | s m e]; try destruct s;
    try discriminate; try (split; reflexivity).
  all: destruct (Z.compare_spec e (-55)) as [He | He | He]; try discriminate.
  all: try (subst e; change (Z.compare (-55) (-54)) with Lt;
            change (Z.compare (-54) (-55)) with Gt; intros _; split; reflexivity).
  all: intros _.
  all: assert (H1 : Z.compare e (-54) = Lt) by (apply Z.compare_lt_iff; lia).
  all: assert (H2 : Z.compare (-54) e = Gt) by (apply Z.compare_gt_iff; lia).
  all: rewrite ?H1, ?H2; split; reflexivity.
Qed.

Lemma updateHeadTurn_flags (d : DirStates) (offset : float) :
  left (updateHeadTurn d offset) = left d || (offset <? - 0.35) /\
  right (updateHeadTurn d offset) = right d || (0.35 <? offset) /\
  center (updateHeadTurn d offset) = center d || (abs offset <? 0.15).
Proof.
  unfold updateHeadTurn, gtb, Math_abs.
  destruct (offset <? - 0.35) eqn:Hl.
  - rewrite (below_left_not_above_right _ Hl).
    destruct (abs offset <? 0.15) eqn:Hc.
    + destruct (centered_not_turned _ Hc) as [Hl' _]. congruence.
    + cbn. rewrite !orb_false_r, orb_true_r. auto.
  - destruct (0.35 <? offset) eqn:Hr.
    + destruct (abs offset <? 0.15) eqn:Hc.
      * destruct (centered_not_turned _ Hc) as [_ Hr']. congruence.
      * cbn. rewrite !orb_false_r, orb_true_r. auto.
    + destruct (abs offset <? 0.15); cbn;
        rewrite ?orb_false_r, ?orb_true_r; auto.
Qed.

(** C7. On a coarse landmark frame (at least six points) the head-turn
    verifier sets the turned-left flag when the normalized nose offset is
    below -0.35, the turned-right flag when it is above +0.35 and the centered
    flag when its magnitude is below 0.15, keeps the flags already set, and
    answers success exactly when all three flags are set, whatever the order
    in which they were set.  The offsets 0.0, -0.40, 0.0, 0.40 succeed on
    the fourth frame, the offsets 0.0, -0.40, -0.40, -0.40 never succeed, and
    right, centre, left succeeds as well. *)
Theorem head_turn_flags_and_success :
  (forall (st : State) (data : DetectionData) (lm : list Landmarks.Point),
      landmarks data = Some lm -> 6 <= length lm ->
      let offset := normalizedOffset lm in
      let d := headTurnStates st in
      exists st',
        verifyHeadTurn st data =
          (st', Normal (left (headTurnStates st') && right (headTurnStates st') &&
                        center (headTurnStates st'))) /\
        left (headTurnStates st') = left d || (offset <? - 0.35) /\
        right (headTurnStates st') = right d || (0.35 <? offset) /\
        center (headTurnStates st') = center d || (abs offset <? 0.15)) /\
  map (fun f => match landmarks f with
                | Some lm => normalizedOffset lm
                | None => nan
                end) Samples.turnLeftThenRight = [0; - 0.40; 0; 0.40] /\
  snd (Samples.feed VerifyHeadTurn new Samples.turnLeftThenRight) =
    [Normal false; Normal false; Normal false; Normal true] /\
  snd (Samples.feed VerifyHeadTurn new Samples.turnLeftOnly) =
    [Normal false; Normal false; Normal false; Normal false] /\
  snd (Samples.feed VerifyHeadTurn new Samples.turnRightThenLeft) =
    [Normal false; Normal false; Normal true].
Proof.
  split.
  { intros st data lm Hlm Hlen offset d.
    unfold verifyHeadTurn. rewrite Hlm.
    destruct (Nat.ltb_spec (length lm) 6) as [Hlt | _]; [lia |].
    eexists. split; [reflexivity |].
    cbn [headTurnStates set_headTurnStates addToHistory set_landmarkHistory].
    apply updateHeadTurn_flags. }
  evaluate_each.
Qed.

Lemma head_turn_flags_and_success_witness :
  exists st',
    verifyHeadTurn new (Samples.coarseFrame 10) =
      (st', Normal (left (headTurnStates st') && right (headTurnStates st') &&
                    center (headTurnStates st'))) /\
    left (headTurnStates st') = true /\
    right (headTurnStates st') = false /\
    center (headTurnStates st') = false.
Proof.
  destruct (proj1 head_turn_flags_and_success new (Samples.coarseFrame 10)
              [Landmarks.PArr [0; 0]; Landmarks.PArr [100; 0]; Landmarks.PArr [10; 30];
               Landmarks.PArr [50; 60]; Landmarks.PArr [-10; 10]; Landmarks.PArr [110; 10]]
              eq_refl ltac:(simpl; lia))
    as [st' [Hv [Hl [Hr Hc]]]].
  exists st'. split; [exact Hv |].
  split; [rewrite Hl; vm_compute; reflexivity |].
  split; [rewrite Hr; vm_compute; reflexivity |].
  rewrite Hc; vm_compute; reflexivity.
Defined.

End HeadTurn.

(** ** Blink verifier *)

Section Blink.

Import LivenessChallenger.
Local Open Scope float_scope.

(** C2. What the dense blink verifier does: every frame whose average
    Eye-Aspect-Ratio is below 0.15 increments the blink counter, and the
    verifier answers success once the counter has reached the required 2.
    Two closures of one frame each give 2 recorded closures and success on the
    second; but one closure that lasts two frames is counted twice and
    succeeds as well. *)
Theorem blink_counts_frames_below_threshold :
  (forall (st : State) (data : DetectionData) (lm : list Landmarks.Point) (ear : number),
      isHighRes data = true -> landmarks data = Some lm -> 10 < length lm ->
      avgEAR lm = Normal ear ->
      let st' := if ear <? 0.15 then set_blinkCount st (S (blinkCount st)) else st in
      verifyBlink st data = (st', Normal (blinkRequired st' <=? blinkCount st')%nat)) /\
  map (fun f => match landmarks f with
                | Some lm => avgEAR lm
                | None => Throw
                end) Samples.oneLongBlink
    = [Normal 0.3; Normal 0.1; Normal 0.1; Normal 0.3] /\
  snd (Samples.feed VerifyBlink Samples.blinkStarted Samples.twoShortBlinks)
    = [Normal false; Normal false; Normal false; Normal true] /\
  blinkCount (fst (Samples.feed VerifyBlink Samples.blinkStarted Samples.twoShortBlinks))
    = 2%nat /\
  snd (Samples.feed VerifyBlink Samples.blinkStarted
                    [Samples.eyesOpen; Samples.eyesClosed; Samples.eyesClosed])
    = [Normal false; Normal false; Normal true] /\
  blinkCount (fst (Samples.feed VerifyBlink Samples.blinkStarted
                                [Samples.eyesOpen; Samples.eyesClosed; Samples.eyesClosed]))
    = 2%nat /\
  snd (Samples.process Samples.blinkStarted 1000 Samples.oneLongBlink)
    = [Normal []; Normal [];
       Normal [OnComplete (mkChallengeResult (Some "blink"%string)
                                             (Some "Blink Detection"%string)
                                             true (Some 1200%Z) false)];
       Normal []] /\
  isActive (fst (Samples.process Samples.blinkStarted 1000 Samples.oneLongBlink)) = false.
Proof.
  split.
  { intros st data lm ear Hres Hlm Hlen Hear. unfold verifyBlink.
    rewrite Hres, Hlm, Hear.
    destruct (Nat.ltb_spec 10 (length lm)) as [_ | Hle]; [| lia].
    reflexivity. }
  evaluate_each.
Qed.

Lemma blink_counts_frames_below_threshold_witness :
  verifyBlink Samples.blinkStarted Samples.eyesClosed =
    (set_blinkCount Samples.blinkStarted 1, Normal false).
Proof.
  apply (proj1 blink_counts_frames_below_threshold Samples.blinkStarted Samples.eyesClosed
           (map Landmarks.PObj (Samples.denseKeypoints 1)) 0.1).
  - reflexivity.
  - reflexivity.
  - vm_compute. lia.
  - vm_compute. reflexivity.
Defined.

End Blink.

(** ** Challenge selector *)

Section Selector.

Import LivenessChallenger.
Local Open Scope float_scope.

Lemma getRandomChallenge_some (st st' : State) (r : number) (c : Challenge) :
  getRandomChallenge st r = (st', Some c) ->
  st' = st /\ In c (challenges st) /\ used st c = false.
Proof.
  unfold getRandomChallenge.
  destruct (length (availableChallenges st) =? 0)%nat; [discriminate |].
  intros H. injection H as Hst Hnth.
  apply nth_error_In in Hnth. unfold availableChallenges in Hnth.
  apply filter_In in Hnth. destruct Hnth as [Hin Hused].
  apply negb_true_iff in Hused. auto.
Qed.

Lemma getRandomChallenge_exhausted (st : State) (r : number) :
  availableChallenges st = [] ->
  getRandomChallenge st r = (set_challengeHistory st [], None).
Proof.
  intros H. unfold getRandomChallenge. rewrite H. reflexivity.
Qed.

Lemma available_after_reset (st : State) :
  availableChallenges (set_challengeHistory st []) = challenges st.
Proof.
  unfold availableChallenges, used, usedId. cbn [challengeHistory challenges set_challengeHistory].
  induction (challenges st) as [| c cs IH]; [reflexivity |].
  cbn. f_equal. exact IH.
Qed.

Lemma startChallenge_current (st st1 : State) (timers timers1 : Timers.Table) (now : Z)
    (r : number) (res : completion (list Callback)) (c : Challenge) :
  startChallenge st timers now r = (st1, timers1, res) ->
  currentChallenge st1 = Some c ->
  usedId st (id c) = false /\ challengeHistory st1 = challengeHistory st.
Proof.
  unfold startChallenge.
  destruct (getRandomChallenge st r) as [st0 picked] eqn:Hg.
  destruct picked as [c0 |].
  - apply getRandomChallenge_some in Hg. destruct Hg as [-> [_ Hunused]].
    unfold initChallengeState. cbn [currentChallenge set_currentChallenge].
    intros H. inversion H. subst st1. cbn [currentChallenge challengeHistory].
    intros Hc. inversion Hc. subst c0. split; [exact Hunused | reflexivity].
  - intros H. inversion H. subst st1. cbn [currentChallenge set_currentChallenge].
    discriminate.
Qed.

Lemma completeChallenge_used (st : State) (now : Z) (ok : bool) (c : Challenge) (i : string) :
  currentChallenge st = Some c ->
  usedId (fst (completeChallenge st now ok)) i = usedId st i || String.eqb (id c) i.
Proof.
  intros Hc. unfold completeChallenge. rewrite Hc.
  unfold usedId. cbn. rewrite existsb_app. cbn. rewrite orb_false_r. reflexivity.
Qed.

Lemma selections_fresh (steps : list (number * bool)) :
  forall (st : State) (timers : Timers.Table) (now : Z),
    NoDup (Samples.untilNone (Samples.selections st timers now steps)) /\
    forall i, In i (Samples.untilNone (Samples.selections st timers now steps)) ->
              usedId st i = false.
Proof.
  induction steps as [| [r ok] rest IH]; intros st timers now.
  - cbn. split; [constructor | intros i []].
  - cbn [Samples.selections].
    destruct (startChallenge st timers now r) as [[st1 timers1] res] eqn:Hs.
    destruct (currentChallenge st1) as [c |] eqn:Hc.
    + destruct (startChallenge_current _ _ _ _ _ _ _ _ Hs Hc) as [Hunused Hhist].
      destruct (IH (fst (completeChallenge st1 now ok)) timers1 now) as [Hnd Hfresh].
      cbn [Samples.untilNone].
      assert (Hst1 : forall i, usedId st1 i = usedId st i)
        by (intros i; unfold usedId; rewrite Hhist; reflexivity).
      split.
      * constructor; [| exact Hnd].
        intros Hin. apply Hfresh in Hin.
        rewrite (completeChallenge_used st1 now ok c _ Hc) in Hin.
        rewrite String.eqb_refl, orb_true_r in Hin. discriminate.
      * intros i [<- | Hin]; [exact Hunused |].
        apply Hfresh in Hin.
        rewrite (completeChallenge_used st1 now ok c _ Hc) in Hin.
        apply orb_false_iff in Hin. rewrite <- Hst1. tauto.
    + cbn. split; [constructor | intros i []].
Qed.

(** C3, as the code has it.  A descriptor the selector returns belongs to
    the pool and is unused, and the call leaves the state unchanged; so over
    rounds of selection and completion no identifier is selected twice before
    the selector first returns none.  When no unused descriptor is left --
    the pool is exhausted, or empty -- the call clears the used-set and
    returns none, after which every descriptor of the pool is available
    again.  A call returns none only then, or when the random index falls
    outside the available descriptors. *)
Theorem selector_without_repetition :
  (forall (st st' : State) (r : number) (c : Challenge),
      getRandomChallenge st r = (st', Some c) ->
      st' = st /\ In c (challenges st) /\ used st c = false) /\
  (forall (st : State) (timers : Timers.Table) (now : Z) (steps : list (number * bool)),
      NoDup (Samples.untilNone (Samples.selections st timers now steps)) /\
      forall i, In i (Samples.untilNone (Samples.selections st timers now steps)) ->
                usedId st i = false) /\
  (forall (st : State) (r : number),
      availableChallenges st = [] ->
      getRandomChallenge st r = (set_challengeHistory st [], None) /\
      availableChallenges (set_challengeHistory st []) = challenges st) /\
  (forall (st : State) (r : number),
      snd (getRandomChallenge st r) = None ->
      availableChallenges st = [] \/
      length (availableChallenges st)
      <= Z.to_nat (to_Z (Math_floor (r * of_nat (length (availableChallenges st)))))).
Proof.
  split; [exact getRandomChallenge_some |].
  split; [intros st timers now steps; apply selections_fresh |].
  split.
  { intros st r H. split;
      [apply getRandomChallenge_exhausted; exact H | apply available_after_reset]. }
  intros st r. unfold getRandomChallenge.
  destruct (availableChallenges st) as [| c cs] eqn:Ha; [auto |].
  cbn [length Nat.eqb snd]. intros Hnth. right.
  apply nth_error_None in Hnth. exact Hnth.
Qed.

Lemma selector_without_repetition_witness :
  (In (mkChallenge "smile" "Smile Detection" "Please smile naturally" 8000 VerifySmile)
      (challenges new) /\
   used new (mkChallenge "smile" "Smile Detection" "Please smile naturally" 8000 VerifySmile)
   = false) /\
  (getRandomChallenge Samples.exhausted 0.5
   = (set_challengeHistory Samples.exhausted [], None) /\
   availableChallenges (set_challengeHistory Samples.exhausted []) = pool) /\
  (availableChallenges Samples.exhausted = [] \/
   length (availableChallenges Samples.exhausted)
   <= Z.to_nat (to_Z (Math_floor
                        (0.5 * of_nat (length (availableChallenges Samples.exhausted)))))).
Proof.
  destruct selector_without_repetition as [Hsome [_ [Hex Hnone]]].
  split.
  { apply (Hsome new new 0.5
             (mkChallenge "smile" "Smile Detection" "Please smile naturally" 8000 VerifySmile)).
    vm_compute. reflexivity. }
  split.
  { apply (Hex Samples.exhausted 0.5). vm_compute. reflexivity. }
  apply (Hnone Samples.exhausted 0.5). vm_compute. reflexivity.
Defined.

(** C3 as stated fails: with all three descriptors of the pool used, the
    selector returns none although the pool is not empty. *)
Lemma selector_none_with_nonempty_pool :
  challenges Samples.exhausted = pool /\
  length (challenges Samples.exhausted) = 3%nat /\
  availableChallenges Samples.exhausted = [] /\
  snd (getRandomChallenge Samples.exhausted 0.5) = None /\
  Samples.selections new Timers.empty 0 [(0, true); (0, true); (0, true); (0, true)]
  = [Some "blink"%string; Some "smile"%string; Some "turnHead"%string; None].
Proof.
  evaluate_each.
Qed.

End Selector.

(** ** Micro-expression warm-up *)

Section MicroWarmUp.

Import MicroExpression.
Local Open Scope float_scope.

Lemma micro_inv_new : Invariants.micro (initialize new).
Proof. split; [cbn; lia | left; reflexivity]. Qed.

Lemma micro_inv_reset (st : State) : Invariants.micro st -> Invariants.micro (reset st).
Proof. intros [Hmax _]. split; [exact Hmax | left; reflexivity]. Qed.

Lemma micro_push_length (st : State) (kps : list Landmarks.Keypoint) (now : Z) :
  5 <= maxHistory st ->
  (length (landmarkHistory st) < maxHistory st ->
   length (landmarkHistory (addToHistory st kps now)) = S (length (landmarkHistory st))) /\
  (5 <= length (landmarkHistory st) ->
   5 <= length (landmarkHistory (addToHistory st kps now))).
Proof.
  intros Hmax. cbn [addToHistory landmarkHistory]. unfold push_shift.
  rewrite length_app. cbn [length].
  destruct (Nat.ltb_spec (maxHistory st) (length (landmarkHistory st) + 1)) as [Hgt | Hle].
  - split; [lia |]. intros H5. rewrite length_tl_pred, length_app. cbn [length]. lia.
  - split; intros; rewrite length_app; cbn [length]; lia.
Qed.

Lemma micro_inv_analyze (st : State) (now : Z) (kps : option (list Landmarks.Keypoint)) :
  Invariants.micro st -> Invariants.micro (fst (analyze st now kps)).
Proof.
  intros [Hmax Hc]. unfold analyze.
  destruct kps as [l |]; [| split; assumption].
  destruct (negb (isReady st) || (length l <? 400)%nat); [split; assumption |].
  destruct (negb (frameCount (bumpFrame st) mod 2 =? 0)%nat &&
            isSome (cachedResult (bumpFrame st))); [split; assumption |].
  destruct (Nat.ltb_spec (length (landmarkHistory (addToHistory (bumpFrame st) l now))) 5)
    as [Hlt | Hge].
  - split; [exact Hmax |]. cbn [fst cachedResult addToHistory bumpFrame].
    destruct Hc as [Hnone | H5]; [left; exact Hnone |].
    right. apply (micro_push_length (bumpFrame st) l now Hmax). exact H5.
  - split; [exact Hmax |]. right. exact Hge.
Qed.

Lemma micro_warm_up (st : State) (now : Z) (kps : list Landmarks.Keypoint) :
  Invariants.micro st -> isReady st = true -> 400 <= length kps ->
  S (length (landmarkHistory st)) < 5 ->
  analyze st now (Some kps) = (addToHistory (bumpFrame st) kps now, Some warmUp).
Proof.
  intros [Hmax Hc] Hready Hlen Hshort. unfold analyze. rewrite Hready.
  destruct (Nat.ltb_spec (length kps) 400) as [Hlt | _]; [lia |].
  cbn [negb orb].
  destruct Hc as [Hnone | H5]; [| lia].
  replace (isSome (cachedResult (bumpFrame st))) with false
    by (cbn [cachedResult bumpFrame]; rewrite Hnone; reflexivity).
  rewrite andb_false_r.
  destruct (micro_push_length (bumpFrame st) kps now Hmax) as [Hpush _].
  cbn [landmarkHistory bumpFrame maxHistory] in Hpush.
  destruct (Nat.ltb_spec (length (landmarkHistory (addToHistory (bumpFrame st) kps now))) 5)
    as [_ | Hge]; [reflexivity |].
  rewrite Hpush in Hge by lia. lia.
Qed.

(** C10. While the micro-expression analyzer is warming up -- counting the
    frame of the call itself, fewer than 5 landmark-history entries have
    accumulated -- a call of the initialized analyzer with at least 400
    keypoints records the frame and returns the result with [isReal = true]
    and [score = 50], without any movement analysis.  This rests on the
    invariant that no result is cached before five entries exist; the
    invariant holds initially and is kept by [analyze] and [reset]. *)
Theorem micro_expression_warm_up_is_real_50 :
  (forall (st : State) (now : Z) (kps : list Landmarks.Keypoint),
      Invariants.micro st -> isReady st = true -> 400 <= length kps ->
      S (length (landmarkHistory st)) < 5 ->
      exists st' r,
        analyze st now (Some kps) = (st', Some r) /\
        isReal r = true /\ score r = 50 /\
        naturalness r = None /\ involuntaryScore r = None /\ coordinationScore r = None /\
        cachedResult st' = None /\
        length (landmarkHistory st') = S (length (landmarkHistory st))) /\
  Invariants.micro (initialize new) /\
  (forall (st : State) (now : Z) (kps : option (list Landmarks.Keypoint)),
      Invariants.micro st -> Invariants.micro (fst (analyze st now kps))) /\
  (forall st : State, Invariants.micro st -> Invariants.micro (reset st)).
Proof.
  split.
  { intros st now kps Hinv Hready Hlen Hshort.
    exists (addToHistory (bumpFrame st) kps now), warmUp.
    split; [apply micro_warm_up; assumption |].
    repeat split.
    - destruct Hinv as [_ [Hnone | H5]]; [exact Hnone | lia].
    - destruct Hinv as [Hmax _].
      apply (micro_push_length (bumpFrame st) kps now Hmax).
      cbn [landmarkHistory bumpFrame maxHistory]. lia. }
  split; [exact micro_inv_new |].
  split; [exact micro_inv_analyze | exact micro_inv_reset].
Qed.

Lemma micro_expression_warm_up_is_real_50_witness :
  exists st' r,
    analyze (initialize new) 0 (Some (Samples.denseKeypoints 3)) = (st', Some r) /\
    isReal r = true /\ score r = 50 /\
    naturalness r = None /\ involuntaryScore r = None /\ coordinationScore r = None /\
    cachedResult st' = None /\
    length (landmarkHistory st') = 1%nat.
Proof.
  apply (proj1 micro_expression_warm_up_is_real_50 (initialize new) 0%Z
           (Samples.denseKeypoints 3)).
  - exact micro_inv_new.
  - reflexivity.
  - vm_compute. lia.
  - cbn. lia.
Defined.

End MicroWarmUp.

(** ** Insufficient input *)

Section InsufficientInput.

Import Invariants.
Local Open Scope float_scope.

Lemma eye_guard (st : EyeReflection.State) (video : Image.VideoElement)
    (kps : option (list Landmarks.Keypoint)) :
  EyeReflection.isReady st = false \/ tooShort kps ->
  EyeReflection.analyze st video kps = (st, Normal (EyeReflection.cachedResult st)).
Proof.
  intros H. unfold EyeReflection.analyze.
  destruct kps as [l |]; [| reflexivity].
  destruct H as [-> | Hshort]; [reflexivity |].
  cbn [tooShort] in Hshort.
  destruct (Nat.ltb_spec (length l) 400) as [_ | Hge]; [| lia].
  rewrite orb_true_r. reflexivity.
Qed.

Lemma micro_guard (st : MicroExpression.State) (now : Z)
    (kps : option (list Landmarks.Keypoint)) :
  MicroExpression.isReady st = false \/ tooShort kps ->
  MicroExpression.analyze st now kps = (st, MicroExpression.cachedResult st).
Proof.
  intros H. unfold MicroExpression.analyze.
  destruct kps as [l |]; [| reflexivity].
  destruct H as [-> | Hshort]; [reflexivity |].
  cbn [tooShort] in Hshort.
  destruct (Nat.ltb_spec (length l) 400) as [_ | Hge]; [| lia].
  rewrite orb_true_r. reflexivity.
Qed.

Lemma extractFeatures_short (kps : list Landmarks.Keypoint) (now : Z) :
  length kps <= 263 -> DepthEstimator.extractFeaturesFast kps now = Throw.
Proof.
  intros Hlen. unfold DepthEstimator.extractFeaturesFast.
  assert (Hr : nth_error kps DepthEstimator.rightEye = None)
    by (apply nth_error_None; exact Hlen).
  rewrite Hr.
  destruct (nth_error kps DepthEstimator.noseTip);
    destruct (nth_error kps DepthEstimator.leftEye); reflexivity.
Qed.

Lemma depth_falls_back (st : DepthEstimator.State) (now : Z)
    (faces : completion (list (list Landmarks.Keypoint))) :
  (DepthEstimator.isModelLoaded st = false \/ DepthEstimator.faceMesh st = false \/
   faces = Throw \/
   exists kps rest, faces = Normal (kps :: rest) /\ length kps <= 263) ->
  snd (DepthEstimator.estimateDepth st now faces) = DepthEstimator.cachedResult st /\
  DepthEstimator.cachedResult (fst (DepthEstimator.estimateDepth st now faces))
  = DepthEstimator.cachedResult st /\
  DepthEstimator.depthHistory (fst (DepthEstimator.estimateDepth st now faces))
  = DepthEstimator.depthHistory st.
Proof.
  intros H. unfold DepthEstimator.estimateDepth.
  destruct (negb (DepthEstimator.isModelLoaded st) || negb (DepthEstimator.faceMesh st)) eqn:Hg;
    [repeat split; reflexivity |].
  destruct (negb (DepthEstimator.frameCount (DepthEstimator.bumpFrame st) mod 2 =? 0)%nat &&
            DepthEstimator.isSome (DepthEstimator.cachedResult (DepthEstimator.bumpFrame st)));
    [repeat split; reflexivity |].
  apply orb_false_iff in Hg. destruct Hg as [Hl Hf].
  apply negb_false_iff in Hl, Hf.
  destruct H as [H | [H | [-> | [kps [rest [-> Hlen]]]]]]; try congruence.
  - repeat split; reflexivity.
  - rewrite (extractFeatures_short kps now Hlen). repeat split; reflexivity.
Qed.

Lemma depth_no_face (st : DepthEstimator.State) (now : Z) :
  DepthEstimator.isModelLoaded st = true -> DepthEstimator.faceMesh st = true ->
  (S (DepthEstimator.frameCount st) mod 2 = 0)%nat \/ DepthEstimator.cachedResult st = None ->
  DepthEstimator.estimateDepth st now (Normal []) =
    (DepthEstimator.bumpFrame st, Some DepthEstimator.noFace).
Proof.
  intros Hl Hf Hrun. unfold DepthEstimator.estimateDepth. rewrite Hl, Hf. cbn [negb orb].
  cbn [DepthEstimator.frameCount DepthEstimator.cachedResult DepthEstimator.bumpFrame].
  destruct Hrun as [Heven | Hnone].
  - rewrite Heven. reflexivity.
  - rewrite Hnone. rewrite andb_false_r. reflexivity.
Qed.

(** C6, as the code has it.  With missing or too short keypoints (or before
    initialization) the eye-reflection and micro-expression analyzers return
    their last cached result and change nothing; the micro-expression analyzer
    returns the neutral score 50 while it has gathered fewer than 5 entries;
    the temporal and consistency parts answer the neutral 0.5 with fewer
    than 3 history entries.  The depth estimator returns its last cached
    result when its model is not loaded, when the inference call fails, or
    when the keypoint set is too short for its key points, and keeps cache and
    history then.  When the detector reports no face, however, a depth
    analysis that is not skipped returns the fresh result [noFace] with score
    0 and [isReal = false].  None of these calls raises an exception. *)
Theorem insufficient_input_gives_cached_or_neutral :
  (forall st video kps,
      EyeReflection.isReady st = false \/ tooShort kps ->
      EyeReflection.analyze st video kps = (st, Normal (EyeReflection.cachedResult st))) /\
  (forall st now kps,
      MicroExpression.isReady st = false \/ tooShort kps ->
      MicroExpression.analyze st now kps = (st, MicroExpression.cachedResult st)) /\
  (forall st now kps,
      Invariants.micro st -> MicroExpression.isReady st = true -> 400 <= length kps ->
      S (length (MicroExpression.landmarkHistory st)) < 5 ->
      exists st' r,
        MicroExpression.analyze st now (Some kps) = (st', Some r) /\
        Invariants.neutralScore (MicroExpression.score r)) /\
  (forall st, length (EyeReflection.reflectionHistory st) < 3 ->
              EyeReflection.calculateTemporalFast st = 0.5) /\
  (forall st, length (DepthEstimator.depthHistory st) < 3 ->
              DepthEstimator.calculateConsistencyFast st = 0.5) /\
  (forall st m, length (MicroExpression.landmarkHistory st) < 3 ->
                MicroExpression.analyzeCoordinationFast st m = 0.5) /\
  (forall st now faces,
      (DepthEstimator.isModelLoaded st = false \/ DepthEstimator.faceMesh st = false \/
       faces = Throw \/
       exists kps rest, faces = Normal (kps :: rest) /\ length kps <= 263) ->
      snd (DepthEstimator.estimateDepth st now faces) = DepthEstimator.cachedResult st /\
      DepthEstimator.cachedResult (fst (DepthEstimator.estimateDepth st now faces))
      = DepthEstimator.cachedResult st /\
      DepthEstimator.depthHistory (fst (DepthEstimator.estimateDepth st now faces))
      = DepthEstimator.depthHistory st) /\
  (forall st now,
      DepthEstimator.isModelLoaded st = true -> DepthEstimator.faceMesh st = true ->
      (S (DepthEstimator.frameCount st) mod 2 = 0)%nat \/
      DepthEstimator.cachedResult st = None ->
      DepthEstimator.estimateDepth st now (Normal []) =
        (DepthEstimator.bumpFrame st, Some DepthEstimator.noFace) /\
      DepthEstimator.score DepthEstimator.noFace = 0 /\
      DepthEstimator.isReal DepthEstimator.noFace = false).
Proof.
  split; [exact eye_guard |].
  split; [exact micro_guard |].
  split.
  { intros st now kps Hinv Hready Hlen Hshort.
    exists (MicroExpression.addToHistory (MicroExpression.bumpFrame st) kps now),
           MicroExpression.warmUp.
    split; [apply micro_warm_up; assumption | reflexivity]. }
  split.
  { intros st H. unfold EyeReflection.calculateTemporalFast.
    destruct (Nat.ltb_spec (length (EyeReflection.reflectionHistory st)) 3); [reflexivity | lia]. }
  split.
  { intros st H. unfold DepthEstimator.calculateConsistencyFast.
    destruct (Nat.ltb_spec (length (DepthEstimator.depthHistory st)) 3); [reflexivity | lia]. }
  split.
  { intros st m H. unfold MicroExpression.analyzeCoordinationFast.
    destruct (Nat.ltb_spec (length (MicroExpression.landmarkHistory st)) 3); [reflexivity | lia]. }
  split; [exact depth_falls_back |].
  intros st now Hl Hf Hrun.
  split; [apply depth_no_face; assumption |].
  split; reflexivity.
Qed.

Lemma insufficient_input_gives_cached_or_neutral_witness :
  EyeReflection.analyze (EyeReflection.initialize EyeReflection.new)
    (Image.mkVideo 160 120 (fun _ _ => [])) (Some [])
  = (EyeReflection.initialize EyeReflection.new, Normal None) /\
  MicroExpression.analyze (MicroExpression.initialize MicroExpression.new) 0 None
  = (MicroExpression.initialize MicroExpression.new, None) /\
  snd (DepthEstimator.estimateDepth Samples.depthAfterFace 200
         (Normal [firstn 200 (Samples.denseKeypoints 3)]))
  = DepthEstimator.cachedResult Samples.depthAfterFace /\
  fst (DepthEstimator.estimateDepth Samples.depthAfterFace 200 (Normal []))
  = DepthEstimator.bumpFrame Samples.depthAfterFace /\
  EyeReflection.calculateTemporalFast (EyeReflection.initialize EyeReflection.new) = 0.5.
Proof.
  destruct insufficient_input_gives_cached_or_neutral
    as [Heye [Hmicro [_ [Htemp [_ [_ [Hdepth Hnoface]]]]]]].
  split; [apply Heye; right; cbn; lia |].
  split; [apply Hmicro; right; exact I |].
  split.
  { apply (Hdepth Samples.depthAfterFace 200%Z
             (Normal [firstn 200 (Samples.denseKeypoints 3)])).
    right. right. right.
    exists (firstn 200 (Samples.denseKeypoints 3)), [].
    split; [reflexivity | vm_compute; lia]. }
  split.
  { destruct (Hnoface Samples.depthAfterFace 200%Z) as [H _];
      [reflexivity | reflexivity | left; reflexivity |].
    rewrite H. reflexivity. }
  apply Htemp. cbn. lia.
Defined.

(** C6 as stated fails for the depth estimator: after a frame with a face
    (cached score 80, real), a frame without a face makes it return score 0
    and [isReal = false] -- neither the cached result nor a neutral score --
    and the application overwrites the depth dimension with 0. *)
Lemma depth_no_face_is_neither_cached_nor_neutral :
  exists cached,
    DepthEstimator.cachedResult Samples.depthAfterFace = Some cached /\
    DepthEstimator.score cached = 80 /\ DepthEstimator.isReal cached = true /\
    exists r,
      snd (DepthEstimator.estimateDepth Samples.depthAfterFace 200 (Normal [])) = Some r /\
      Some r <> DepthEstimator.cachedResult Samples.depthAfterFace /\
      ~ Invariants.neutralScore (DepthEstimator.score r) /\
      DepthEstimator.score r = 0 /\ DepthEstimator.isReal r = false.
Proof.
  eexists. split; [vm_compute; reflexivity |].
  split; [vm_compute; reflexivity |].
  split; [reflexivity |].
  exists DepthEstimator.noFace.
  split; [vm_compute; reflexivity |].
  split; [vm_compute; discriminate |].
  split; [| split; reflexivity].
  unfold Invariants.neutralScore. cbn [DepthEstimator.score DepthEstimator.noFace].
  intros H.
  assert (Hb : (0 =? 50) = true) by (rewrite H; vm_compute; reflexivity).
  vm_compute in Hb. discriminate.
Qed.

End InsufficientInput.

(** ** Anti-spoofing fusion *)

Section Fusion.

Import AntiSpoofing.
Local Open Scope float_scope.

Lemma analyze_runs_fusion (st : State) (video : Image.VideoElement)
    (depthResult : option DepthEstimator.Result)
    (passiveResult : option PassiveLiveness.Result) (img : Image.ImageData) :
  isReady st = true ->
  (S (frameCount st) mod 3 = 0)%nat \/ cachedResult st = None ->
  Image.capture video (Image.scaled (Image.videoWidth video) 0.4)
                      (Image.scaled (Image.videoHeight video) 0.4) = Normal img ->
  analyze st video depthResult passiveResult =
    (fst (fuse (bumpFrame st) (subScores img depthResult passiveResult)),
     Normal (Some (snd (fuse (bumpFrame st) (subScores img depthResult passiveResult))))).
Proof.
  intros Hready Hrun Hcap. unfold analyze. rewrite Hready. cbn [negb].
  replace (negb (frameCount (bumpFrame st) mod 3 =? 0)%nat &&
           isSome (cachedResult (bumpFrame st))) with false.
  - rewrite Hcap.
    destruct (fuse (bumpFrame st) (subScores img depthResult passiveResult)); reflexivity.
  - cbn [frameCount cachedResult bumpFrame].
    destruct Hrun as [H0 | Hnone].
    + rewrite H0. reflexivity.
    + rewrite Hnone, andb_false_r. reflexivity.
Qed.

Lemma attackLabels_spec (photo screen mask deepfake : number) :
  (In "PHOTO_ATTACK"%string (attackLabels photo screen mask deepfake)
   <-> (photo <? 0.5) = true) /\
  (In "SCREEN_REPLAY"%string (attackLabels photo screen mask deepfake)
   <-> (screen <? 0.5) = true) /\
  (In "MASK_DETECTED"%string (attackLabels photo screen mask deepfake)
   <-> (mask <? 0.5) = true) /\
  (In "DEEPFAKE_SUSPECTED"%string (attackLabels photo screen mask deepfake)
   <-> (deepfake <? 0.5) = true) /\
  (forall l, In l (attackLabels photo screen mask deepfake) ->
             In l ["PHOTO_ATTACK"; "SCREEN_REPLAY"; "MASK_DETECTED";
                   "DEEPFAKE_SUSPECTED"]%string).
Proof.
  unfold attackLabels.
  destruct (photo <? 0.5); destruct (screen <? 0.5);
    destruct (mask <? 0.5); destruct (deepfake <? 0.5); cbn;
    repeat split; intros; try discriminate; try tauto;
    repeat match goal with
           | H : _ \/ _ |- _ => destruct H
           | H : False |- _ => destruct H
           | H : _ = _ |- _ => discriminate H
           end; auto.
Qed.

(** C5, as the code has it.  Whenever [analyze] runs the fusion on a
    captured frame, the result carries the label PHOTO_ATTACK exactly when
    the photo sub-score is below 0.5, SCREEN_REPLAY exactly when the screen
    sub-score is, MASK_DETECTED exactly when the mask sub-score is, and
    DEEPFAKE_SUSPECTED exactly when the deepfake sub-score is; it carries no
    other label, so the cutout sub-score emits none, whatever its value. *)
Theorem attack_labels_for_four_sub_scores :
  forall (st : State) (video : Image.VideoElement)
         (depthResult : option DepthEstimator.Result)
         (passiveResult : option PassiveLiveness.Result) (img : Image.ImageData),
    isReady st = true ->
    (S (frameCount st) mod 3 = 0)%nat \/ cachedResult st = None ->
    Image.capture video (Image.scaled (Image.videoWidth video) 0.4)
                        (Image.scaled (Image.videoHeight video) 0.4) = Normal img ->
    exists st' res,
      analyze st video depthResult passiveResult = (st', Normal (Some res)) /\
      (In "PHOTO_ATTACK"%string (attacksDetected res)
       <-> (detectPhotoFast img depthResult <? 0.5) = true) /\
      (In "SCREEN_REPLAY"%string (attacksDetected res)
       <-> (detectScreenFast passiveResult <? 0.5) = true) /\
      (In "MASK_DETECTED"%string (attacksDetected res)
       <-> (detectMaskFast depthResult <? 0.5) = true) /\
      (In "DEEPFAKE_SUSPECTED"%string (attacksDetected res)
       <-> (detectDeepfakeFast passiveResult <? 0.5) = true) /\
      (forall l, In l (attacksDetected res) ->
                 In l ["PHOTO_ATTACK"; "SCREEN_REPLAY"; "MASK_DETECTED";
                       "DEEPFAKE_SUSPECTED"]%string).
Proof.
  intros st video depthResult passiveResult img Hready Hrun Hcap.
  eexists. eexists.
  split; [apply (analyze_runs_fusion st video depthResult passiveResult img); assumption |].
  unfold fuse. cbn [snd attacksDetected].
  apply attackLabels_spec.
Qed.

Lemma attack_labels_for_four_sub_scores_witness :
  exists st' res,
    analyze (initialize new) Samples.flatVideo Samples.faceDepthResult None
    = (st', Normal (Some res)) /\
    (forall l, In l (attacksDetected res) ->
               In l ["PHOTO_ATTACK"; "SCREEN_REPLAY"; "MASK_DETECTED";
                     "DEEPFAKE_SUSPECTED"]%string).
Proof.
  destruct (attack_labels_for_four_sub_scores (initialize new) Samples.flatVideo
              Samples.faceDepthResult None
              (Image.mkImageData (Image.raster Samples.flatVideo 64 48) 64 48))
    as [st' [res [Ha [_ [_ [_ [_ Hall]]]]]]].
  - reflexivity.
  - right. reflexivity.
  - vm_compute. reflexivity.
  - exists st', res. split; [exact Ha | exact Hall].
Defined.

(** C5 as stated fails for the cutout sub-score: on an evenly gray picture
    it is 0.4, below 0.5, and the fusion emits no label at all. *)
Lemma cutout_below_half_emits_no_label :
  exists img res,
    Image.capture Samples.flatVideo 64 48 = Normal img /\
    snd (analyze (initialize new) Samples.flatVideo Samples.faceDepthResult None)
    = Normal (Some res) /\
    (detectCutoutFast img <? 0.5) = true /\
    cutoutScore res = 40 /\
    attacksDetected res = [].
Proof.
  eexists. eexists.
  split; [reflexivity |].
  split; [vm_compute; reflexivity |].
  split; [vm_compute; reflexivity |].
  split; reflexivity.
Qed.

(** C4. What the fusion writes into the anti-spoof dimension: its six
    weights add up to 1.10 and the sum is not clamped.  With all five
    sub-scores at 1.0 the first update gives 105 and an update on a steady
    history gives 110; six analysis ticks on a live subject leave the
    anti-spoof dimension of the security score set at 106. *)
Theorem anti_spoof_dimension_exceeds_100 :
  overallScore (snd (fuse (initialize new) (mkSubScores 1 1 1 1 1))) = 105 /\
  overallScore
    (snd (fuse (fst (fuse (fst (fuse (initialize new) (mkSubScores 1 1 1 1 1)))
                          (mkSubScores 1 1 1 1 1)))
               (mkSubScores 1 1 1 1 1))) = 110 /\
  option_map (fun a => Scores.antiSpoof (LivenessApp.securityScores a)) Samples.liveAttempt
  = Some 106 /\
  (100 <? 105) = true /\ (100 <? 106) = true.
Proof.
  evaluate_each.
Qed.

End Fusion.

(** ** Stopping and resetting an attempt *)

Section Cancellation.

Import LivenessApp.





















End Cancellation.

(** * Further properties of the modelled code *)

(** ** Facts about binary64 comparison and arithmetic *)

Section FloatFacts.

Local Open Scope float_scope.

Lemma ltb_leb (a b : float) : (a <? b) = true -> (a <=? b) = true.
Proof.
  rewrite ltb_spec, leb_spec. unfold SFltb, SFleb.
  destruct (SFcompare (Prim2SF a) (Prim2SF b)) as [[ | | ] | ];
    try discriminate; reflexivity.
Qed.

Lemma nan_is (x : float) : Prim2SF x = S754_nan -> x = nan.
Proof. intros H. rewrite <- (SF2Prim_Prim2SF x), H. reflexivity. Qed.

(** A number divided by itself is 1, or NaN (for 0, the infinities and
    NaN). *)
Lemma div_self (v : float) : v / v = nan \/ v / v = 1.
Proof.
  assert (H : Prim2SF (v / v) = S754_nan \/ Prim2SF (v / v) = Prim2SF 1).
  { rewrite div_spec. unfold SF64div.
    destruct (Prim2SF v) as [s | s | | s m e]; try (left; reflexivity).
    right. unfold SFdiv, SFdiv_core_binary.
    replace (Zdigits2 (Z.pos m) + e - (Zdigits2 (Z.pos m) + e))%Z with 0%Z by lia.
    replace (e - e)%Z with 0%Z by lia.
    change (Z.min (fexp prec emax 0) 0) with (-53)%Z.
    change (0 - -53)%Z with 53%Z. cbv beta iota zeta.
    rewrite Z.shiftl_mul_pow2 by lia.
    assert (Hd : Z.div_eucl (Z.pos m * 2 ^ 53) (Z.pos m) = (2 ^ 53, 0)%Z).
    { pose proof (Z.div_eucl_eq (Z.pos m * 2 ^ 53) (Z.pos m)) as Heq.
      pose proof (Z.mod_pos_bound (Z.pos m * 2 ^ 53) (Z.pos m)) as Hb.
      unfold Z.modulo in Hb.
      destruct (Z.div_eucl (Z.pos m * 2 ^ 53) (Z.pos m)) as [q r].
      specialize (Heq ltac:(lia)). specialize (Hb ltac:(lia)).
      assert (q = 2 ^ 53)%Z by nia. subst q. f_equal. lia. }
    rewrite Hd. unfold new_location.
    destruct (Z.even (Z.pos m)); unfold new_location_even, new_location_odd;
      cbn [Z.eqb]; destruct s; vm_compute; reflexivity. }
  destruct H as [H | H]; [left; apply nan_is; exact H |].
  right. rewrite <- (SF2Prim_Prim2SF (v / v)), H. apply SF2Prim_Prim2SF.
Qed.

Lemma SFcompare_antisym (a b : spec_float) :
  SFcompare b a = option_map CompOpp (SFcompare a b).
Proof.
  destruct a as [sa | sa | | sa ma ea], b as [sb | sb | | sb mb eb];
    try destruct sa; try destruct sb; try reflexivity; cbn [SFcompare option_map].
  all: change (Pos.compare_cont Eq mb ma) with (mb ?= ma)%positive;
       change (Pos.compare_cont Eq ma mb) with (ma ?= mb)%positive.
  all: rewrite (Z.compare_antisym ea eb); destruct (ea ?= eb)%Z; cbn [CompOpp]; try reflexivity.
  all: rewrite (Pos.compare_antisym ma mb); destruct (ma ?= mb)%positive; reflexivity.
Qed.

Lemma ltb_false_of_nan_l (x y : float) : Prim2SF x = S754_nan -> (x <? y) = false.
Proof. intros H. rewrite ltb_spec, H. reflexivity. Qed.

Lemma ltb_false_of_nan_r (x y : float) : Prim2SF y = S754_nan -> (x <? y) = false.
Proof. intros H. rewrite ltb_spec, H. unfold SFltb. destruct (Prim2SF x) as [[]|[]| |[] ? ?]; reflexivity. Qed.

Lemma isNaN_spec (x : float) : isNaN x = true <-> Prim2SF x = S754_nan.
Proof.
  unfold isNaN. rewrite eqb_spec. unfold SFeqb.
  destruct (Prim2SF x) as [s | s | | s m e]; try destruct s; cbn [SFcompare negb];
    try (split; [discriminate | discriminate]); try (split; reflexivity).
  all: change (Pos.compare_cont Eq m m) with (m ?= m)%positive;
       rewrite Z.compare_refl, Pos.compare_refl; cbn; split; discriminate.
Qed.

Lemma ltb_negb_leb (x y : float) :
  isNaN x = false -> isNaN y = false -> (x <? y) = negb (y <=? x).
Proof.
  intros Hx Hy. rewrite ltb_spec, leb_spec. unfold SFltb, SFleb.
  rewrite (SFcompare_antisym (Prim2SF x) (Prim2SF y)).
  assert (Hx' : Prim2SF x <> S754_nan) by (intros H; apply isNaN_spec in H; congruence).
  assert (Hy' : Prim2SF y <> S754_nan) by (intros H; apply isNaN_spec in H; congruence).
  destruct (Prim2SF x) as [sa | sa | | sa ma ea], (Prim2SF y) as [sb | sb | | sb mb eb];
    try congruence; try destruct sa; try destruct sb; try reflexivity; cbn [SFcompare option_map].
  all: change (Pos.compare_cont Eq ma mb) with (ma ?= mb)%positive.
  all: destruct (ea ?= eb)%Z; try reflexivity; destruct (ma ?= mb)%positive; reflexivity.
Qed.

(** Transitivity of [<] through two positive finite numbers. *)
Lemma ltb_const_trans (c1 c2 x : float) m1 e1 m2 e2 :
  Prim2SF c1 = S754_finite false m1 e1 -> Prim2SF c2 = S754_finite false m2 e2 ->
  (c1 <? c2) = true -> (c2 <? x) = true -> (c1 <? x) = true.
Proof.
  intros H1 H2. rewrite !ltb_spec, H1, H2. unfold SFltb.
  destruct (Prim2SF x) as [s | s | | s m e]; try destruct s; cbn [SFcompare]; try discriminate; try reflexivity.
  change (Pos.compare_cont Eq m1 m2) with (m1 ?= m2)%positive;
  change (Pos.compare_cont Eq m2 m) with (m2 ?= m)%positive;
  change (Pos.compare_cont Eq m1 m) with (m1 ?= m)%positive.
  destruct (Z.compare_spec e1 e2), (Z.compare_spec e2 e), (Z.compare_spec e1 e); try discriminate; try reflexivity; try lia.
  all: destruct (Pos.compare_spec m1 m2), (Pos.compare_spec m2 m), (Pos.compare_spec m1 m); try discriminate; try reflexivity; try lia.
Qed.

Lemma Math_min_upper (a b : float) :
  isNaN b = false -> isNaN (Math_min a b) = true \/ (Math_min a b <=? b) = true.
Proof.
  intros Hb. unfold Math_min. rewrite Hb, orb_false_r.
  destruct (isNaN a) eqn:Ha; [left; reflexivity |].
  right. destruct (a <? b) eqn:Hlt.
  - rewrite ltb_spec in Hlt. rewrite leb_spec. unfold SFltb, SFleb in *.
    destruct (SFcompare (Prim2SF a) (Prim2SF b)) as [[ | | ] | ]; try discriminate; reflexivity.
  - rewrite leb_spec. unfold SFleb.
    assert (Hb' : Prim2SF b <> S754_nan) by (intros H; apply isNaN_spec in H; congruence).
    destruct (Prim2SF b) as [s | s | | s m e]; try congruence; try destruct s; cbn [SFcompare]; try reflexivity.
    all: change (Pos.compare_cont Eq m m) with (m ?= m)%positive;
         rewrite Z.compare_refl, Pos.compare_refl; reflexivity.
Qed.

Lemma sub_nan_l (y : float) : nan - y = nan.
Proof.
  apply Prim2SF_inj. rewrite sub_spec.
  change (Prim2SF nan) with S754_nan. reflexivity.
Qed.
Lemma div_nan_l (y : float) : nan / y = nan.
Proof.
  apply Prim2SF_inj. rewrite div_spec.
  change (Prim2SF nan) with S754_nan. reflexivity.
Qed.
Lemma abs_nan : abs nan = nan.
Proof. reflexivity. Qed.

End FloatFacts.

(** ** Challenge verifiers and completion *)

Section Verifiers.

Import LivenessChallenger.
Local Open Scope float_scope.

Lemma verifySmileLowRes_false (st : State) (data : DetectionData) :
  snd (verifySmileLowRes st data) = Normal false /\
  challengeHistory (fst (verifySmileLowRes st data)) = challengeHistory st /\
  isActive (fst (verifySmileLowRes st data)) = isActive st /\
  currentChallenge (fst (verifySmileLowRes st data)) = currentChallenge st.
Proof.
  unfold verifySmileLowRes.
  destruct (landmarks data) as [lm |]; [| repeat split; reflexivity].
  destruct (length lm <? 6)%nat; [repeat split; reflexivity |].
  unfold establishBaseline.
  destruct (length (landmarkHistory (addToHistory st lm)) <? 5)%nat;
    [repeat split; reflexivity |].
  cbn [negb fst snd baseline set_baseline mouthWidth challengeHistory isActive
       currentChallenge addToHistory set_landmarkHistory].
  split; [| repeat split; reflexivity].
  unfold gtb.
  destruct (div_self (Math_abs (Landmarks.at_index (pt lm 3) 0 -
                                (Landmarks.at_index (pt lm 0) 0 +
                                 Landmarks.at_index (pt lm 1) 0) / 2)))
    as [H | H]; rewrite H; reflexivity.
Qed.

(** X1.  The coarse smile path can never answer success: [establishBaseline]
    measures the baseline mouth width on the very frame that is then compared
    with it, so the ratio is 1 (or NaN) and never exceeds 1.15.  A smile
    challenge therefore cannot be completed by frames without dense
    keypoints; it stays active until its timeout. *)
Theorem coarse_smile_never_succeeds :
  (forall (st : State) (data : DetectionData),
      isHighRes data = false -> snd (verifySmile st data) = Normal false) /\
  (forall (st : State) (data : DetectionData) (lm : list Landmarks.Point),
      landmarks data = Some lm -> length lm <= 10 ->
      snd (verifySmile st data) = Normal false) /\
  (forall (st : State) (now : Z) (data : DetectionData) (c : Challenge),
      currentChallenge st = Some c -> verify c = VerifySmile ->
      isHighRes data = false ->
      snd (processDetection st now data) = Normal [] /\
      challengeHistory (fst (processDetection st now data)) = challengeHistory st /\
      isActive (fst (processDetection st now data)) = isActive st /\
      currentChallenge (fst (processDetection st now data)) = Some c).
Proof.
  split.
  { intros st data H. unfold verifySmile. rewrite H. apply verifySmileLowRes_false. }
  split.
  { intros st data lm Hlm Hlen. unfold verifySmile.
    destruct (isHighRes data); [| apply verifySmileLowRes_false].
    rewrite Hlm. destruct (Nat.ltb_spec 10 (length lm)) as [Hgt | _]; [lia |].
    apply verifySmileLowRes_false. }
  intros st now data c Hc Hv Hres. unfold processDetection. rewrite Hc.
  destruct (isActive st) eqn:Hact; cbn [negb];
    [| cbn [fst snd]; repeat split; auto].
  rewrite Hv. cbn [runVerify]. unfold verifySmile. rewrite Hres.
  destruct (verifySmileLowRes_false st data) as [Hr [Hh [Ha Hcur]]].
  destruct (verifySmileLowRes st data) as [st' r]. cbn [fst snd] in *. subst r.
  cbn [fst snd]. rewrite Hh, Ha, Hcur. repeat split; assumption.
Qed.

Lemma coarse_smile_never_succeeds_witness :
  snd (verifySmile (fst (Samples.feed VerifySmile new (map Samples.coarseFrame [50; 50; 50; 50; 50])))
                   (mkDetectionData true false 95
                      (Some [Landmarks.PArr [0; 0]; Landmarks.PArr [100; 0];
                             Landmarks.PArr [50; 30]; Landmarks.PArr [95; 55];
                             Landmarks.PArr [-10; 10]; Landmarks.PArr [110; 10]])
                      false))
  = Normal false.
Proof.
  apply (proj1 coarse_smile_never_succeeds). reflexivity.
Defined.

Lemma at_index_dense (kps : list Landmarks.Keypoint) (i j : nat) :
  Landmarks.at_index (pt (map Landmarks.PObj kps) i) j = nan.
Proof.
  unfold pt.
  destruct (nth_in_or_default i (map Landmarks.PObj kps) (Landmarks.PArr [])) as [Hin | Hd].
  - apply in_map_iff in Hin. destruct Hin as [k [Hk _]]. rewrite <- Hk. reflexivity.
  - rewrite Hd. destruct j; reflexivity.
Qed.

Lemma normalizedOffset_dense (kps : list Landmarks.Keypoint) :
  normalizedOffset (map Landmarks.PObj kps) = nan.
Proof.
  unfold normalizedOffset. rewrite (at_index_dense kps 2 0).
  rewrite sub_nan_l, div_nan_l. reflexivity.
Qed.

Lemma verifyHeadTurn_dense (st : State) (data : DetectionData)
    (kps : list Landmarks.Keypoint) :
  landmarks data = Some (map Landmarks.PObj kps) ->
  headTurnStates (fst (verifyHeadTurn st data)) = headTurnStates st /\
  challengeHistory (fst (verifyHeadTurn st data)) = challengeHistory st /\
  isActive (fst (verifyHeadTurn st data)) = isActive st /\
  currentChallenge (fst (verifyHeadTurn st data)) = currentChallenge st /\
  (snd (verifyHeadTurn st data) = Normal false \/
   snd (verifyHeadTurn st data)
   = Normal (left (headTurnStates st) && right (headTurnStates st) &&
             center (headTurnStates st))).
Proof.
  intros Hlm. unfold verifyHeadTurn. rewrite Hlm.
  destruct (length (map Landmarks.PObj kps) <? 6)%nat;
    [repeat split; try reflexivity; left; reflexivity |].
  rewrite normalizedOffset_dense.
  cbn [fst snd headTurnStates set_headTurnStates addToHistory set_landmarkHistory
       challengeHistory isActive currentChallenge].
  assert (Hnan : forall d, updateHeadTurn d nan = d) by (intros d; reflexivity).
  rewrite Hnan. repeat split; try reflexivity. right. reflexivity.
Qed.

(** X2.  The head-turn verifier reads landmarks as [[x, y]] arrays only.  On a
    dense landmark set (an array of objects, as the application passes once
    the depth estimator has produced keypoints) every coordinate it reads is
    [undefined], the offset is NaN and no flag is ever set: unless all three
    flags were set before, the verifier answers false, and the application's
    [handleDetection] completes nothing. *)
Theorem head_turn_blind_to_dense_landmarks :
  (forall (st : State) (data : DetectionData) (kps : list Landmarks.Keypoint),
      landmarks data = Some (map Landmarks.PObj kps) ->
      headTurnStates (fst (verifyHeadTurn st data)) = headTurnStates st /\
      (left (headTurnStates st) && right (headTurnStates st) &&
       center (headTurnStates st) = false ->
       snd (verifyHeadTurn st data) = Normal false)) /\
  (forall (a : LivenessApp.App) (data : DetectionData) (kps : list Landmarks.Keypoint)
          (c : Challenge),
      LivenessApp.latestKeypoints a = Some kps ->
      currentChallenge (LivenessApp.livenessChallenger a) = Some c ->
      verify c = VerifyHeadTurn ->
      left (headTurnStates (LivenessApp.livenessChallenger a)) &&
      right (headTurnStates (LivenessApp.livenessChallenger a)) &&
      center (headTurnStates (LivenessApp.livenessChallenger a)) = false ->
      let a' := LivenessApp.handleDetection a data in
      LivenessApp.completedChallenges a' = LivenessApp.completedChallenges a /\
      LivenessApp.timers a' = LivenessApp.timers a /\
      challengeHistory (LivenessApp.livenessChallenger a')
      = challengeHistory (LivenessApp.livenessChallenger a) /\
      currentChallenge (LivenessApp.livenessChallenger a') = Some c /\
      headTurnStates (LivenessApp.livenessChallenger a')
      = headTurnStates (LivenessApp.livenessChallenger a)).
Proof.
  split.
  { intros st data kps Hlm.
    destruct (verifyHeadTurn_dense st data kps Hlm) as [Hflags [_ [_ [_ Hres]]]].
    split; [exact Hflags |]. intros Hnot.
    destruct Hres as [H | H]; [exact H | rewrite H, Hnot; reflexivity]. }
  intros a data kps c Hk Hc Hv Hnot. unfold LivenessApp.handleDetection.
  set (a1 := if faceDetected data && negb (multipleFaces data)
             then LivenessApp.set_confidenceHistory
                    (LivenessApp.set_detectionData a (Some data))
                    (LivenessApp.confidenceHistory
                       (LivenessApp.set_detectionData a (Some data)) ++ [confidence data])
             else LivenessApp.set_detectionData a (Some data)).
  assert (Ha1 : LivenessApp.livenessChallenger a1 = LivenessApp.livenessChallenger a /\
                LivenessApp.latestKeypoints a1 = LivenessApp.latestKeypoints a /\
                LivenessApp.completedChallenges a1 = LivenessApp.completedChallenges a /\
                LivenessApp.timers a1 = LivenessApp.timers a)
    by (unfold a1; destruct (faceDetected data && negb (multipleFaces data));
        repeat split; reflexivity).
  destruct Ha1 as [Hch [Hlk [Hcc Htm]]].
  cbv zeta.
  destruct (isActive (LivenessApp.livenessChallenger a1) && faceDetected data &&
            negb (multipleFaces data)) eqn:Hgate.
  - rewrite Hlk, Hk, Hch. unfold processDetection. rewrite Hc.
    apply andb_true_iff in Hgate. destruct Hgate as [Hgate _].
    apply andb_true_iff in Hgate. destruct Hgate as [Hact _].
    rewrite Hch in Hact. rewrite Hact. cbn [negb]. rewrite Hv. cbn [runVerify].
    set (d := mkDetectionData (faceDetected data) (multipleFaces data) (confidence data)
                              (Some (map Landmarks.PObj kps)) true).
    destruct (verifyHeadTurn_dense (LivenessApp.livenessChallenger a) d kps eq_refl)
      as [Hflags [Hhist [_ [Hcur Hres]]]].
    assert (Hfalse : snd (verifyHeadTurn (LivenessApp.livenessChallenger a) d) = Normal false)
      by (destruct Hres as [H | H]; [exact H | rewrite H, Hnot; reflexivity]).
    destruct (verifyHeadTurn (LivenessApp.livenessChallenger a) d) as [st' r].
    cbn [fst snd] in *. subst r. cbn.
    rewrite Hcc, Htm, Hhist, Hcur, Hflags. repeat split; auto.
  - rewrite Hcc, Htm, Hch. repeat split; auto.
Qed.

Lemma head_turn_blind_to_dense_landmarks_witness :
  headTurnStates (fst (verifyHeadTurn new (Samples.denseFrame 3))) = headTurnStates new /\
  snd (verifyHeadTurn new (Samples.denseFrame 3)) = Normal false.
Proof.
  destruct (proj1 head_turn_blind_to_dense_landmarks new (Samples.denseFrame 3)
              (Samples.denseKeypoints 3) eq_refl) as [H1 H2].
  split; [exact H1 | apply H2; reflexivity].
Defined.

End Verifiers.

(** ** Dense verifiers on short keypoint sets; completion; statistics *)

Section Completion.

Import LivenessChallenger.
Local Open Scope float_scope.

Lemma dist_normal (lm : list Landmarks.Point) (i j : nat) :
  i < length lm -> j < length lm ->
  exists v, dist (nth_error lm i) (nth_error lm j) = Normal v.
Proof.
  intros Hi Hj.
  destruct (nth_error lm i) eqn:Ei; [| apply nth_error_None in Ei; lia].
  destruct (nth_error lm j) eqn:Ej; [| apply nth_error_None in Ej; lia].
  eexists. reflexivity.
Qed.

Lemma dist_throw_r (lm : list Landmarks.Point) (p : option Landmarks.Point) (j : nat) :
  length lm <= j -> dist p (nth_error lm j) = Throw.
Proof.
  intros Hj. apply nth_error_None in Hj. rewrite Hj. destruct p; reflexivity.
Qed.

Lemma dist_throw_l (lm : list Landmarks.Point) (p : option Landmarks.Point) (i : nat) :
  length lm <= i -> dist (nth_error lm i) p = Throw.
Proof.
  intros Hi. apply nth_error_None in Hi. rewrite Hi. reflexivity.
Qed.

Lemma avgEAR_short (lm : list Landmarks.Point) :
  length lm <= 386 -> avgEAR lm = Throw.
Proof.
  intros H. unfold avgEAR. rewrite (dist_throw_l lm _ 386 H). cbn [div2].
  destruct (div2 (dist (nth_error lm 159) (nth_error lm 145))
                 (dist (nth_error lm 33) (nth_error lm 133))); reflexivity.
Qed.

Lemma avgEAR_long (lm : list Landmarks.Point) :
  386 < length lm -> exists ear, avgEAR lm = Normal ear.
Proof.
  intros H. unfold avgEAR.
  destruct (dist_normal lm 159 145) as [a Ha]; [lia | lia |].
  destruct (dist_normal lm 33 133) as [b Hb]; [lia | lia |].
  destruct (dist_normal lm 386 374) as [c Hc]; [lia | lia |].
  destruct (dist_normal lm 362 263) as [d Hd]; [lia | lia |].
  rewrite Ha, Hb, Hc, Hd. eexists. reflexivity.
Qed.

(** X3.  The dense blink path reads keypoint 386 and the dense smile path reads
    keypoint 454 behind the guard [landmarks.length > 10].  With more than 10
    but too few keypoints the verifier raises a [TypeError] and leaves the
    challenger unchanged, and [processDetection] passes the exception on
    without completing the challenge; with enough keypoints it never raises,
    and the dense smile path does not touch the challenger at all. *)
Theorem dense_verifiers_need_full_mesh :
  forall (st : State) (data : DetectionData) (lm : list Landmarks.Point),
    isHighRes data = true -> landmarks data = Some lm -> 10 < length lm ->
    (length lm <= 386 -> verifyBlink st data = (st, Throw)) /\
    (386 < length lm -> exists st' b, verifyBlink st data = (st', Normal b)) /\
    (length lm <= 454 -> verifySmile st data = (st, Throw)) /\
    (454 < length lm -> exists b, verifySmile st data = (st, Normal b)) /\
    (forall (now : Z) (c : Challenge),
        currentChallenge st = Some c -> isActive st = true -> verify c = VerifyBlink ->
        length lm <= 386 -> processDetection st now data = (st, Throw)).
Proof.
  intros st data lm Hres Hlm Hlen.
  assert (Hgt : (10 <? length lm)%nat = true) by (apply Nat.ltb_lt; exact Hlen).
  assert (Hblink : length lm <= 386 -> verifyBlink st data = (st, Throw)).
  { intros H. unfold verifyBlink. rewrite Hres, Hlm, Hgt, (avgEAR_short lm H). reflexivity. }
  split; [exact Hblink |].
  split.
  { intros H. unfold verifyBlink. rewrite Hres, Hlm, Hgt.
    destruct (avgEAR_long lm H) as [ear ->]. eexists. eexists. reflexivity. }
  split.
  { intros H. unfold verifySmile. rewrite Hres, Hlm, Hgt.
    rewrite (dist_throw_r lm _ 454 H).
    destruct (dist (nth_error lm 61) (nth_error lm 291)); reflexivity. }
  split.
  { intros H. unfold verifySmile. rewrite Hres, Hlm, Hgt.
    destruct (dist_normal lm 61 291) as [a ->]; [lia | lia |].
    destruct (dist_normal lm 234 454) as [b ->]; [lia | lia |].
    eexists. reflexivity. }
  intros now c Hc Hact Hv H. unfold processDetection.
  rewrite Hc, Hact, Hv. cbn [negb runVerify]. rewrite (Hblink H). reflexivity.
Qed.

Lemma dense_verifiers_need_full_mesh_witness :
  verifyBlink Samples.blinkStarted
    (mkDetectionData true false 95
       (Some (map Landmarks.PObj (firstn 300 (Samples.denseKeypoints 1)))) true)
  = (Samples.blinkStarted, Throw) /\
  exists b, verifySmile Samples.blinkStarted Samples.eyesOpen
            = (Samples.blinkStarted, Normal b).
Proof.
  split.
  - apply (dense_verifiers_need_full_mesh Samples.blinkStarted
             (mkDetectionData true false 95
                (Some (map Landmarks.PObj (firstn 300 (Samples.denseKeypoints 1)))) true)
             (map Landmarks.PObj (firstn 300 (Samples.denseKeypoints 1)))
             eq_refl eq_refl);
      vm_compute; lia.
  - apply (dense_verifiers_need_full_mesh Samples.blinkStarted Samples.eyesOpen
             (map Landmarks.PObj (Samples.denseKeypoints 3)) eq_refl eq_refl);
      vm_compute; lia.
Defined.



Lemma filter_split_length {A : Type} (f : A -> bool) (l : list A) :
  (length (filter f l) + length (filter (fun x => negb (f x)) l))%nat = length l.
Proof.
  induction l as [| x xs IH]; [reflexivity |].
  cbn [filter]. destruct (f x); cbn [negb length]; lia.
Qed.

(** X5.  [getStatistics] counts every history entry once: the successful and
    the failed entries add up to the total, the failed ones are exactly the
    entries with [success = false], an empty history gives zeros throughout,
    and each completed challenge raises the total by one and the successful
    count by one exactly when it succeeded. *)
Theorem statistics_count_each_challenge_once :
  (forall st : State,
      total (getStatistics st) = length (challengeHistory st) /\
      (successful (getStatistics st) + failed (getStatistics st))%nat
      = total (getStatistics st) /\
      failed (getStatistics st)
      = length (filter (fun c => negb (success c)) (challengeHistory st))) /\
  (forall st : State,
      challengeHistory st = [] ->
      getStatistics st = mkStatistics 0 0 0 0 0) /\
  (forall (st : State) (now : Z) (ok : bool) (c : Challenge),
      currentChallenge st = Some c ->
      let st1 := fst (completeChallenge st now ok) in
      total (getStatistics st1) = S (total (getStatistics st)) /\
      successful (getStatistics st1)
      = (successful (getStatistics st) + if ok then 1 else 0)%nat).
Proof.
  split.
  { intros st. unfold getStatistics. cbn [total successful failed].
    pose proof (filter_split_length success (challengeHistory st)) as H.
    repeat split; lia. }
  split.
  { intros st H. unfold getStatistics. rewrite H. reflexivity. }
  intros st now ok c Hc. unfold completeChallenge. rewrite Hc.
  unfold getStatistics.
  cbn [fst total successful challengeHistory set_isActive set_challengeHistory
       set_currentChallenge].
  rewrite filter_app, !length_app. cbn [filter success length].
  destruct ok; cbn [length]; split; lia.
Qed.

Lemma statistics_count_each_challenge_once_witness :
  getStatistics new = mkStatistics 0 0 0 0 0 /\
  total (getStatistics (fst (completeChallenge Samples.blinkStarted 4000 false))) = 1%nat /\
  successful (getStatistics (fst (completeChallenge Samples.blinkStarted 4000 false))) = 0%nat.
Proof.
  destruct statistics_count_each_challenge_once as [_ [Hempty Hstep]].
  split; [apply Hempty; reflexivity |].
  apply (Hstep Samples.blinkStarted 4000%Z false
           (mkChallenge "blink" "Blink Detection" "Please blink your eyes twice"
                        10000 VerifyBlink) eq_refl).
Defined.

End Completion.

(** ** Invariants kept by the public operations *)

Section KeptInvariants.

Lemma Forall_push_shift {A : Type} (P : A -> Prop) (max : nat) (arr : list A) (x : A) :
  Forall P arr -> P x -> Forall P (push_shift max arr x).
Proof.
  intros Harr Hx. unfold push_shift.
  assert (Hall : Forall P (arr ++ [x]))
    by (apply Forall_app; split; [exact Harr | constructor; [exact Hx | constructor]]).
  destruct (max <? length (arr ++ [x])); [| exact Hall].
  destruct (arr ++ [x]) as [| y ys]; [constructor |].
  cbn [tl]. inversion Hall. assumption.
Qed.

(** X6.  The challenger's landmark history is well formed under every verifier:
    whatever frame a verifier is given -- coarse, dense, short or missing --
    the history stays within its capacity and every stored frame has at
    least six landmarks, so the coarse blink path finds both eyes in the
    previous frames it reads. *)
Theorem challenger_history_well_formed :
  forall (v : LivenessChallenger.Verifier) (st : LivenessChallenger.State)
         (data : LivenessChallenger.DetectionData),
    length (LivenessChallenger.landmarkHistory st) <= LivenessChallenger.maxHistoryLength st ->
    Forall (fun frame => 6 <= length frame) (LivenessChallenger.landmarkHistory st) ->
    let st' := fst (LivenessChallenger.runVerify v st data) in
    LivenessChallenger.maxHistoryLength st' = LivenessChallenger.maxHistoryLength st /\
    length (LivenessChallenger.landmarkHistory st') <= LivenessChallenger.maxHistoryLength st /\
    Forall (fun frame => 6 <= length frame) (LivenessChallenger.landmarkHistory st').
Proof.
  intros v st data Hlen Hall.
  assert (Hadd : forall lm, (length lm <? 6) = false ->
            length (LivenessChallenger.landmarkHistory (LivenessChallenger.addToHistory st lm))
            <= LivenessChallenger.maxHistoryLength st /\
            Forall (fun frame => 6 <= length frame)
                   (LivenessChallenger.landmarkHistory (LivenessChallenger.addToHistory st lm))).
  { intros lm H6. apply Nat.ltb_ge in H6. cbn. split.
    - apply push_shift_length. exact Hlen.
    - apply Forall_push_shift; assumption. }
  assert (Hblink : let st' := fst (LivenessChallenger.verifyBlinkLowRes st data) in
            LivenessChallenger.maxHistoryLength st' = LivenessChallenger.maxHistoryLength st /\
            length (LivenessChallenger.landmarkHistory st')
            <= LivenessChallenger.maxHistoryLength st /\
            Forall (fun frame => 6 <= length frame) (LivenessChallenger.landmarkHistory st')).
  { unfold LivenessChallenger.verifyBlinkLowRes.
    destruct (LivenessChallenger.landmarks data) as [lm |]; [| cbn; auto].
    destruct (length lm <? 6) eqn:H6; [cbn; auto |].
    destruct (Hadd lm H6) as [H1 H2].
    destruct (length (LivenessChallenger.landmarkHistory
                        (LivenessChallenger.addToHistory st lm)) <? 3); [cbn; auto |].
    match goal with
    | |- context [if ?b then _ else _] => destruct b
    end; cbn; auto. }
  assert (Hsmile : let st' := fst (LivenessChallenger.verifySmileLowRes st data) in
            LivenessChallenger.maxHistoryLength st' = LivenessChallenger.maxHistoryLength st /\
            length (LivenessChallenger.landmarkHistory st')
            <= LivenessChallenger.maxHistoryLength st /\
            Forall (fun frame => 6 <= length frame) (LivenessChallenger.landmarkHistory st')).
  { unfold LivenessChallenger.verifySmileLowRes.
    destruct (LivenessChallenger.landmarks data) as [lm |]; [| cbn; auto].
    destruct (length lm <? 6) eqn:H6; [cbn; auto |].
    destruct (Hadd lm H6) as [H1 H2].
    unfold LivenessChallenger.establishBaseline.
    destruct (length (LivenessChallenger.landmarkHistory
                        (LivenessChallenger.addToHistory st lm)) <? 5); cbn; auto. }
  destruct v; cbn [LivenessChallenger.runVerify].
  - unfold LivenessChallenger.verifyBlink.
    destruct (LivenessChallenger.isHighRes data); [| exact Hblink].
    destruct (LivenessChallenger.landmarks data) as [lm |] eqn:Hlm; [| cbn; auto].
    destruct (10 <? length lm); [| exact Hblink].
    destruct (LivenessChallenger.avgEAR lm) as [ear |]; [| cbn; auto].
    destruct (PrimFloat.ltb ear 0.15); cbn; auto.
  - unfold LivenessChallenger.verifySmile.
    destruct (LivenessChallenger.isHighRes data); [| exact Hsmile].
    destruct (LivenessChallenger.landmarks data) as [lm |] eqn:Hlm; [| cbn; auto].
    destruct (10 <? length lm); [| exact Hsmile].
    destruct (LivenessChallenger.div2 _ _); cbn; auto.
  - unfold LivenessChallenger.verifyHeadTurn.
    destruct (LivenessChallenger.landmarks data) as [lm |]; [| cbn; auto].
    destruct (length lm <? 6) eqn:H6; [cbn; auto |].
    destruct (Hadd lm H6) as [H1 H2]. cbn. auto.
Qed.

Lemma challenger_history_well_formed_witness :
  length (LivenessChallenger.landmarkHistory
            (fst (LivenessChallenger.runVerify LivenessChallenger.VerifyHeadTurn
                    LivenessChallenger.new (Samples.coarseFrame 10%float)))) <= 30 /\
  Forall (fun frame => 6 <= length frame)
         (LivenessChallenger.landmarkHistory
            (fst (LivenessChallenger.runVerify LivenessChallenger.VerifyHeadTurn
                    LivenessChallenger.new (Samples.coarseFrame 10%float)))).
Proof.
  destruct (challenger_history_well_formed LivenessChallenger.VerifyHeadTurn
              LivenessChallenger.new (Samples.coarseFrame 10%float))
    as [_ [H1 H2]].
  - cbn. lia.
  - constructor.
  - split; [exact H1 | exact H2].
Defined.

End KeptInvariants.

(** ** Histories and caches of the analyzers *)

Section AnalyzerState.

Local Open Scope float_scope.

Ltac case_if :=
  match goal with
  | |- context [if ?b then _ else _] => destruct b eqn:?
  end.

Lemma depth_history_step (st : DepthEstimator.State) (now : Z)
    (faces : completion (list (list Landmarks.Keypoint))) :
  let st' := fst (DepthEstimator.estimateDepth st now faces) in
  DepthEstimator.maxHistory st' = DepthEstimator.maxHistory st /\
  (DepthEstimator.depthHistory st' = DepthEstimator.depthHistory st \/
   exists f, DepthEstimator.depthHistory st'
             = push_shift (DepthEstimator.maxHistory st) (DepthEstimator.depthHistory st) f).
Proof.
  unfold DepthEstimator.estimateDepth.
  case_if; [cbn; auto |]. case_if; [cbn; auto |].
  destruct faces as [[| kps rest] |]; [cbn; auto | | cbn; auto].
  destruct (DepthEstimator.extractFeaturesFast kps now) as [f |]; [| cbn; auto].
  cbn [fst DepthEstimator.maxHistory DepthEstimator.depthHistory DepthEstimator.setCached
       DepthEstimator.addToHistory DepthEstimator.bumpFrame].
  split; [reflexivity |]. right. exists f. reflexivity.
Qed.

Lemma passive_history_step (st : PassiveLiveness.State) (video : Image.VideoElement) :
  let st' := fst (PassiveLiveness.analyze st video) in
  PassiveLiveness.maxFrames st' = PassiveLiveness.maxFrames st /\
  (PassiveLiveness.frameHistory st' = PassiveLiveness.frameHistory st \/
   exists f, PassiveLiveness.frameHistory st'
             = push_shift (PassiveLiveness.maxFrames st) (PassiveLiveness.frameHistory st) f).
Proof.
  unfold PassiveLiveness.analyze.
  case_if; [cbn; auto |]. case_if; [cbn; auto |].
  destruct (Image.capture video _ _) as [img |]; [| cbn; auto].
  cbn [fst PassiveLiveness.maxFrames PassiveLiveness.frameHistory PassiveLiveness.setResult
       PassiveLiveness.addFrameToHistory PassiveLiveness.bumpFrame].
  split; [reflexivity |]. right. eexists. reflexivity.
Qed.

Lemma antispoof_history_step (st : AntiSpoofing.State) (video : Image.VideoElement)
    (d : option DepthEstimator.Result) (p : option PassiveLiveness.Result) :
  let st' := fst (AntiSpoofing.analyze st video d p) in
  AntiSpoofing.maxHistory st' = AntiSpoofing.maxHistory st /\
  (AntiSpoofing.analysisHistory st' = AntiSpoofing.analysisHistory st \/
   exists f, AntiSpoofing.analysisHistory st'
             = push_shift (AntiSpoofing.maxHistory st) (AntiSpoofing.analysisHistory st) f).
Proof.
  unfold AntiSpoofing.analyze.
  case_if; [cbn; auto |]. case_if; [cbn; auto |].
  destruct (Image.capture video _ _) as [img |]; [| cbn; auto].
  unfold AntiSpoofing.fuse.
  cbn [fst AntiSpoofing.maxHistory AntiSpoofing.analysisHistory AntiSpoofing.setResult
       AntiSpoofing.addToHistory AntiSpoofing.bumpFrame].
  split; [reflexivity |]. right. eexists. reflexivity.
Qed.

Lemma eye_history_step (st : EyeReflection.State) (video : Image.VideoElement)
    (kps : option (list Landmarks.Keypoint)) :
  let st' := fst (EyeReflection.analyze st video kps) in
  EyeReflection.maxHistory st' = EyeReflection.maxHistory st /\
  (EyeReflection.reflectionHistory st' = EyeReflection.reflectionHistory st \/
   exists f, EyeReflection.reflectionHistory st'
             = push_shift (EyeReflection.maxHistory st) (EyeReflection.reflectionHistory st) f).
Proof.
  unfold EyeReflection.analyze.
  destruct kps as [l |]; [| cbn; auto].
  case_if; [cbn; auto |]. case_if; [cbn; auto |].
  destruct (Image.capture video _ _) as [img |]; [| cbn; auto].
  cbn [fst EyeReflection.maxHistory EyeReflection.reflectionHistory EyeReflection.setResult
       EyeReflection.addToHistory EyeReflection.bumpFrame].
  split; [reflexivity |]. right. eexists. reflexivity.
Qed.

Lemma micro_history_step (st : MicroExpression.State) (now : Z)
    (kps : option (list Landmarks.Keypoint)) :
  let st' := fst (MicroExpression.analyze st now kps) in
  MicroExpression.maxHistory st' = MicroExpression.maxHistory st /\
  MicroExpression.keyIndices st' = MicroExpression.keyIndices st /\
  (MicroExpression.landmarkHistory st' = MicroExpression.landmarkHistory st \/
   exists l, kps = Some l /\
             MicroExpression.landmarkHistory st'
             = push_shift (MicroExpression.maxHistory st) (MicroExpression.landmarkHistory st)
                 (MicroExpression.mkEntry
                    (map (MicroExpression.simplify l) (MicroExpression.keyIndices st)) now)).
Proof.
  unfold MicroExpression.analyze.
  destruct kps as [l |]; [| cbn; auto].
  case_if; [cbn; auto |]. case_if; [cbn; auto |].
  case_if.
  - cbn [fst MicroExpression.maxHistory MicroExpression.landmarkHistory
         MicroExpression.keyIndices MicroExpression.addToHistory MicroExpression.bumpFrame].
    repeat split. right. exists l. split; reflexivity.
  - cbn [fst MicroExpression.maxHistory MicroExpression.landmarkHistory
         MicroExpression.keyIndices MicroExpression.setResult
         MicroExpression.addToHistory MicroExpression.bumpFrame].
    repeat split. right. exists l. split; reflexivity.
Qed.

(** X7.  Every analyzer keeps its history within its capacity across whole
    calls of its public method, whatever the inputs: the depth estimator
    under [estimateDepth], the passive, anti-spoofing, eye-reflection and
    micro-expression analyzers under [analyze]; the capacity itself never
    changes. *)
Theorem analyzers_keep_history_bounded :
  (forall st now faces,
      length (DepthEstimator.depthHistory st) <= DepthEstimator.maxHistory st ->
      let st' := fst (DepthEstimator.estimateDepth st now faces) in
      length (DepthEstimator.depthHistory st') <= DepthEstimator.maxHistory st' /\
      DepthEstimator.maxHistory st' = DepthEstimator.maxHistory st) /\
  (forall st video,
      length (PassiveLiveness.frameHistory st) <= PassiveLiveness.maxFrames st ->
      let st' := fst (PassiveLiveness.analyze st video) in
      length (PassiveLiveness.frameHistory st') <= PassiveLiveness.maxFrames st' /\
      PassiveLiveness.maxFrames st' = PassiveLiveness.maxFrames st) /\
  (forall st video d p,
      length (AntiSpoofing.analysisHistory st) <= AntiSpoofing.maxHistory st ->
      let st' := fst (AntiSpoofing.analyze st video d p) in
      length (AntiSpoofing.analysisHistory st') <= AntiSpoofing.maxHistory st' /\
      AntiSpoofing.maxHistory st' = AntiSpoofing.maxHistory st) /\
  (forall st video kps,
      length (EyeReflection.reflectionHistory st) <= EyeReflection.maxHistory st ->
      let st' := fst (EyeReflection.analyze st video kps) in
      length (EyeReflection.reflectionHistory st') <= EyeReflection.maxHistory st' /\
      EyeReflection.maxHistory st' = EyeReflection.maxHistory st) /\
  (forall st now kps,
      length (MicroExpression.landmarkHistory st) <= MicroExpression.maxHistory st ->
      let st' := fst (MicroExpression.analyze st now kps) in
      length (MicroExpression.landmarkHistory st') <= MicroExpression.maxHistory st' /\
      MicroExpression.maxHistory st' = MicroExpression.maxHistory st).
Proof.
  split.
  { intros st now faces H. destruct (depth_history_step st now faces) as [Hm [He | [f He]]];
      cbv zeta; rewrite Hm, He; split; auto. apply push_shift_length. exact H. }
  split.
  { intros st video H. destruct (passive_history_step st video) as [Hm [He | [f He]]];
      cbv zeta; rewrite Hm, He; split; auto. apply push_shift_length. exact H. }
  split.
  { intros st video d p H.
    destruct (antispoof_history_step st video d p) as [Hm [He | [f He]]];
      cbv zeta; rewrite Hm, He; split; auto. apply push_shift_length. exact H. }
  split.
  { intros st video kps H. destruct (eye_history_step st video kps) as [Hm [He | [f He]]];
      cbv zeta; rewrite Hm, He; split; auto. apply push_shift_length. exact H. }
  intros st now kps H.
  destruct (micro_history_step st now kps) as [Hm [_ [He | [l [_ He]]]]];
    cbv zeta; rewrite Hm, He; split; auto. apply push_shift_length. exact H.
Qed.

Lemma analyzers_keep_history_bounded_witness :
  length (AntiSpoofing.analysisHistory
            (fst (AntiSpoofing.analyze (AntiSpoofing.initialize AntiSpoofing.new)
                    Samples.flatVideo None None))) <= 10 /\
  length (MicroExpression.landmarkHistory
            (fst (MicroExpression.analyze (MicroExpression.initialize MicroExpression.new) 0
                    (Some (Samples.denseKeypoints 3))))) <= 20.
Proof.
  destruct analyzers_keep_history_bounded as [_ [_ [Has [_ Hmicro]]]].
  split.
  - apply (Has (AntiSpoofing.initialize AntiSpoofing.new) Samples.flatVideo None None).
    cbn. lia.
  - apply (Hmicro (MicroExpression.initialize MicroExpression.new) 0%Z
             (Some (Samples.denseKeypoints 3))).
    cbn. lia.
Defined.

(** X8.  Every entry of the micro-expression history holds exactly one point per
    key index (five), whatever keypoint sets [analyze] is given -- missing
    keypoints are stored as (0, 0, 0) -- so the movement loops always find
    the matching point of the previous entry. *)
Theorem micro_entries_hold_one_point_per_key :
  forall (st : MicroExpression.State) (now : Z) (kps : option (list Landmarks.Keypoint)),
    Forall (fun e => length (MicroExpression.entryKeypoints e)
                     = length (MicroExpression.keyIndices st))
           (MicroExpression.landmarkHistory st) ->
    let st' := fst (MicroExpression.analyze st now kps) in
    MicroExpression.keyIndices st' = MicroExpression.keyIndices st /\
    Forall (fun e => length (MicroExpression.entryKeypoints e)
                     = length (MicroExpression.keyIndices st'))
           (MicroExpression.landmarkHistory st').
Proof.
  intros st now kps H.
  destruct (micro_history_step st now kps) as [_ [Hk [He | [l [_ He]]]]];
    cbv zeta; rewrite Hk, He; split; auto.
  apply Forall_push_shift; [exact H |].
  cbn [MicroExpression.entryKeypoints]. apply length_map.
Qed.

Lemma micro_entries_hold_one_point_per_key_witness :
  Forall (fun e => length (MicroExpression.entryKeypoints e) = 5%nat)
         (MicroExpression.landmarkHistory
            (fst (MicroExpression.analyze (MicroExpression.initialize MicroExpression.new) 0
                    (Some (firstn 400 (Samples.denseKeypoints 3)))))).
Proof.
  apply (micro_entries_hold_one_point_per_key
           (MicroExpression.initialize MicroExpression.new) 0%Z
           (Some (firstn 400 (Samples.denseKeypoints 3)))).
  constructor.
Defined.

End AnalyzerState.

(** ** Face-size classes *)

Section FaceSize.

Import FaceDetector.
Local Open Scope float_scope.

Lemma leb_false_of_nan_l (x y : float) : Prim2SF x = S754_nan -> (x <=? y) = false.
Proof. intros H. rewrite leb_spec, H. reflexivity. Qed.

Lemma leb_false_of_nan_r (x y : float) : Prim2SF y = S754_nan -> (x <=? y) = false.
Proof.
  intros H. rewrite leb_spec, H. unfold SFleb.
  destruct (Prim2SF x) as [[] | [] | | [] ? ?]; reflexivity.
Qed.

(** X9.  [getFaceSize] measures the first prediction only.  When the area ratio
    is a number, exactly one of the three classes holds: [appropriate]
    (0.15 <= ratio <= 0.40), [tooSmall] or [tooLarge].  When the ratio is NaN
    (a 0 x 0 frame, a box without corners) none of the three holds: the face
    is reported as not appropriate, yet neither too small nor too large. *)
Theorem face_size_classes_partition :
  forall (face : Prediction) (rest : list Prediction) (w h : number),
    let r := getFaceSize (face :: rest) w h in
    r = getFaceSize [face] w h /\
    (isNaN (ratio r) = false ->
     (appropriate r = true /\ tooSmall r = Some false /\ tooLarge r = Some false) \/
     (appropriate r = false /\ tooSmall r = Some true /\ tooLarge r = Some false) \/
     (appropriate r = false /\ tooSmall r = Some false /\ tooLarge r = Some true)) /\
    (isNaN (ratio r) = true ->
     appropriate r = false /\ tooSmall r = Some false /\ tooLarge r = Some false).
Proof.
  intros face rest w h. cbv zeta. split; [reflexivity |].
  unfold getFaceSize. cbv zeta. cbn [appropriate ratio tooSmall tooLarge].
  set (q := (nth 0 (bottomRight face) nan - nth 0 (topLeft face) nan) *
            (nth 1 (bottomRight face) nan - nth 1 (topLeft face) nan) / (w * h)).
  unfold geb, gtb. split.
  - intros Hq.
    rewrite (ltb_negb_leb q 0.15 Hq) by reflexivity.
    rewrite (ltb_negb_leb 0.40 q) by (reflexivity || exact Hq).
    destruct (0.15 <=? q) eqn:Ha, (q <=? 0.40) eqn:Hb; cbn [andb negb]; auto.
    exfalso.
    assert (Hlarge : (0.40 <? q) = true).
    { rewrite (ltb_negb_leb 0.40 q) by (reflexivity || exact Hq). rewrite Hb. reflexivity. }
    assert (Hlt : (0.15 <? q) = true).
    { eapply (ltb_const_trans 0.15 0.40 q);
        [vm_compute; reflexivity | vm_compute; reflexivity | vm_compute; reflexivity
        | exact Hlarge]. }
    apply ltb_leb in Hlt. congruence.
  - intros Hq. apply isNaN_spec in Hq.
    rewrite (leb_false_of_nan_r 0.15 q Hq), (ltb_false_of_nan_l q 0.15 Hq),
            (ltb_false_of_nan_r 0.40 q Hq).
    auto.
Qed.

Lemma face_size_classes_partition_witness :
  let r := getFaceSize [mkPrediction [100; 100] [300; 300]] 640 480 in
  (appropriate r = true /\ tooSmall r = Some false /\ tooLarge r = Some false) \/
  (appropriate r = false /\ tooSmall r = Some true /\ tooLarge r = Some false) \/
  (appropriate r = false /\ tooSmall r = Some false /\ tooLarge r = Some true).
Proof.
  apply (proj1 (proj2 (face_size_classes_partition
                         (mkPrediction [100; 100] [300; 300]) [] 640 480))).
  vm_compute. reflexivity.
Defined.

Lemma abs_not_negative (x : float) : (abs x <? 0) = false.
Proof.
  rewrite ltb_spec, abs_spec. change (Prim2SF 0) with (S754_zero false).
  destruct (Prim2SF x) as [s | s | | s m e]; reflexivity.
Qed.

Lemma abs_of_nan (x : float) : Prim2SF x = S754_nan -> Prim2SF (abs x) = S754_nan.
Proof. intros H. rewrite abs_spec, H. reflexivity. Qed.

Lemma sub_nan_left (x y : float) : Prim2SF x = S754_nan -> Prim2SF (x - y) = S754_nan.
Proof. intros H. rewrite sub_spec, H. reflexivity. Qed.

Lemma div_nan_left (x y : float) : Prim2SF x = S754_nan -> Prim2SF (x / y) = S754_nan.
Proof. intros H. rewrite div_spec, H. reflexivity. Qed.

Lemma add_nan_left (x y : float) : Prim2SF x = S754_nan -> Prim2SF (x + y) = S754_nan.
Proof. intros H. rewrite add_spec, H. reflexivity. Qed.

(** X10.  [getFacePosition] never reports a face as centered in a frame of width
    or height 0 (a video whose metadata is not loaded yet), nor a face whose
    box has no top-left corner: the offsets are then compared with 0, or are
    NaN. *)
Theorem face_is_never_centered_in_an_empty_frame :
  (forall (predictions : list Prediction) (w h : number),
      w = 0 \/ h = 0 -> centered (getFacePosition predictions w h) = false) /\
  (forall (face : Prediction) (rest : list Prediction) (w h : number),
      topLeft face = [] ->
      centered (getFacePosition (face :: rest) w h) = false /\
      isNaN (offsetX (getFacePosition (face :: rest) w h)) = true /\
      isNaN (offsetY (getFacePosition (face :: rest) w h)) = true).
Proof.
  split.
  - intros [| face rest] w h Hz; [reflexivity |].
    unfold getFacePosition. cbv zeta. cbn [centered]. unfold Math_abs.
    destruct Hz as [-> | ->].
    + change (0 * 0.15) with 0. rewrite abs_not_negative. reflexivity.
    + change (0 * 0.15) with 0. rewrite abs_not_negative. apply andb_false_r.
  - intros face rest w h Hno.
    unfold getFacePosition. cbv zeta. cbn [centered offsetX offsetY]. rewrite Hno.
    cbn [nth]. unfold Math_abs.
    assert (Hx : forall e v : float, Prim2SF ((nan + e) / 2 - v) = S754_nan).
    { intros e v. apply sub_nan_left, div_nan_left, add_nan_left. reflexivity. }
    split; [| split].
    + rewrite (ltb_false_of_nan_l _ _ (abs_of_nan _ (Hx _ _))). reflexivity.
    + apply isNaN_spec, Hx.
    + apply isNaN_spec, Hx.
Qed.

Lemma face_is_never_centered_in_an_empty_frame_witness :
  centered (getFacePosition [mkPrediction [0; 0] [0; 0]] 0 480) = false.
Proof.
  apply (proj1 face_is_never_centered_in_an_empty_frame
           [mkPrediction [0; 0] [0; 0]] 0 480).
  left. reflexivity.
Defined.

End FaceSize.

(** ** Results of the anti-spoofing fusion *)

Section FusionResults.

Import AntiSpoofing.
Local Open Scope float_scope.

Lemma antispoof_analyze_cases (st : State) (video : Image.VideoElement)
    (d : option DepthEstimator.Result) (p : option PassiveLiveness.Result) :
  let out := analyze st video d p in
  (cachedResult (fst out) = cachedResult st /\
   lastResult (fst out) = lastResult st /\
   analysisHistory (fst out) = analysisHistory st /\
   (snd out = Normal (cachedResult st) \/ snd out = Throw)) \/
  (exists img,
      out = (fst (fuse (bumpFrame st) (subScores img d p)),
             Normal (Some (snd (fuse (bumpFrame st) (subScores img d p)))))).
Proof.
  unfold analyze.
  destruct (negb (isReady st)); [left; cbn; auto |].
  destruct (negb (frameCount (bumpFrame st) mod 3 =? 0)%nat &&
            isSome (cachedResult (bumpFrame st))); [left; cbn; auto |].
  destruct (Image.capture video _ _) as [img |]; [| left; cbn; auto].
  right. exists img. reflexivity.
Qed.

Lemma detectMaskFast_values (d : option DepthEstimator.Result) :
  detectMaskFast d = 0.5 \/ detectMaskFast d = 0.75 \/ detectMaskFast d = 1.
Proof.
  unfold detectMaskFast.
  destruct d as [r |]; [| auto].
  destruct (DepthEstimator.features r) as [f |]; [| auto].
  cbv zeta.
  destruct (gtb (DepthEstimator.zVariance f) 0.05);
    destruct (gtb (DepthEstimator.noseRatio f) 0.08 &&
              (DepthEstimator.noseRatio f <? 0.25));
    vm_compute; auto.
Qed.

Lemma detectMaskFast_not_below_half (d : option DepthEstimator.Result) :
  (detectMaskFast d <? 0.5) = false.
Proof.
  destruct (detectMaskFast_values d) as [H | [H | H]]; rewrite H; vm_compute; reflexivity.
Qed.

Lemma fused_has_no_mask_label (st : State) (img : Image.ImageData)
    (d : option DepthEstimator.Result) (p : option PassiveLiveness.Result) :
  ~ In "MASK_DETECTED"%string (attacksDetected (snd (fuse st (subScores img d p)))).
Proof.
  unfold fuse, subScores.
  cbn [snd attacksDetected h_photoScore h_screenScore h_maskScore h_deepfakeScore].
  unfold attackLabels. rewrite detectMaskFast_not_below_half.
  destruct (detectPhotoFast img d <? 0.5); destruct (detectScreenFast p <? 0.5);
    destruct (detectDeepfakeFast p <? 0.5); cbn; intros H;
    repeat match goal with
           | H : _ \/ _ |- _ => destruct H
           | H : False |- _ => destruct H
           | H : _ = _ |- _ => discriminate H
           end.
Qed.

Lemma fuse_caches (st : State) (sub : SubScores) :
  cachedResult (fst (fuse st sub)) = Some (snd (fuse st sub)).
Proof. reflexivity. Qed.

(** What holds of every fused result holds of everything [analyze] returns
    and caches, once it holds of the cache. *)
Lemma antispoof_results_satisfy (P : Result -> Prop) (st : State)
    (video : Image.VideoElement)
    (d : option DepthEstimator.Result) (p : option PassiveLiveness.Result) :
  (forall st0 img, P (snd (fuse st0 (subScores img d p)))) ->
  (forall r, cachedResult st = Some r -> P r) ->
  (forall r, snd (analyze st video d p) = Normal (Some r) -> P r) /\
  (forall r, cachedResult (fst (analyze st video d p)) = Some r -> P r).
Proof.
  intros HP Hinv.
  destruct (antispoof_analyze_cases st video d p) as [[Hc [_ [_ Hout]]] | [img Hrun]].
  - split.
    + intros r Hr. destruct Hout as [Ho | Ho]; rewrite Ho in Hr; [| discriminate].
      injection Hr as Hr. apply Hinv. exact Hr.
    + intros r Hr. rewrite Hc in Hr. apply Hinv. exact Hr.
  - cbv zeta in Hrun. rewrite Hrun. cbn [fst snd].
    pose proof (HP (bumpFrame st) img) as HPr.
    pose proof (fuse_caches (bumpFrame st) (subScores img d p)) as Hc.
    destruct (fuse (bumpFrame st) (subScores img d p)) as [st2 r2].
    cbn [fst snd] in *. split; intros r Hr.
    + injection Hr as <-. exact HPr.
    + rewrite Hc in Hr. injection Hr as <-. exact HPr.
Qed.

(** X11.  The mask detector returns 0.5, 0.75 or 1 and nothing else, whatever the
    depth result, so its sub-score is never below 0.5 and [analyze] never
    reports MASK_DETECTED: no result it returns or caches carries the label,
    once the cache holds none. *)
Theorem mask_attack_is_never_reported :
  forall (st : State) (video : Image.VideoElement)
         (d : option DepthEstimator.Result) (p : option PassiveLiveness.Result),
    (forall r, cachedResult st = Some r -> ~ In "MASK_DETECTED"%string (attacksDetected r)) ->
    (detectMaskFast d = 0.5 \/ detectMaskFast d = 0.75 \/ detectMaskFast d = 1) /\
    (forall r, snd (analyze st video d p) = Normal (Some r) ->
               ~ In "MASK_DETECTED"%string (attacksDetected r)) /\
    (forall r, cachedResult (fst (analyze st video d p)) = Some r ->
               ~ In "MASK_DETECTED"%string (attacksDetected r)).
Proof.
  intros st video d p Hinv. split; [apply detectMaskFast_values |].
  apply (antispoof_results_satisfy
           (fun r => ~ In "MASK_DETECTED"%string (attacksDetected r))); [| exact Hinv].
  intros st0 img. apply fused_has_no_mask_label.
Qed.

Lemma mask_attack_is_never_reported_witness :
  exists r,
    snd (analyze (initialize new) (Image.mkVideo 10 10 (fun _ _ => [])) None None)
    = Normal (Some r) /\
    ~ In "MASK_DETECTED"%string (attacksDetected r).
Proof.
  assert (H : forall r, cachedResult (initialize new) = Some r ->
                        ~ In "MASK_DETECTED"%string (attacksDetected r))
    by (intros r Hr; discriminate Hr).
  eexists. split; [vm_compute; reflexivity |].
  apply (proj1 (proj2 (mask_attack_is_never_reported
                         (initialize new) (Image.mkVideo 10 10 (fun _ _ => []))
                         None None H))).
  vm_compute. reflexivity.
Defined.

Lemma above_85_above_80 (x : float) : (85 <? x) = true -> (80 <? x) = true.
Proof.
  apply (ltb_const_trans 80 85 x 5629499534213120%positive (-46)%Z
                         5981343255101440%positive (-46)%Z); vm_compute; reflexivity.
Qed.

Lemma above_80_above_70 (x : float) : (80 <? x) = true -> (70 <? x) = true.
Proof.
  apply (ltb_const_trans 70 80 x 4925812092436480%positive (-46)%Z
                         5629499534213120%positive (-46)%Z); vm_compute; reflexivity.
Qed.

Lemma fused_confidence (st : State) (sub : SubScores) :
  (confidence (snd (fuse st sub)) = "high"%string -> isReal (snd (fuse st sub)) = true) /\
  (confidence (snd (fuse st sub)) = "low"%string -> isReal (snd (fuse st sub)) = false).
Proof.
  unfold fuse. cbv zeta. cbn [snd confidence isReal].
  match goal with |- context [gtb ?o 85] => generalize o end.
  intros overall. unfold gtb.
  destruct (85 <? overall) eqn:H85.
  - rewrite (above_85_above_80 _ H85). split; [reflexivity | intros H; discriminate H].
  - destruct (70 <? overall) eqn:H70.
    + split; intros H; discriminate H.
    + split; [intros H; discriminate H | intros _].
      destruct (80 <? overall) eqn:H80; [| reflexivity].
      apply above_80_above_70 in H80. congruence.
Qed.

(** X12.  The confidence tier of every anti-spoofing result agrees with its
    verdict: a result of confidence "high" is always real, a result of
    confidence "low" never is (this includes a NaN overall score, which is
    "low" and not real); only "medium" goes with both.  The property is kept
    by [analyze] for what it returns and what it caches. *)
Theorem confidence_tier_agrees_with_verdict :
  forall (st : State) (video : Image.VideoElement)
         (d : option DepthEstimator.Result) (p : option PassiveLiveness.Result),
    (forall r, cachedResult st = Some r ->
               (confidence r = "high"%string -> isReal r = true) /\
               (confidence r = "low"%string -> isReal r = false)) ->
    (forall r, snd (analyze st video d p) = Normal (Some r) ->
               (confidence r = "high"%string -> isReal r = true) /\
               (confidence r = "low"%string -> isReal r = false)) /\
    (forall r, cachedResult (fst (analyze st video d p)) = Some r ->
               (confidence r = "high"%string -> isReal r = true) /\
               (confidence r = "low"%string -> isReal r = false)).
Proof.
  intros st video d p Hinv.
  apply (antispoof_results_satisfy
           (fun r => (confidence r = "high"%string -> isReal r = true) /\
                     (confidence r = "low"%string -> isReal r = false))); [| exact Hinv].
  intros st0 img. apply fused_confidence.
Qed.

Lemma confidence_tier_agrees_with_verdict_witness :
  exists r,
    snd (analyze (initialize new) (Image.mkVideo 10 10 (fun _ _ => [])) None None)
    = Normal (Some r) /\
    (confidence r = "high"%string -> isReal r = true) /\
    (confidence r = "low"%string -> isReal r = false).
Proof.
  assert (H : forall r, cachedResult (initialize new) = Some r ->
                        (confidence r = "high"%string -> isReal r = true) /\
                        (confidence r = "low"%string -> isReal r = false))
    by (intros r Hr; discriminate Hr).
  eexists. split; [vm_compute; reflexivity |].
  apply (proj1 (confidence_tier_agrees_with_verdict
                  (initialize new) (Image.mkVideo 10 10 (fun _ _ => [])) None None H)).
  vm_compute. reflexivity.
Defined.

Lemma mod3_succ (n : nat) :
  (n mod 3 = 0 -> S n mod 3 = 1 /\ S (S n) mod 3 = 2 /\ S (S (S n)) mod 3 = 0)%nat.
Proof.
  intros H. apply Nat.Div0.mod_divides in H. destruct H as [k Hk]. subst n.
  replace (S (S (S (3 * k)))) with (0 + (S k) * 3)%nat by lia.
  replace (S (S (3 * k))) with (2 + k * 3)%nat by lia.
  replace (S (3 * k)) with (1 + k * 3)%nat by lia.
  rewrite !Nat.Div0.mod_add. split; [| split]; reflexivity.
Qed.

(** X13.  Frame skipping.  With a cached result and a frame count that is a
    multiple of 3, the next two calls of [analyze] return the cached result
    whatever video, depth result and passive result they are given -- the
    new inputs are not looked at, an unusable video does not raise, history
    and cache stay as they are -- and the third call analyses its frame. *)
Theorem anti_spoofing_analyses_every_third_frame :
  forall (st : State) (r : Result)
         (v1 v2 v3 : Image.VideoElement)
         (d1 d2 d3 : option DepthEstimator.Result)
         (p1 p2 p3 : option PassiveLiveness.Result) (img : Image.ImageData),
    isReady st = true ->
    cachedResult st = Some r ->
    (frameCount st mod 3 = 0)%nat ->
    Image.capture v3 (Image.scaled (Image.videoWidth v3) 0.4)
                     (Image.scaled (Image.videoHeight v3) 0.4) = Normal img ->
    let o1 := analyze st v1 d1 p1 in
    let o2 := analyze (fst o1) v2 d2 p2 in
    let o3 := analyze (fst o2) v3 d3 p3 in
    snd o1 = Normal (Some r) /\ snd o2 = Normal (Some r) /\
    analysisHistory (fst o2) = analysisHistory st /\
    cachedResult (fst o2) = Some r /\
    o3 = (fst (fuse (bumpFrame (fst o2)) (subScores img d3 p3)),
          Normal (Some (snd (fuse (bumpFrame (fst o2)) (subScores img d3 p3))))) /\
    analysisHistory (fst o3)
    = push_shift (maxHistory st) (analysisHistory st) (subScores img d3 p3).
Proof.
  intros st r v1 v2 v3 d1 d2 d3 p1 p2 p3 img Hready Hcache Hmod Hcap.
  destruct (mod3_succ _ Hmod) as [H1 [H2 H3]].
  assert (E1 : analyze st v1 d1 p1 = (bumpFrame st, Normal (Some r))).
  { unfold analyze. rewrite Hready. cbn [negb frameCount cachedResult bumpFrame].
    rewrite H1, Hcache. reflexivity. }
  cbv zeta. rewrite E1. cbn [fst snd].
  assert (E2 : analyze (bumpFrame st) v2 d2 p2
               = (bumpFrame (bumpFrame st), Normal (Some r))).
  { unfold analyze. cbn [isReady frameCount cachedResult bumpFrame].
    rewrite Hready. cbn [negb]. rewrite H2, Hcache. reflexivity. }
  rewrite E2. cbn [fst snd].
  assert (E3 : analyze (bumpFrame (bumpFrame st)) v3 d3 p3
               = (fst (fuse (bumpFrame (bumpFrame (bumpFrame st))) (subScores img d3 p3)),
                  Normal (Some (snd (fuse (bumpFrame (bumpFrame (bumpFrame st)))
                                          (subScores img d3 p3)))))).
  { unfold analyze. cbn [isReady frameCount cachedResult bumpFrame].
    rewrite Hready. cbn [negb]. rewrite H3. cbn [Nat.eqb negb andb].
    rewrite Hcap. reflexivity. }
  rewrite E3. repeat split; try reflexivity. exact Hcache.
Qed.

Lemma anti_spoofing_analyses_every_third_frame_witness :
  let st := fst (fuse (mkState true [] 10 None None 3) (mkSubScores 1 1 1 1 1)) in
  let dark := Image.mkVideo 0 0 (fun _ _ => []) in
  exists r,
    cachedResult st = Some r /\
    snd (analyze st dark None None) = Normal (Some r) /\
    snd (analyze (fst (analyze st dark None None)) dark None None) = Normal (Some r).
Proof.
  cbv zeta.
  exists (snd (fuse (mkState true [] 10 None None 3) (mkSubScores 1 1 1 1 1))).
  split; [reflexivity |].
  pose proof (anti_spoofing_analyses_every_third_frame
                (fst (fuse (mkState true [] 10 None None 3) (mkSubScores 1 1 1 1 1)))
                (snd (fuse (mkState true [] 10 None None 3) (mkSubScores 1 1 1 1 1)))
                (Image.mkVideo 0 0 (fun _ _ => [])) (Image.mkVideo 0 0 (fun _ _ => []))
                (Image.mkVideo 10 10 (fun _ _ => []))
                None None None None None None
                (Image.mkImageData [] 4 4)
                ltac:(reflexivity) ltac:(reflexivity) ltac:(reflexivity)
                ltac:(vm_compute; reflexivity)) as H.
  cbv zeta in H. destruct H as [H1 [H2 _]]. split; assumption.
Defined.

End FusionResults.

(** ** Depth results and their use by the anti-spoofing module *)

Section DepthResults.

Import DepthEstimator.
Local Open Scope float_scope.

Lemma calculateScoreFast_percentage (f : Features) :
  (0.3 <=? calculateScoreFast f) = true /\
  (calculateScoreFast f <=? 1) = true /\
  (30 <=? Math_round (calculateScoreFast f * 100)) = true /\
  (Math_round (calculateScoreFast f * 100) <=? 100) = true /\
  truthy (Math_round (calculateScoreFast f * 100)) = true.
Proof.
  unfold calculateScoreFast. cbv zeta.
  destruct (gtb (noseRatio f) 0.05); destruct (gtb (noseRatio f) 0.10);
    destruct (gtb (zVariance f) 0.01); destruct (gtb (zVariance f) 0.03);
    vm_compute; repeat split; reflexivity.
Qed.

Lemma estimateDepth_cases (st : State) (now : Z)
    (faces : completion (list (list Landmarks.Keypoint))) :
  let out := estimateDepth st now faces in
  (cachedResult (fst out) = cachedResult st /\
   (snd out = cachedResult st \/ snd out = Some noFace)) \/
  (exists r, snd out = Some r /\ cachedResult (fst out) = Some r /\
             Invariants.faceResult r).
Proof.
  unfold estimateDepth.
  destruct (negb (isModelLoaded st) || negb (faceMesh st)); [left; cbn; auto |].
  destruct (negb (frameCount (bumpFrame st) mod 2 =? 0)%nat &&
            isSome (cachedResult (bumpFrame st))); [left; cbn; auto |].
  destruct faces as [[| kps rest] |]; [left; cbn; auto | | left; cbn; auto].
  destruct (extractFeaturesFast kps now) as [f |]; [| left; cbn; auto].
  right. cbv zeta. eexists. split; [reflexivity |]. split; [reflexivity |].
  unfold Invariants.faceResult. cbn [depthScore features keypoints reason].
  eexists; eexists; eexists.
  split; [reflexivity |]. split; [apply calculateScoreFast_percentage |].
  repeat split.
Qed.

(** X14.  The depth score of a face is 30 plus at most 70 points, whatever the
    features, NaN included: between 30 and 100 and so never falsy.  Every
    result [estimateDepth] caches is therefore a face result that passes the
    guards [depthResult?.depthScore] and [depthResult?.features] of the
    anti-spoofing module; what it returns is such a result or the no-face
    result, which passes neither guard and leaves the photo and mask
    detectors at their neutral base of 0.5. *)
Theorem depth_results_feed_anti_spoofing :
  (forall f : Features,
      (30 <=? Math_round (calculateScoreFast f * 100)) = true /\
      (Math_round (calculateScoreFast f * 100) <=? 100) = true) /\
  (forall (st : State) (now : Z) (faces : completion (list (list Landmarks.Keypoint))),
      (forall r, cachedResult st = Some r -> Invariants.faceResult r) ->
      (forall r, cachedResult (fst (estimateDepth st now faces)) = Some r ->
                 Invariants.faceResult r) /\
      (forall r, snd (estimateDepth st now faces) = Some r ->
                 Invariants.faceResult r \/ r = noFace)) /\
  (forall r : Result,
      Invariants.faceResult r ->
      AntiSpoofing.truthyDepthScore (Some r) = depthScore r /\
      depthScore r <> None /\
      (AntiSpoofing.detectMaskFast (Some r) = 0.5 \/
       AntiSpoofing.detectMaskFast (Some r) = 0.75 \/
       AntiSpoofing.detectMaskFast (Some r) = 1)) /\
  AntiSpoofing.truthyDepthScore (Some noFace) = None /\
  AntiSpoofing.detectMaskFast (Some noFace) = 0.5.
Proof.
  split.
  { intros f. pose proof (calculateScoreFast_percentage f). tauto. }
  split.
  { intros st now faces Hinv.
    destruct (estimateDepth_cases st now faces) as [[Hc Hout] | [r0 [Hout [Hc Hr0]]]].
    - split.
      + intros r Hr. rewrite Hc in Hr. apply Hinv. exact Hr.
      + intros r Hr. destruct Hout as [Ho | Ho]; rewrite Ho in Hr.
        * left. apply Hinv. exact Hr.
        * right. injection Hr as Hr. auto.
    - split.
      + intros r Hr. rewrite Hc in Hr. injection Hr as <-. exact Hr0.
      + intros r Hr. rewrite Hout in Hr. injection Hr as <-. left. exact Hr0. }
  split.
  { intros r [ds [f [kps [Hds [Ht [Hf [_ _]]]]]]].
    split; [| split].
    - unfold AntiSpoofing.truthyDepthScore. rewrite Hds, Ht. reflexivity.
    - rewrite Hds. discriminate.
    - apply detectMaskFast_values. }
  split; reflexivity.
Qed.

Lemma depth_results_feed_anti_spoofing_witness :
  exists r,
    snd (estimateDepth (initialize new true) 0 (Normal [Samples.denseKeypoints 3])) = Some r /\
    (Invariants.faceResult r \/ r = noFace).
Proof.
  assert (H : forall r, cachedResult (initialize new true) = Some r ->
                        Invariants.faceResult r)
    by (intros r Hr; discriminate Hr).
  eexists. split; [vm_compute; reflexivity |].
  apply (proj2 (proj1 (proj2 depth_results_feed_anti_spoofing)
                  (initialize new true) 0%Z (Normal [Samples.denseKeypoints 3]) H)).
  vm_compute. reflexivity.
Defined.

End DepthResults.

(** ** Sessions: what the timers of the application can do *)

Section Sessions.

Import Scores LivenessApp Invariants.

Lemma kept_refl (a : App) : kept a a.
Proof. repeat split. Qed.

Lemma kept_trans (a b c : App) : kept a b -> kept b c -> kept a c.
Proof. unfold kept. intros [H1 [H2 H3]] [H4 [H5 H6]]. repeat split; congruence. Qed.

Lemma kept_advances (a a' : App) : kept a a' -> Invariants.advances a a'.
Proof.
  intros [H1 [H2 H3]]. unfold Invariants.advances.
  split; [exact H1 |]. split; [lia |].
  exists []. rewrite app_nil_r. split; [exact H3 |]. split; [congruence | constructor].
Qed.

Lemma advances_trans (a b c : App) :
  Invariants.advances a b -> Invariants.advances b c -> Invariants.advances a c.
Proof.
  intros [R1 [C1 [vs1 [S1 [E1 F1]]]]] [R2 [C2 [vs2 [S2 [E2 F2]]]]].
  unfold Invariants.advances.
  split; [congruence |]. split; [lia |].
  exists (vs1 ++ vs2)%list. split; [rewrite S2, S1, app_assoc; reflexivity |].
  split.
  - intros Hne. destruct vs2 as [| v vs2'].
    + rewrite app_nil_r in Hne. specialize (E1 Hne). lia.
    + rewrite <- R1. apply E2. discriminate.
  - apply Forall_app. split; assumption.
Qed.

Lemma stopPassiveAnalysis_kept (a : App) : kept a (stopPassiveAnalysis a).
Proof. unfold stopPassiveAnalysis. destruct (passiveAnalysisInterval a); repeat split. Qed.

Lemma stopDetection_kept (a : App) : kept a (stopDetection a).
Proof. unfold stopDetection. destruct (detectionInterval (faceDetector a)); repeat split. Qed.

Lemma untouched_refl (a : App) : untouched a a.
Proof. repeat split. Qed.

Lemma untouched_trans (a b c : App) : untouched a b -> untouched b c -> untouched a c.
Proof.
  unfold untouched. intros [H1 [H2 [H3 [H4 [H5 [H6 H7]]]]]] [K1 [K2 [K3 [K4 [K5 [K6 K7]]]]]].
  repeat split; congruence.
Qed.

Lemma untouched_kept (a a' : App) : untouched a a' -> kept a a'.
Proof. unfold untouched, kept. tauto. Qed.

Lemma depthPart_untouched (a : App) (env : Environment) :
  untouched a (fst (depthPart a env)).
Proof.
  unfold depthPart.
  destruct (DepthEstimator.estimateDepth _ _ _) as [dst [r |]]; [| repeat split].
  cbv zeta. cbn [latestKeypoints set_latestKeypoints].
  destruct (DepthEstimator.keypoints r); repeat split.
Qed.

Lemma passivePart_untouched (a : App) (env : Environment) :
  untouched a (fst (passivePart a env)).
Proof.
  unfold passivePart.
  destruct (PassiveLiveness.analyze _ _) as [pst [[r |] |]]; repeat split.
Qed.

Lemma antiSpoofPart_untouched (a : App) (env : Environment) d p :
  untouched a (fst (antiSpoofPart a env d p)).
Proof.
  unfold antiSpoofPart.
  destruct (AntiSpoofing.analyze _ _ _ _) as [ast [[r |] |]]; repeat split.
Qed.

Lemma eyePart_untouched (a : App) (env : Environment) kps :
  untouched a (fst (eyePart a env kps)).
Proof.
  unfold eyePart.
  destruct (EyeReflection.analyze _ _ _) as [est [[r |] |]]; repeat split.
Qed.

Lemma microPart_untouched (a : App) kps : untouched a (microPart a kps).
Proof.
  unfold microPart.
  destruct (MicroExpression.analyze _ _ _) as [mst [r |]]; repeat split.
Qed.

Lemma passiveCycle_untouched (a : App) (env : Environment) :
  untouched a (passiveCycle a env).
Proof.
  unfold passiveCycle.
  destruct (negb (isVerifying a)); [apply untouched_refl |].
  pose proof (depthPart_untouched a env) as H1.
  destruct (depthPart a env) as [a1 depthResult]. cbn [fst] in H1.
  pose proof (passivePart_untouched a1 env) as H2.
  destruct (passivePart a1 env) as [a2 [passiveResult |]]; cbn [fst] in H2;
    [| exact (untouched_trans _ _ _ H1 H2)].
  pose proof (antiSpoofPart_untouched a2 env depthResult passiveResult) as H3.
  destruct (antiSpoofPart a2 env depthResult passiveResult) as [a3 [u |]]; cbn [fst] in H3;
    [| exact (untouched_trans _ _ _ H1 (untouched_trans _ _ _ H2 H3))].
  assert (H13 : untouched a a3)
    by exact (untouched_trans _ _ _ H1 (untouched_trans _ _ _ H2 H3)).
  destruct depthResult as [r |]; [| exact H13].
  destruct (DepthEstimator.keypoints r) as [kps |]; [| exact H13].
  pose proof (eyePart_untouched a3 env kps) as H4.
  destruct (eyePart a3 env kps) as [a4 [u' |]]; cbn [fst] in H4;
    [| exact (untouched_trans _ _ _ H13 H4)].
  exact (untouched_trans _ _ _ H13
           (untouched_trans _ _ _ H4 (microPart_untouched a4 kps))).
Qed.

Lemma passiveCycle_kept (a : App) (env : Environment) : kept a (passiveCycle a env).
Proof. apply untouched_kept, passiveCycle_untouched. Qed.

Lemma stopPassiveAnalysis_isVerifying (a : App) :
  isVerifying (stopPassiveAnalysis a) = isVerifying a.
Proof. unfold stopPassiveAnalysis. destruct (passiveAnalysisInterval a); reflexivity. Qed.

Lemma stopDetection_isVerifying (a : App) :
  isVerifying (stopDetection a) = isVerifying a.
Proof. unfold stopDetection. destruct (detectionInterval (faceDetector a)); reflexivity. Qed.

Lemma passiveCycle_idle (a : App) (env : Environment) :
  isVerifying a = false -> passiveCycle a env = a.
Proof. intros H. unfold passiveCycle. rewrite H. reflexivity. Qed.

(** X15.  The passive-analysis tick writes security scores, analyzer state and
    keypoints, and nothing else: it never touches the challenger, the timer
    table, the number of completed challenges, the confidence history or the
    verdicts, whatever the analyzers return or raise; and once the attempt is
    over ([isVerifying] false) a late tick writes nothing at all. *)
Theorem passive_analysis_leaves_challenges_alone :
  forall (a : App) (env : Environment),
    livenessChallenger (passiveCycle a env) = livenessChallenger a /\
    timers (passiveCycle a env) = timers a /\
    confidenceHistory (passiveCycle a env) = confidenceHistory a /\
    isVerifying (passiveCycle a env) = isVerifying a /\
    requiredChallenges (passiveCycle a env) = requiredChallenges a /\
    completedChallenges (passiveCycle a env) = completedChallenges a /\
    shown (passiveCycle a env) = shown a /\
    (forall s, passiveCycle (completeVerification a s) env = completeVerification a s) /\
    passiveCycle (resetApp a) env = resetApp a.
Proof.
  intros a env.
  destruct (passiveCycle_untouched a env) as [H1 [H2 [H3 [H4 [H5 [H6 H7]]]]]].
  repeat (split; [assumption |]). split.
  - intros s. apply passiveCycle_idle. unfold completeVerification. cbv zeta.
    cbn [isVerifying set_shown set_securityScores].
    rewrite stopDetection_isVerifying, stopPassiveAnalysis_isVerifying. reflexivity.
  - apply passiveCycle_idle. reflexivity.
Qed.

Lemma handleChallengeComplete_advances (a : App) r :
  Invariants.advances a (handleChallengeComplete a r).
Proof.
  unfold handleChallengeComplete, Invariants.advances.
  destruct (LivenessChallenger.success r);
    cbn [requiredChallenges completedChallenges shown set_timers set_completedChallenges];
    (split; [reflexivity |]); (split; [lia |]);
    exists []; rewrite app_nil_r; (split; [reflexivity |]);
    (split; [congruence | constructor]).
Qed.

Lemma advances_refl (a : App) : Invariants.advances a a.
Proof. apply kept_advances, kept_refl. Qed.

Lemma deliver_advances (cbs : list LivenessChallenger.Callback) :
  forall a : App, Invariants.advances a (deliver a cbs).
Proof.
  unfold deliver. induction cbs as [| cb cbs IH]; intros a; [apply advances_refl |].
  cbn [fold_left]. destruct cb as [r | progress].
  - eapply advances_trans; [apply handleChallengeComplete_advances | apply IH].
  - apply IH.
Qed.

Lemma completeVerification_advances (a : App) (success : bool) :
  (requiredChallenges a <= completedChallenges a)%nat ->
  Invariants.advances a (completeVerification a success).
Proof.
  intros Hdone.
  destruct (stopPassiveAnalysis_kept (set_isVerifying a false)) as [P1 [P2 P3]].
  destruct (stopDetection_kept (stopPassiveAnalysis (set_isVerifying a false)))
    as [D1 [D2 D3]].
  cbn [requiredChallenges completedChallenges shown set_isVerifying] in P1, P2, P3.
  unfold completeVerification, Invariants.advances. cbv zeta.
  cbn [requiredChallenges completedChallenges shown set_shown set_securityScores].
  rewrite D1, P1, D2, P2, D3, P3.
  split; [reflexivity |]. split; [lia |].
  eexists. split; [reflexivity |]. split; [intros _; exact Hdone |].
  constructor; [| constructor].
  unfold Invariants.sound. cbn [finalSuccess combinedScore].
  intros H. apply andb_prop in H. exact (proj2 H).
Qed.

Lemma startNextChallenge_advances (a : App) retry (env : Environment) :
  Invariants.advances a (startNextChallenge a retry env).
Proof.
  unfold startNextChallenge.
  destruct (requiredChallenges a <=? completedChallenges a)%nat eqn:Hdone.
  - apply completeVerification_advances. apply Nat.leb_le. exact Hdone.
  - destruct (match retry with
              | Some i => if String.eqb i ""%string then None else Some i
              | None => None
              end) as [i |].
    + destruct (LivenessChallenger.startChallengeExplicit _ _ _ _) as [[ch tbl] c].
      apply kept_advances. repeat split.
    + destruct (LivenessChallenger.startChallenge _ _ _ _) as [[ch tbl] [cbs |]].
      * eapply advances_trans; [| apply deliver_advances].
        apply kept_advances. repeat split.
      * apply kept_advances. repeat split.
Qed.

Lemma handleDetection_advances (a : App) data :
  Invariants.advances a (handleDetection a data).
Proof.
  unfold handleDetection. cbv zeta.
  match goal with
  | |- context [if ?b then set_confidenceHistory _ _ else _] => destruct b
  end;
  match goal with
  | |- context [if ?b then _ else _] => destruct b
  end; try solve [apply kept_advances; repeat split].
  all: destruct (LivenessChallenger.processDetection _ _ _) as [ch [cbs |]];
    [eapply advances_trans; [| apply deliver_advances] |];
    apply kept_advances; repeat split.
Qed.

Lemma runHandler_advances (a : App) tm (env : Environment) :
  Invariants.advances a (runHandler a tm env).
Proof.
  unfold runHandler. destruct (Timers.handler tm) as [| | | | retry].
  - destruct (LivenessChallenger.onChallengeTimeout _ _) as [ch cbs].
    eapply advances_trans; [| apply deliver_advances].
    apply kept_advances. repeat split.
  - destruct (LivenessChallenger.onProgressTick _ _ _ _) as [tbl c].
    apply kept_advances. repeat split.
  - apply kept_advances, passiveCycle_kept.
  - destruct (detection env); [apply handleDetection_advances | apply advances_refl].
  - apply startNextChallenge_advances.
Qed.

Lemma fire_advances (a : App) tm (env : Environment) :
  Invariants.advances a (fire a tm env).
Proof.
  unfold fire. cbv zeta.
  set (a0 := match Timers.period tm with
             | None => set_timers a (Timers.clear (timers a) (Timers.tid tm))
             | Some _ => a
             end).
  apply advances_trans with a0.
  { subst a0. destruct (Timers.period tm); apply kept_advances; repeat split. }
  apply advances_trans with (runHandler a0 tm env); [apply runHandler_advances |].
  apply kept_advances. repeat split.
Qed.

Lemma advance_advances (fuel : nat) (env : Z -> Environment) (target : Z) :
  forall a a', advance fuel env target a = Some a' -> Invariants.advances a a'.
Proof.
  induction fuel as [| fuel IH]; intros a a'; cbn [advance];
    destruct (earliest (timers a)) as [tm |];
    try (destruct (Timers.due tm <=? target)%Z);
    intros H; try discriminate H;
    try solve [injection H as <-; apply kept_advances; repeat split].
  apply IH in H.
  apply advances_trans with (fire (set_now a (Z.max (now a) (Timers.due tm))) tm
                                  (env (Z.max (now a) (Timers.due tm)))); [| exact H].
  apply advances_trans with (set_now a (Z.max (now a) (Timers.due tm)));
    [| apply fire_advances].
  apply kept_advances. repeat split.
Qed.

(** X16.  However the event loop runs -- whatever the camera shows, the detectors
    answer and [Math.random()] returns, and whichever timers fire -- it only
    adds verdicts, never shows one before the required number of challenges
    is completed, shows a positive one only with a combined score of at
    least 80, and never lowers the number of completed challenges. *)
Theorem event_loop_shows_only_earned_verdicts :
  forall (fuel : nat) (env : Z -> Environment) (target : Z) (a a' : App),
    advance fuel env target a = Some a' ->
    requiredChallenges a' = requiredChallenges a /\
    (completedChallenges a <= completedChallenges a')%nat /\
    exists vs,
      shown a' = (shown a ++ vs)%list /\
      (vs <> [] -> (requiredChallenges a <= completedChallenges a')%nat) /\
      Forall (fun v => finalSuccess v = true -> (80 <=? combinedScore v)%float = true) vs.
Proof.
  intros fuel env target a a' H. exact (advance_advances fuel env target a a' H).
Qed.

Lemma event_loop_shows_only_earned_verdicts_witness :
  exists a',
    advance 1000 Samples.idleEnv 3000 (startVerification loaded) = Some a' /\
    requiredChallenges a' = 2%nat /\
    exists vs, shown a' = ([] ++ vs)%list /\ (vs <> [] -> (2 <= completedChallenges a')%nat).
Proof.
  assert (N : advance 1000 Samples.idleEnv 3000 (startVerification loaded) <> None)
    by (vm_compute; discriminate).
  destruct (advance 1000 Samples.idleEnv 3000 (startVerification loaded)) as [a' |] eqn:E;
    [| exfalso; apply N; reflexivity].
  exists a'. split; [reflexivity |].
  destruct (event_loop_shows_only_earned_verdicts
              1000 Samples.idleEnv 3000%Z (startVerification loaded) a' E)
    as [R [_ [vs [S [Hn _]]]]].
  split; [exact R |]. exists vs. split; [exact S | exact Hn].
Defined.

Lemma startNextChallenge_exhausted (a : App) (env : Environment) :
  (completedChallenges a < requiredChallenges a)%nat ->
  LivenessChallenger.availableChallenges (livenessChallenger a) = [] ->
  completedChallenges (startNextChallenge a None env) = S (completedChallenges a) /\
  LivenessChallenger.challengeHistory (livenessChallenger (startNextChallenge a None env))
  = [] /\
  LivenessChallenger.currentChallenge (livenessChallenger (startNextChallenge a None env))
  = None /\
  LivenessChallenger.isActive (livenessChallenger (startNextChallenge a None env))
  = LivenessChallenger.isActive (livenessChallenger a) /\
  Timers.pending (timers (startNextChallenge a None env))
  = (Timers.pending (timers a) ++
     [Timers.mkTimer (Timers.nextId (timers a)) (now a + 1000) None
                     (Timers.StartNextChallenge None)])%list /\
  shown (startNextChallenge a None env) = shown a /\
  requiredChallenges (startNextChallenge a None env) = requiredChallenges a.
Proof.
  intros Hlt Hnone. unfold startNextChallenge.
  replace (requiredChallenges a <=? completedChallenges a)%nat with false
    by (symmetry; apply Nat.leb_gt; exact Hlt).
  unfold LivenessChallenger.startChallenge, LivenessChallenger.getRandomChallenge.
  rewrite Hnone. cbn [length Nat.eqb]. repeat split.
Qed.

(** X17.  Were every descriptor of the pool used while challenges are still
    required, the next-challenge step would run no challenge at all: the
    selector clears the used-set and returns none, the challenger reports
    success with [allChallengesComplete], and the application counts one
    more completed challenge and arms the next step one second later. *)
Theorem exhausted_pool_counts_as_completed_challenge :
  forall (a : App) (env : Environment),
    (completedChallenges a < requiredChallenges a)%nat ->
    LivenessChallenger.availableChallenges (livenessChallenger a) = [] ->
    let a' := startNextChallenge a None env in
    completedChallenges a' = S (completedChallenges a) /\
    LivenessChallenger.challengeHistory (livenessChallenger a') = [] /\
    LivenessChallenger.currentChallenge (livenessChallenger a') = None /\
    LivenessChallenger.isActive (livenessChallenger a')
    = LivenessChallenger.isActive (livenessChallenger a) /\
    Timers.pending (timers a')
    = (Timers.pending (timers a) ++
       [Timers.mkTimer (Timers.nextId (timers a)) (now a + 1000) None
                       (Timers.StartNextChallenge None)])%list /\
    shown a' = shown a.
Proof.
  intros a env Hlt Hnone. cbv zeta.
  destruct (startNextChallenge_exhausted a env Hlt Hnone) as [H1 [H2 [H3 [H4 [H5 [H6 _]]]]]].
  repeat split; assumption.
Qed.

Lemma exhausted_pool_counts_as_completed_challenge_witness :
  completedChallenges
    (startNextChallenge (set_livenessChallenger loaded Samples.exhausted) None
                        (Samples.idleEnv 0)) = 1%nat.
Proof.
  apply (exhausted_pool_counts_as_completed_challenge
           (set_livenessChallenger loaded Samples.exhausted) (Samples.idleEnv 0)).
  - cbn. lia.
  - vm_compute. reflexivity.
Defined.

(** X18.  A challenge that times out is retried as it is.  The timeout handler
    records the failure, ends the challenge and arms a retry with the
    identifier of the failed challenge two seconds later, counting nothing;
    the retry step then starts the descriptor of that identifier again --
    without consulting the used-set or [Math.random()], although the
    identifier is in the history by then -- with fresh per-challenge state
    and its own timeout and progress timers. *)
Theorem timed_out_challenge_is_retried_as_it_is :
  (forall (a : App) (c : LivenessChallenger.Challenge) (tm : Timers.Timer)
          (env : Environment),
      Timers.handler tm = Timers.ChallengeTimeout ->
      LivenessChallenger.currentChallenge (livenessChallenger a) = Some c ->
      LivenessChallenger.isActive (livenessChallenger a) = true ->
      let a' := runHandler a tm env in
      completedChallenges a' = completedChallenges a /\
      LivenessChallenger.isActive (livenessChallenger a') = false /\
      LivenessChallenger.currentChallenge (livenessChallenger a') = None /\
      (exists d,
          LivenessChallenger.challengeHistory (livenessChallenger a')
          = (LivenessChallenger.challengeHistory (livenessChallenger a) ++
             [LivenessChallenger.mkChallengeResult
                (Some (LivenessChallenger.id c)) (Some (LivenessChallenger.name c))
                false (Some d) false])%list) /\
      Timers.pending (timers a')
      = (Timers.pending (timers a) ++
         [Timers.mkTimer (Timers.nextId (timers a)) (now a + 2000) None
            (Timers.StartNextChallenge (Some (LivenessChallenger.id c)))])%list) /\
  (forall (a : App) (i : string) (c : LivenessChallenger.Challenge) (env : Environment),
      (completedChallenges a < requiredChallenges a)%nat ->
      i <> ""%string ->
      List.find (fun c' => String.eqb (LivenessChallenger.id c') i)
                (LivenessChallenger.challenges (livenessChallenger a)) = Some c ->
      let ch := livenessChallenger (startNextChallenge a (Some i) env) in
      LivenessChallenger.currentChallenge ch = Some c /\
      LivenessChallenger.isActive ch = true /\
      LivenessChallenger.startTime ch = Some (now a) /\
      LivenessChallenger.blinkCount ch = 0%nat /\
      LivenessChallenger.headTurnStates ch = LivenessChallenger.noDir /\
      LivenessChallenger.landmarkHistory ch = [] /\
      LivenessChallenger.baseline ch = LivenessChallenger.noBaseline /\
      LivenessChallenger.challengeHistory ch
      = LivenessChallenger.challengeHistory (livenessChallenger a) /\
      Timers.pending (timers (startNextChallenge a (Some i) env))
      = (Timers.pending (timers a) ++
         [Timers.mkTimer (Timers.nextId (timers a))
                         (now a + LivenessChallenger.duration c) None
                         Timers.ChallengeTimeout;
          Timers.mkTimer (S (Timers.nextId (timers a))) (now a + 100) (Some 100%Z)
                         Timers.ChallengeProgress])%list).
Proof.
  split.
  - intros a c tm env Hh Hc Hact. cbv zeta. unfold runHandler. rewrite Hh.
    unfold LivenessChallenger.onChallengeTimeout. rewrite Hc, Hact.
    unfold LivenessChallenger.completeChallenge. rewrite Hc.
    cbn. repeat split. eexists. reflexivity.
  - intros a i c env Hlt Hi Hfind. cbv zeta. unfold startNextChallenge.
    replace (requiredChallenges a <=? completedChallenges a)%nat with false
      by (symmetry; apply Nat.leb_gt; exact Hlt).
    replace (String.eqb i ""%string) with false
      by (symmetry; apply String.eqb_neq; exact Hi).
    rewrite Hfind.
    unfold LivenessChallenger.startChallengeExplicit, LivenessChallenger.initChallengeState.
    cbn. rewrite <- app_assoc. repeat split.
Qed.

Lemma timed_out_challenge_is_retried_as_it_is_witness :
  let c := LivenessChallenger.mkChallenge "smile" "Smile Detection"
             "Please smile naturally" 8000 LivenessChallenger.VerifySmile in
  LivenessChallenger.currentChallenge
    (livenessChallenger
       (startNextChallenge (set_livenessChallenger loaded Samples.exhausted)
                           (Some "smile"%string) (Samples.idleEnv 0))) = Some c.
Proof.
  cbv zeta.
  apply (proj2 timed_out_challenge_is_retried_as_it_is
           (set_livenessChallenger loaded Samples.exhausted) "smile"%string
           (LivenessChallenger.mkChallenge "smile" "Smile Detection"
              "Please smile naturally" 8000 LivenessChallenger.VerifySmile)
           (Samples.idleEnv 0)).
  - cbn. lia.
  - discriminate.
  - vm_compute. reflexivity.
Defined.

(** X19.  The retry button starts a new attempt without a reset.  The new attempt
    counts its completed challenges from 0, but it inherits from the attempt
    that was just finalized the challenger with its used-set, the five
    passive scores, the analyzers with their caches and the dense keypoints;
    the descriptors used before stay unavailable to it.  Only [resetApp]
    clears them. *)
Theorem retry_inherits_used_challenges_and_scores :
  forall (a : App) (success : bool),
    let a' := startVerification (completeVerification a success) in
    livenessChallenger a' = livenessChallenger a /\
    LivenessChallenger.availableChallenges (livenessChallenger a')
    = LivenessChallenger.availableChallenges (livenessChallenger a) /\
    completedChallenges a' = 0%nat /\
    isVerifying a' = true /\
    confidenceHistory a' = [] /\
    passive (securityScores a') = passive (securityScores a) /\
    antiSpoof (securityScores a') = antiSpoof (securityScores a) /\
    depth (securityScores a') = depth (securityScores a) /\
    Scores.eyeReflection (securityScores a') = Scores.eyeReflection (securityScores a) /\
    Scores.microExpression (securityScores a') = Scores.microExpression (securityScores a) /\
    analyzers a' = analyzers a /\
    latestKeypoints a' = latestKeypoints a /\
    LivenessChallenger.challengeHistory (livenessChallenger (resetApp a)) = [] /\
    securityScores (resetApp a) = initialScores.
Proof.
  intros a success. cbv zeta.
  assert (Hfinal : forall b : App,
             livenessChallenger (stopDetection (stopPassiveAnalysis b)) = livenessChallenger b /\
             securityScores (stopDetection (stopPassiveAnalysis b)) = securityScores b /\
             analyzers (stopDetection (stopPassiveAnalysis b)) = analyzers b /\
             latestKeypoints (stopDetection (stopPassiveAnalysis b)) = latestKeypoints b).
  { intros b. unfold stopDetection, stopPassiveAnalysis.
    destruct (passiveAnalysisInterval b);
      match goal with
      | |- context [detectionInterval ?f] => destruct (detectionInterval f)
      end; repeat split. }
  destruct (Hfinal (set_isVerifying a false)) as [F1 [F2 [F3 F4]]].
  cbn [livenessChallenger securityScores analyzers latestKeypoints set_isVerifying]
    in F1, F2, F3, F4.
  assert (Hstart : forall b : App,
             livenessChallenger (startVerification b) = livenessChallenger b /\
             securityScores (startVerification b) = securityScores b /\
             analyzers (startVerification b) = analyzers b /\
             latestKeypoints (startVerification b) = latestKeypoints b /\
             completedChallenges (startVerification b) = 0%nat /\
             isVerifying (startVerification b) = true /\
             confidenceHistory (startVerification b) = []).
  { intros b. unfold startVerification, startPassiveAnalysis, startDetection.
    destruct (negb (isModelLoaded (faceDetector b))); repeat split. }
  destruct (Hstart (completeVerification a success)) as [S1 [S2 [S3 [S4 [S5 [S6 S7]]]]]].
  rewrite S1, S2, S3, S4, S5, S6, S7.
  unfold completeVerification. cbv zeta.
  cbn [livenessChallenger securityScores analyzers latestKeypoints set_shown
       set_securityScores passive antiSpoof depth Scores.eyeReflection
       Scores.microExpression setActive].
  rewrite F1, F2, F3, F4.
  repeat split.
  - unfold resetApp, stopDetection, stopPassiveAnalysis.
    destruct (detectionInterval (faceDetector a)); cbn;
      destruct (passiveAnalysisInterval a); reflexivity.
Qed.

Lemma filter_none {A : Type} (p : A -> bool) (l : list A) :
  (forall x, In x l -> p x = false) -> filter p l = [].
Proof.
  induction l as [| x l IH]; intros H; [reflexivity |].
  cbn [filter]. rewrite (H x (or_introl eq_refl)). apply IH.
  intros y Hy. apply H. right. exact Hy.
Qed.

Lemma none_available_after_last (st st1 : LivenessChallenger.State)
    (c : LivenessChallenger.Challenge) (t : Z) (ok : bool) :
  LivenessChallenger.availableChallenges st = [c] ->
  LivenessChallenger.challenges st1 = LivenessChallenger.challenges st ->
  LivenessChallenger.challengeHistory st1 = LivenessChallenger.challengeHistory st ->
  LivenessChallenger.currentChallenge st1 = Some c ->
  LivenessChallenger.availableChallenges
    (fst (LivenessChallenger.completeChallenge st1 t ok)) = [].
Proof.
  intros Hav Hch Hh Hc.
  unfold LivenessChallenger.completeChallenge. rewrite Hc. cbn [fst].
  unfold LivenessChallenger.availableChallenges, LivenessChallenger.used,
    LivenessChallenger.usedId.
  cbn [LivenessChallenger.challenges LivenessChallenger.challengeHistory
       LivenessChallenger.set_currentChallenge LivenessChallenger.set_challengeHistory
       LivenessChallenger.set_isActive].
  rewrite Hch, Hh. apply filter_none. intros c' Hin.
  rewrite existsb_app. cbn [existsb LivenessChallenger.r_id]. rewrite orb_false_r.
  match goal with
  | |- negb (?u || _) = false => destruct u eqn:Hused
  end; [reflexivity |].
  assert (Hc' : In c' (LivenessChallenger.availableChallenges st)).
  { unfold LivenessChallenger.availableChallenges, LivenessChallenger.used,
      LivenessChallenger.usedId.
    apply filter_In. split; [exact Hin |]. rewrite Hused. reflexivity. }
  rewrite Hav in Hc'. destruct Hc' as [<- | []].
  cbn [orb]. rewrite String.eqb_refl. reflexivity.
Qed.

(** X20.  A retried attempt that inherits two used descriptors finishes its
    challenges with a single one performed.  The first next-challenge step
    starts the one descriptor left; when that challenge is passed, the pool
    is exhausted, so the second step runs no challenge and counts one all
    the same; the third step finalizes the attempt with an active score of
    100 and a verdict that is positive exactly when the combined score is at
    least 80. *)
Theorem retried_attempt_completes_with_one_challenge :
  forall (a0 : App) (c : LivenessChallenger.Challenge) (env1 env3 env4 : Environment)
         (t : Z),
    requiredChallenges a0 = 2%nat ->
    completedChallenges a0 = 0%nat ->
    LivenessChallenger.availableChallenges (livenessChallenger a0) = [c] ->
    LivenessChallenger.getRandomChallenge (livenessChallenger a0) (random env1)
    = (livenessChallenger a0, Some c) ->
    let a1 := startNextChallenge a0 None env1 in
    let passed := LivenessChallenger.completeChallenge (livenessChallenger a1) t true in
    let a2 := deliver (set_livenessChallenger a1 (fst passed)) (snd passed) in
    let a3 := startNextChallenge a2 None env3 in
    let a4 := startNextChallenge a3 None env4 in
    LivenessChallenger.currentChallenge (livenessChallenger a1) = Some c /\
    completedChallenges a1 = 0%nat /\
    completedChallenges a2 = 1%nat /\
    length (LivenessChallenger.challengeHistory (livenessChallenger a2))
    = S (length (LivenessChallenger.challengeHistory (livenessChallenger a0))) /\
    completedChallenges a3 = 2%nat /\
    LivenessChallenger.currentChallenge (livenessChallenger a3) = None /\
    LivenessChallenger.challengeHistory (livenessChallenger a3) = [] /\
    exists v,
      shown a4 = (shown a0 ++ [v])%list /\
      active (securityScores a4) = 100%float /\
      (finalSuccess v = true <-> (80 <=? combinedScore v)%float = true).
Proof.
  intros a0 c env1 env3 env4 t Hreq Hzero Hav Hpick a1 passed a2 a3 a4.
  assert (H1 : LivenessChallenger.currentChallenge (livenessChallenger a1) = Some c /\
               LivenessChallenger.challenges (livenessChallenger a1)
               = LivenessChallenger.challenges (livenessChallenger a0) /\
               LivenessChallenger.challengeHistory (livenessChallenger a1)
               = LivenessChallenger.challengeHistory (livenessChallenger a0) /\
               completedChallenges a1 = 0%nat /\ requiredChallenges a1 = 2%nat /\
               shown a1 = shown a0).
  { subst a1. unfold startNextChallenge. rewrite Hreq, Hzero. cbn [Nat.leb].
    unfold LivenessChallenger.startChallenge. rewrite Hpick.
    unfold LivenessChallenger.initChallengeState.
    cbn [LivenessChallenger.currentChallenge LivenessChallenger.set_currentChallenge].
    cbn. repeat split; assumption. }
  destruct H1 as [Hc1 [Hch1 [Hh1 [Hz1 [Hr1 Hs1]]]]].
  clearbody a1.
  assert (Hnone : LivenessChallenger.availableChallenges (fst passed) = []).
  { subst passed. exact (none_available_after_last _ _ c t true Hav Hch1 Hh1 Hc1). }
  assert (H2 : livenessChallenger a2 = fst passed /\
               completedChallenges a2 = 1%nat /\ requiredChallenges a2 = 2%nat /\
               shown a2 = shown a0 /\
               length (LivenessChallenger.challengeHistory (fst passed))
               = S (length (LivenessChallenger.challengeHistory (livenessChallenger a0)))).
  { subst a2 passed. unfold LivenessChallenger.completeChallenge. rewrite Hc1.
    cbn [fst snd deliver fold_left]. unfold handleChallengeComplete.
    cbn [LivenessChallenger.success].
    cbn [livenessChallenger completedChallenges requiredChallenges shown set_timers
         set_completedChallenges set_livenessChallenger].
    rewrite Hz1, Hr1, Hs1.
    cbn [LivenessChallenger.challengeHistory LivenessChallenger.set_currentChallenge
         LivenessChallenger.set_challengeHistory LivenessChallenger.set_isActive].
    rewrite length_app, Hh1. cbn [length]. repeat split. lia. }
  destruct H2 as [Hl2 [Hz2 [Hr2 [Hs2 Hlen]]]].
  clearbody a2.
  assert (Hlt : (completedChallenges a2 < requiredChallenges a2)%nat)
    by (rewrite Hz2, Hr2; lia).
  assert (Hnone2 : LivenessChallenger.availableChallenges (livenessChallenger a2) = [])
    by (rewrite Hl2; exact Hnone).
  destruct (startNextChallenge_exhausted a2 env3 Hlt Hnone2)
    as [Hz3 [Hh3 [Hc3 [_ [_ [Hs3 Hr3]]]]]].
  fold a3 in Hz3, Hh3, Hc3, Hs3, Hr3. clearbody a3.
  split; [exact Hc1 |]. split; [exact Hz1 |]. split; [exact Hz2 |].
  split; [rewrite Hl2; exact Hlen |].
  split; [rewrite Hz3, Hz2; reflexivity |].
  split; [exact Hc3 |]. split; [exact Hh3 |].
  assert (Hdone : (requiredChallenges a3 <=? completedChallenges a3)%nat = true)
    by (rewrite Hr3, Hr2, Hz3, Hz2; reflexivity).
  subst a4. unfold startNextChallenge. rewrite Hdone.
  destruct (stopPassiveAnalysis_kept (set_isVerifying a3 false)) as [P1 [P2 P3]].
  destruct (stopDetection_kept (stopPassiveAnalysis (set_isVerifying a3 false)))
    as [D1 [D2 D3]].
  cbn [requiredChallenges completedChallenges shown set_isVerifying] in P1, P2, P3.
  unfold completeVerification. cbv zeta.
  cbn [shown securityScores set_shown set_securityScores active setActive].
  rewrite D1, P1, D2, P2, D3, P3, Hr3, Hr2, Hz3, Hz2, Hs3, Hs2.
  eexists. split; [reflexivity |]. split; [vm_compute; reflexivity |].
  cbn [finalSuccess combinedScore andb]. unfold geb. tauto.
Qed.

Lemma retried_attempt_completes_with_one_challenge_witness :
  let a0 := set_livenessChallenger loaded Samples.twoUsed in
  let a1 := startNextChallenge a0 None (Samples.idleEnv 0) in
  let passed := LivenessChallenger.completeChallenge (livenessChallenger a1) 7000 true in
  let a2 := deliver (set_livenessChallenger a1 (fst passed)) (snd passed) in
  let a3 := startNextChallenge a2 None (Samples.idleEnv 0) in
  completedChallenges a3 = 2%nat /\
  length (LivenessChallenger.challengeHistory (livenessChallenger a2)) = 3%nat.
Proof.
  cbv zeta.
  destruct (retried_attempt_completes_with_one_challenge
              (set_livenessChallenger loaded Samples.twoUsed)
              (LivenessChallenger.mkChallenge "turnHead" "Head Turn"
                 "Turn your head slowly left, then right" 12000
                 LivenessChallenger.VerifyHeadTurn)
              (Samples.idleEnv 0) (Samples.idleEnv 0) (Samples.idleEnv 0) 7000%Z
              ltac:(reflexivity) ltac:(reflexivity)
              ltac:(vm_compute; reflexivity) ltac:(vm_compute; reflexivity))
    as [_ [_ [_ [Hlen [Hz3 _]]]]].
  split; [exact Hz3 | exact Hlen].
Defined.

End Sessions.
